(** * Call-duration analysis: payload decoding, extraction and dedup

    A shallow embedding of [scripts/analyze_call_durations.py]
    ([decode_payload], [extract_call_data], [process_webhooks]) and the
    properties of its decode / extract / aggregate pipeline.

    - Values are the JSON data model: the rows are read from a JSON
      store and every payload is read with [json.loads], so a value is
      [None], a [bool], an [int], a [float], a [str], a [list] or a
      [dict] with [str] keys.
    - A [float] is a binary64 number ([SpecFloat]), an [int] is in [Z].
    - Exceptions are explicit: an operation that can raise returns a
      [result], and [try]/[except] is a function on results.
    - The functions of the Python library that the script calls are the
      fields of a class, [Library]; the properties are proved for every
      instance, and [CPython.library] is an executable one.
    - The text of a value, in an f-string or in a field of the CSV
      file, is a result too: [str] of an [int] of more than 4300 digits
      raises [ValueError].
    - The progress messages ([print]) are left out.

    The rest of the script follows the pipeline: the record source
    ([get_supabase_client], [fetch_webhooks]), the report
    ([save_to_csv]) and the run ([main]), each with its own
    conventions at its head. *)

From Stdlib Require Import ZArith QArith List String Ascii Bool Lia.
From Stdlib Require Import Floats.SpecFloat.
From Stdlib Require Import Strings.Byte DecimalString.
Import ListNotations.

Set Warnings "-register-all".

Local Open Scope string_scope.
Local Open Scope list_scope.
Local Open Scope Z_scope.

(* ================================================================== *)
(** ** Python values and exceptions *)
(* ================================================================== *)

Module Py.

(** A Python [str] is kept as its UTF-8 encoding (lone surrogates, which
    a [str] may hold, in their three-byte form): an injective image, so
    [==] on [str] is equality of the byte strings, and all keys and
    literals of the program are plain ASCII. *)
Definition str := string.

(** Python [bytes]. *)
Definition bytes := list byte.

(** binary64, the representation of a Python [float]. *)
Definition prec : Z := 53.
Definition emax : Z := 1024.
Definition float := spec_float.

Inductive pyval : Type :=
| PNone
| PBool (b : bool)
| PInt (z : Z)
| PFloat (f : float)
| PStr (s : str)
| PList (l : list pyval)
| PDict (d : list (str * pyval)).

(** The exception classes that the program and the library calls it
    makes can raise, with the part of the class hierarchy above them. *)
Inductive exc : Type :=
| Exception
| AttributeError | TypeError | ValueError | LookupError | KeyError
| IndexError | ArithmeticError | OverflowError | OSError | EOFError
| RuntimeError | RecursionError | MemoryError
| UnicodeError | UnicodeDecodeError | UnicodeEncodeError
| BinasciiError | BadGzipFile | ZlibError | JSONDecodeError.

Definition exc_eqb (a b : exc) : bool :=
  match a, b with
  | Exception, Exception | AttributeError, AttributeError
  | TypeError, TypeError | ValueError, ValueError
  | LookupError, LookupError | KeyError, KeyError
  | IndexError, IndexError | ArithmeticError, ArithmeticError
  | OverflowError, OverflowError | OSError, OSError
  | EOFError, EOFError | RuntimeError, RuntimeError
  | RecursionError, RecursionError | MemoryError, MemoryError
  | UnicodeError, UnicodeError | UnicodeDecodeError, UnicodeDecodeError
  | UnicodeEncodeError, UnicodeEncodeError
  | BinasciiError, BinasciiError | BadGzipFile, BadGzipFile
  | ZlibError, ZlibError | JSONDecodeError, JSONDecodeError => true
  | _, _ => false
  end.

(** The proper base classes of a class, nearest first. *)
Definition bases (e : exc) : list exc :=
  match e with
  | Exception => []
  | KeyError | IndexError => [LookupError; Exception]
  | OverflowError => [ArithmeticError; Exception]
  | RecursionError => [RuntimeError; Exception]
  | UnicodeError | BinasciiError | JSONDecodeError => [ValueError; Exception]
  | UnicodeDecodeError | UnicodeEncodeError =>
      [UnicodeError; ValueError; Exception]
  | BadGzipFile => [OSError; Exception]
  | _ => [Exception]
  end.

Definition issubclass (e c : exc) : bool :=
  exc_eqb e c || existsb (exc_eqb c) (bases e).

(** [except (c1, c2, ...)] catches [e]. *)
Definition caught (e : exc) (classes : list exc) : bool :=
  existsb (issubclass e) classes.

Inductive result (A : Type) : Type :=
| Ok (a : A)
| Raise (e : exc).
Arguments Ok {A} a.
Arguments Raise {A} e.

Definition bind {A B} (r : result A) (k : A -> result B) : result B :=
  match r with
  | Ok a => k a
  | Raise e => Raise e
  end.

(** [try: body  except classes: handler]. *)
Definition try_except {A} (body : result A) (classes : list exc)
           (handler : result A) : result A :=
  match body with
  | Ok a => Ok a
  | Raise e => if caught e classes then handler else Raise e
  end.

Definition raises {A} (r : result A) : bool :=
  match r with Ok _ => false | Raise _ => true end.

(** *** Truth value, [bool(x)] *)

Definition float_is_zero (f : float) : bool :=
  match f with S754_zero _ => true | _ => false end.

Definition truthy (v : pyval) : bool :=
  match v with
  | PNone => false
  | PBool b => b
  | PInt z => negb (z =? 0)
  | PFloat f => negb (float_is_zero f)
  | PStr s => negb (String.eqb s EmptyString)
  | PList l => match l with [] => false | _ => true end
  | PDict d => match d with [] => false | _ => true end
  end.

Definition is_none (v : pyval) : bool :=
  match v with PNone => true | _ => false end.

(** *** Mappings *)

Fixpoint lookup (k : str) (d : list (str * pyval)) : option pyval :=
  match d with
  | [] => None
  | (k', v) :: d' => if String.eqb k k' then Some v else lookup k d'
  end.

Definition field (d : list (str * pyval)) (k : str) (default : pyval)
  : pyval :=
  match lookup k d with
  | Some v => v
  | None => default
  end.

(** [o.get(k, default)]: only a [dict] has the method. *)
Definition get (o : pyval) (k : str) (default : pyval) : result pyval :=
  match o with
  | PDict d => Ok (field d k default)
  | _ => Raise AttributeError
  end.

Definition is_dict (v : pyval) : bool :=
  match v with PDict _ => true | _ => false end.

(** [o[k]] for a string key [k]. *)
Definition getitem (o : pyval) (k : str) : result pyval :=
  match o with
  | PDict d => match lookup k d with Some v => Ok v | None => Raise KeyError end
  | _ => Raise TypeError
  end.

(** *** Sequences *)

(** A byte that continues a UTF-8 sequence ([10xxxxxx]). *)
Definition is_continuation (c : ascii) : bool :=
  let n := N_of_ascii c in (128 <=? n)%N && (n <? 192)%N.

(** Number of code points of a [str]. *)
Fixpoint str_len (s : str) : Z :=
  match s with
  | EmptyString => 0
  | String c s' => (if is_continuation c then 0 else 1) + str_len s'
  end.

(** The last code point of a [str], as a [str]. *)
Fixpoint str_last (s : str) : str :=
  match s with
  | EmptyString => EmptyString
  | String c s' =>
      if str_len s' =? 0 then String c s' else str_last s'
  end.

(** [len(o)]. *)
Definition len (o : pyval) : result Z :=
  match o with
  | PStr s => Ok (str_len s)
  | PList l => Ok (Z.of_nat (List.length l))
  | PDict d => Ok (Z.of_nat (List.length d))
  | _ => Raise TypeError
  end.

(** [o[-1]]. *)
Definition getitem_last (o : pyval) : result pyval :=
  match o with
  | PList l =>
      match rev l with
      | x :: _ => Ok x
      | [] => Raise IndexError
      end
  | PStr s => if String.eqb s EmptyString then Raise IndexError else Ok (PStr (str_last s))
  | PDict _ => Raise KeyError
  | _ => Raise TypeError
  end.

(** *** Numbers *)

(** [float(n)] for an [int]: the nearest binary64, ties to even;
    [OverflowError] when that is not finite. *)
Definition float_of_int (z : Z) : result float :=
  match binary_normalize prec emax z 0 false with
  | S754_infinity _ => Raise OverflowError
  | f => Ok f
  end.

Definition float_sub (a b : float) : float := SFsub prec emax a b.

(** A float literal [m * 2^e]. *)
Definition float_lit (m e : Z) : float := binary_normalize prec emax m e false.

(** The mathematical value of a number, for [==] between [bool], [int]
    and [float], which Python compares exactly. *)
Inductive number : Type :=
| NFinite (q : Q)
| NInfinite (negative : bool)
| NNaN.

Definition two_power (e : Z) : Q :=
  match e with
  | Z0 => 1%Q
  | Zpos p => inject_Z (Z.pow_pos 2 p)
  | Zneg p => (1 # Pos.pow 2 p)%Q
  end.

Definition number_of (v : pyval) : option number :=
  match v with
  | PBool b => Some (NFinite (inject_Z (if b then 1 else 0)))
  | PInt z => Some (NFinite (inject_Z z))
  | PFloat (S754_zero _) => Some (NFinite 0%Q)
  | PFloat (S754_infinity s) => Some (NInfinite s)
  | PFloat S754_nan => Some NNaN
  | PFloat (S754_finite s m e) =>
      Some (NFinite (inject_Z (if s then Z.neg m else Z.pos m) * two_power e)%Q)
  | _ => None
  end.

Definition number_eqb (a b : number) : bool :=
  match a, b with
  | NFinite p, NFinite q => Qeq_bool p q
  | NInfinite s, NInfinite t => Bool.eqb s t
  | _, _ => false
  end.

(** [a == b] on the hashable values; a NaN equals nothing. *)
Definition eqb (a b : pyval) : bool :=
  match a, b with
  | PNone, PNone => true
  | PStr s, PStr t => String.eqb s t
  | _, _ =>
      match number_of a, number_of b with
      | Some x, Some y => number_eqb x y
      | _, _ => false
      end
  end.

Definition is_nan (v : pyval) : bool :=
  match v with PFloat S754_nan => true | _ => false end.

(** [a is b] where it can differ from [a == b]: the values of the rows
    are read by [json.loads], which gives the one object
    [json.decoder.NaN] for every NaN. *)
Definition same_object (a b : pyval) : bool := is_nan a && is_nan b.

(** The test of a lookup in a [set]: [a is b or a == b]. *)
Definition matches (a b : pyval) : bool := same_object a b || eqb a b.

(** *** Sets *)

Definition hashable (v : pyval) : bool :=
  match v with
  | PList _ | PDict _ => false
  | _ => true
  end.

(** A [set], as the list of its elements in insertion order. *)
Definition pyset := list pyval.

(** [v in s]: the hash of [v] is taken first. *)
Definition set_contains (s : pyset) (v : pyval) : result bool :=
  if hashable v then Ok (existsb (matches v) s) else Raise TypeError.

(** [s.add(v)]. *)
Definition set_add (s : pyset) (v : pyval) : result pyset :=
  if hashable v
  then Ok (if existsb (matches v) s then s else s ++ [v])
  else Raise TypeError.

End Py.

Export Py.

Declare Scope py_scope.
Delimit Scope py_scope with py.
Notation "x <- c1 ;; c2" := (bind c1 (fun x => c2))
  (at level 61, c1 at next level, right associativity) : py_scope.
Notation "' p <- c1 ;; c2" := (bind c1 (fun x => let p := x in c2))
  (at level 61, p pattern, c1 at next level, right associativity) : py_scope.
Local Open Scope py_scope.

(* ================================================================== *)
(** ** The library calls of the script *)
(* ================================================================== *)

(** The functions of the Python library that the script calls.  A codec
    may raise any exception; [float] on a [str] either parses it or
    raises [ValueError] ([None]); [repr_float] gives the text of a
    float, and [repr] that of a [list] or a [dict], which is what an
    f-string and [csv] print for them.  The text of a container may not
    exist: [repr] raises [ValueError] for an [int] of more than 4300
    digits in it, [RecursionError] when it is nested too deeply. *)
Class Library : Type := {
  b64decode : str -> result bytes;        (* base64.b64decode *)
  gzip_decompress : bytes -> result bytes; (* gzip.decompress *)
  utf8_decode : bytes -> result str;      (* bytes.decode('utf-8') *)
  json_loads : str -> result pyval;       (* json.loads *)
  float_of_str : str -> option float;     (* float(s) *)
  repr_float : float -> str;              (* repr(f), a float *)
  repr : pyval -> result str              (* repr(v), a list or a dict *)
}.

(* ================================================================== *)
(** ** The script *)
(* ================================================================== *)

Definition DASHBOARD_BASE_URL : str :=
  "https://hellocounsel-dashboard.vercel.app/calls".
Definition DASHBOARD_PARAMS : str :=
  "f=0&e=production&s=N4IgJgtiBcIJ4FMDOAXBAnMBDOIA0ISYMIATAAykBsAtOQIw2kAs%2BICxsF1djAzPRABfIA".

(** The most digits of an [int] that [str] converts to text:
    [sys.int_info.default_max_str_digits] of CPython 3.11. *)
Definition INT_MAX_STR_DIGITS : Z := 4300.

(** The least positive [int] with more digits than that, 10^4300, kept
    as its value. *)
Definition INT_STR_LIMIT : Z := Eval vm_compute in 10 ^ INT_MAX_STR_DIGITS.

(** [str(n)] for an [int]: its decimal numeral, and [ValueError] when
    that has more than 4300 digits. *)
Definition str_of_int (z : Z) : result str :=
  if Z.abs z <? INT_STR_LIMIT
  then Ok (NilZero.string_of_int (Z.to_int z))
  else Raise ValueError.

Section Script.

Context {L : Library}.

(** [float(v)]. *)
Definition float_of (v : pyval) : result float :=
  match v with
  | PFloat f => Ok f
  | PInt z => float_of_int z
  | PBool b => float_of_int (if b then 1 else 0)
  | PStr s =>
      match float_of_str s with
      | Some f => Ok f
      | None => Raise ValueError
      end
  | _ => Raise TypeError
  end.

(** [f"{v}"], which is [str(v)]: the text of [v] in an f-string. *)
Definition format (v : pyval) : result str :=
  match v with
  | PStr s => Ok s
  | PNone => Ok "None"
  | PBool true => Ok "True"
  | PBool false => Ok "False"
  | PInt z => str_of_int z
  | PFloat f => Ok (repr_float f)
  | PList _ | PDict _ => repr v
  end.

(** The first strategy of [decode_payload]: base64, gzip, JSON. *)
Definition decode_compressed (payload : str) : result pyval :=
  decoded_bytes <- b64decode payload ;;
  decompressed <- gzip_decompress decoded_bytes ;;
  text <- utf8_decode decompressed ;;
  json_loads text.

Definition decode_payload (payload : pyval) : result pyval :=
  match payload with
  | PDict _ => Ok payload
  | PStr s =>
      try_except (decode_compressed s) [Exception]
        (try_except (json_loads s) [Exception]
           (Ok (PDict [])))
  | _ => Ok (PDict [])
  end.

(** [messages[-1].get("secondsFromStart")] under
    [if messages and len(messages) > 0], else [None]. *)
Definition last_timestamp (messages : pyval) : result pyval :=
  if truthy messages then
    n <- len messages ;;
    if 0 <? n then
      last_message <- getitem_last messages ;;
      get last_message "secondsFromStart" PNone
    else Ok PNone
  else Ok PNone.

(** [float(duration_seconds) - float(last_message_timestamp)] under the
    two [is not None] tests and [except (ValueError, TypeError): pass]. *)
Definition compute_difference (duration_seconds last_message_timestamp : pyval)
  : result pyval :=
  if negb (is_none duration_seconds) && negb (is_none last_message_timestamp)
  then
    try_except
      (a <- float_of duration_seconds ;;
       b <- float_of last_message_timestamp ;;
       Ok (PFloat (float_sub a b)))
      [ValueError; TypeError]
      (Ok PNone)
  else Ok PNone.

(** [f"{DASHBOARD_BASE_URL}?{DASHBOARD_PARAMS}&c={call_id}"]. *)
Definition dashboard_url (call_id : pyval) : result str :=
  text <- format call_id ;;
  Ok (DASHBOARD_BASE_URL ++ "?" ++ DASHBOARD_PARAMS ++ "&c=" ++ text)%string.

(** Returns [PNone] for Python's [None], else the record as a [dict]. *)
Definition extract_call_data (payload : pyval) : result pyval :=
  message <- get payload "message" (PDict []) ;;
  call <- get message "call" (PDict []) ;;
  call_id <- get call "id" PNone ;;
  if negb (truthy call_id) then Ok PNone else
  duration_seconds <- get message "durationSeconds" PNone ;;
  artifact <- get message "artifact" (PDict []) ;;
  messages <- get artifact "messages" (PList []) ;;
  last_message_timestamp <- last_timestamp messages ;;
  started_at <- get message "startedAt" PNone ;;
  ended_at <- get message "endedAt" PNone ;;
  ended_reason <- get message "endedReason" PNone ;;
  difference <- compute_difference duration_seconds last_message_timestamp ;;
  url <- dashboard_url call_id ;;
  Ok (PDict [ ("callID", call_id);
              ("dashboardURL", PStr url);
              ("vapiCallDuration", duration_seconds);
              ("lastMessageTimeStamp", last_message_timestamp);
              ("difference", difference);
              ("startedAt", started_at);
              ("endedAt", ended_at);
              ("endedReason", ended_reason) ]).

(** The loop of [process_webhooks] from a given state ([results],
    [seen_call_ids]); the progress messages are not modelled. *)
Fixpoint process_loop (webhooks : list pyval) (results : list pyval)
         (seen_call_ids : pyset) : result (list pyval) :=
  match webhooks with
  | [] => Ok results
  | webhook :: rest =>
      raw <- get webhook "payload" (PDict []) ;;
      payload <- decode_payload raw ;;
      call_data <- extract_call_data payload ;;
      if truthy call_data then
        call_id <- getitem call_data "callID" ;;
        present <- set_contains seen_call_ids call_id ;;
        if negb present then
          seen' <- set_add seen_call_ids call_id ;;
          process_loop rest (results ++ [call_data]) seen'
        else process_loop rest results seen_call_ids
      else process_loop rest results seen_call_ids
  end.

Definition process_webhooks (webhooks : list pyval) : result (list pyval) :=
  process_loop webhooks [] [].

End Script.

(* ================================================================== *)
(** ** A reference model of the library calls

    Executable models of the CPython 3.11 functions behind [Library]:
    [base64.b64decode] ([binascii.a2b_base64], lenient mode),
    [gzip.decompress] over zlib's raw inflate, [bytes.decode('utf-8')]
    and [json.loads].  The properties of the script are proved for
    every [Library]; this instance is where they are run on concrete
    payloads. *)
(* ================================================================== *)

Module CPython.

Definition Z_of_byte (b : byte) : Z := Z.of_N (Byte.to_N b).

Definition byte_of_Z (z : Z) : byte :=
  match Byte.of_N (Z.to_N (z mod 256)) with
  | Some b => b
  | None => x00
  end.

Definition Z_of_ascii (c : ascii) : Z := Z.of_N (N_of_ascii c).
Definition ascii_of_Z (z : Z) : ascii := ascii_of_N (Z.to_N (z mod 256)).

Fixpoint codes_of_str (s : str) : list Z :=
  match s with
  | EmptyString => []
  | String c s' => Z_of_ascii c :: codes_of_str s'
  end.

Fixpoint str_of_codes (l : list Z) : str :=
  match l with
  | [] => EmptyString
  | z :: l' => String (ascii_of_Z z) (str_of_codes l')
  end.

Definition between (lo x hi : Z) : bool := (lo <=? x) && (x <=? hi).

(** *** [base64.b64decode(s)] *)

Module Base64.

(** [table_a2b_base64]: the value of an alphabet character. *)
Definition table_a2b (c : Z) : option Z :=
  if between 65 c 90 then Some (c - 65)
  else if between 97 c 122 then Some (c - 71)
  else if between 48 c 57 then Some (c + 4)
  else if c =? 43 then Some 62
  else if c =? 47 then Some 63
  else None.

Definition BASE64_PAD : Z := 61.

(** The loop of [binascii.a2b_base64] with [strict_mode] off: characters
    outside the alphabet are skipped, a complete pad sequence ends the
    input, and what follows it is not read.  [out] is in reverse. *)
Fixpoint a2b_loop (data : list Z) (quad_pos leftchar pads : Z)
         (out : list Z) : result (list Z) :=
  match data with
  | [] => if quad_pos =? 0 then Ok (rev out) else Raise BinasciiError
  | this_ch :: rest =>
      if this_ch =? BASE64_PAD then
        if (2 <=? quad_pos) && (4 <=? quad_pos + (pads + 1))
        then Ok (rev out)
        else a2b_loop rest quad_pos leftchar
               (if 2 <=? quad_pos then pads + 1 else pads) out
      else
        match table_a2b this_ch with
        | None => a2b_loop rest quad_pos leftchar pads out
        | Some v =>
            if quad_pos =? 0 then a2b_loop rest 1 v 0 out
            else if quad_pos =? 1 then
              a2b_loop rest 2 (Z.land v 15) 0
                (Z.lor (Z.shiftl leftchar 2) (Z.shiftr v 4) mod 256 :: out)
            else if quad_pos =? 2 then
              a2b_loop rest 3 (Z.land v 3) 0
                (Z.lor (Z.shiftl leftchar 4) (Z.shiftr v 2) mod 256 :: out)
            else
              a2b_loop rest 0 0 0
                (Z.lor (Z.shiftl leftchar 6) v mod 256 :: out)
        end
  end.

Definition a2b_base64 (data : list Z) : result (list Z) :=
  a2b_loop data 0 0 0 [].

(** A [str] argument is first encoded as ASCII ([ValueError] if it has
    any other character). *)
Definition b64decode (s : str) : result bytes :=
  let data := codes_of_str s in
  if forallb (fun c => c <? 128) data
  then out <- a2b_base64 data ;; Ok (map byte_of_Z out)
  else Raise ValueError.

(** [base64.b64encode], the standard alphabet with padding. *)
Definition table_b2a (v : Z) : Z :=
  if v <? 26 then v + 65
  else if v <? 52 then v + 71
  else if v <? 62 then v - 4
  else if v =? 62 then 43 else 47.

Fixpoint b2a (data : list Z) : list Z :=
  match data with
  | [] => []
  | [a] =>
      [table_b2a (Z.shiftr a 2); table_b2a (Z.shiftl (Z.land a 3) 4);
       BASE64_PAD; BASE64_PAD]
  | [a; b] =>
      [table_b2a (Z.shiftr a 2);
       table_b2a (Z.lor (Z.shiftl (Z.land a 3) 4) (Z.shiftr b 4));
       table_b2a (Z.shiftl (Z.land b 15) 2); BASE64_PAD]
  | a :: b :: c :: rest =>
      table_b2a (Z.shiftr a 2)
      :: table_b2a (Z.lor (Z.shiftl (Z.land a 3) 4) (Z.shiftr b 4))
      :: table_b2a (Z.lor (Z.shiftl (Z.land b 15) 2) (Z.shiftr c 6))
      :: table_b2a (Z.land c 63)
      :: b2a rest
  end.

Definition b64encode (b : bytes) : str := str_of_codes (b2a (map Z_of_byte b)).

End Base64.

(** *** [bytes.decode('utf-8')] *)

Module Utf8.

Definition cont (x : Z) : bool := between 128 x 191.

(** The strict decoder: shortest forms only, no surrogates, nothing
    above U+10FFFF.  The [str] it returns has the same bytes. *)
Fixpoint well_formed (l : list Z) : bool :=
  match l with
  | [] => true
  | a :: r =>
      if a <? 128 then well_formed r
      else if between 194 a 223 then
        match r with
        | b :: r' => cont b && well_formed r'
        | _ => false
        end
      else if between 224 a 239 then
        match r with
        | b :: c :: r' =>
            (if a =? 224 then between 160 b 191
             else if a =? 237 then between 128 b 159
             else cont b)
            && cont c && well_formed r'
        | _ => false
        end
      else if between 240 a 244 then
        match r with
        | b :: c :: d :: r' =>
            (if a =? 240 then between 144 b 191
             else if a =? 244 then between 128 b 143
             else cont b)
            && cont c && cont d && well_formed r'
        | _ => false
        end
      else false
  end.

Definition decode (b : bytes) : result str :=
  let l := map Z_of_byte b in
  if well_formed l then Ok (str_of_codes l)
  else Raise UnicodeDecodeError.

(** [str.encode('utf-8')] of a [str] without surrogates. *)
Definition encode (s : str) : bytes := map byte_of_Z (codes_of_str s).

End Utf8.

(** *** [zlib.crc32] *)

Module Crc32.

Definition step (crc : Z) : Z :=
  if Z.testbit crc 0
  then Z.lxor (Z.shiftr crc 1) 3988292384   (* 0xEDB88320 *)
  else Z.shiftr crc 1.

Definition update (crc b : Z) : Z :=
  step (step (step (step (step (step (step (step (Z.lxor crc b)))))))).

Definition crc32 (data : list Z) : Z :=
  Z.lxor (fold_left update data 4294967295) 4294967295.

End Crc32.

(** *** Raw inflate ([zlib.decompressobj(wbits=-15)]) *)

Module Inflate.

(** What decoding a piece of the stream gives: a value, the end of the
    input before the piece is complete, or invalid data. *)
Inductive dec (A : Type) : Type :=
| Got (a : A)
| Short
| Bad.
Arguments Got {A} a.
Arguments Short {A}.
Arguments Bad {A}.

Definition dbind {A B} (d : dec A) (k : A -> dec B) : dec B :=
  match d with
  | Got a => k a
  | Short => Short
  | Bad => Bad
  end.

Notation "x <~ c1 ;; c2" := (dbind c1 (fun x => c2))
  (at level 61, c1 at next level, right associativity).
Notation "' p <~ c1 ;; c2" := (dbind c1 (fun x => let p := x in c2))
  (at level 61, p pattern, c1 at next level, right associativity).

Definition bits := list bool.

Definition bits_of_byte (b : Z) : bits :=
  map (fun i => Z.testbit b (Z.of_nat i)) (seq 0 8).

Definition bits_of_bytes (data : list Z) : bits := flat_map bits_of_byte data.

(** [n] bits as an integer, least significant first. *)
Fixpoint take_bits (n : nat) (bs : bits) : dec (Z * bits) :=
  match n with
  | O => Got (0, bs)
  | S n' =>
      match bs with
      | [] => Short
      | b :: bs' =>
          '(v, rest) <~ take_bits n' bs' ;;
          Got ((if b then 1 else 0) + 2 * v, rest)
      end
  end.

(** Drop the rest of the current byte. *)
Definition align (bs : bits) : bits := skipn (List.length bs mod 8)%nat bs.

Fixpoint bytes_of_bits (fuel : nat) (bs : bits) : list Z :=
  match fuel with
  | O => []
  | S fuel' =>
      match take_bits 8 bs with
      | Got (v, rest) => v :: bytes_of_bits fuel' rest
      | _ => []
      end
  end.

Fixpoint take_bytes (n : nat) (bs : bits) : dec (list Z * bits) :=
  match n with
  | O => Got ([], bs)
  | S n' =>
      '(v, bs1) <~ take_bits 8 bs ;;
      '(l, bs2) <~ take_bytes n' bs1 ;;
      Got (v :: l, bs2)
  end.

(** A canonical Huffman code: [counts] has the number of codes of each
    length 1..15, [symbols] the symbols ordered by length, then value. *)
Record huffman : Type := { counts : list Z; symbols : list Z }.

Definition MAXBITS : nat := 15.

Definition nthZ (l : list Z) (i : Z) : Z := nth (Z.to_nat i) l 0.

Definition construct (lengths : list Z) : huffman :=
  let indexed := combine (map Z.of_nat (seq 0 (List.length lengths))) lengths in
  let of_len (len : Z) :=
    map fst (filter (fun p => snd p =? len) indexed) in
  let lens := map Z.of_nat (seq 1 MAXBITS) in
  {| counts := map (fun len => Z.of_nat (List.length (of_len len))) lens;
     symbols := flat_map of_len lens |}.

(** The codes still free after all lengths: negative when the set is
    over-subscribed, positive when it is incomplete. *)
Definition left_over (h : huffman) : Z :=
  fold_left (fun free count => 2 * free - count) (counts h) 1.

Definition over_subscribed (h : huffman) : bool :=
  snd (fold_left (fun '(free, over) count =>
                    let free' := 2 * free - count in
                    (free', over || (free' <? 0)))
                 (counts h) (1, false)).

(** Largest code length in use, 0 when there is no code. *)
Definition max_length (h : huffman) : Z :=
  fold_left (fun m p => if 0 <? snd p then fst p else m)
            (combine (map Z.of_nat (seq 1 MAXBITS)) (counts h)) 0.

(** [inflate_table]: a set of code lengths is refused when it is
    over-subscribed, or incomplete other than by being a single code of
    one bit ([strict]: the code for code lengths must be complete). *)
Definition acceptable (strict : bool) (h : huffman) : bool :=
  if max_length h =? 0 then true
  else negb (over_subscribed h)
       && ((left_over h =? 0) || (negb strict && (max_length h =? 1))).

Fixpoint decode_from (cs : list Z) (syms : list Z) (code first index : Z)
         (bs : bits) : dec (Z * bits) :=
  match cs with
  | [] => Bad
  | count :: cs' =>
      match bs with
      | [] => Short
      | b :: bs' =>
          let code := code + (if b then 1 else 0) in
          if code - count <? first
          then Got (nthZ syms (index + (code - first)), bs')
          else decode_from cs' syms (2 * code) (2 * (first + count))
                 (index + count) bs'
      end
  end.

Definition decode (h : huffman) (bs : bits) : dec (Z * bits) :=
  decode_from (counts h) (symbols h) 0 0 0 bs.

Definition lbase : list Z :=
  [3; 4; 5; 6; 7; 8; 9; 10; 11; 13; 15; 17; 19; 23; 27; 31; 35; 43; 51; 59;
   67; 83; 99; 115; 131; 163; 195; 227; 258].
Definition lext : list Z :=
  [0; 0; 0; 0; 0; 0; 0; 0; 1; 1; 1; 1; 2; 2; 2; 2; 3; 3; 3; 3; 4; 4; 4; 4;
   5; 5; 5; 5; 0].
Definition dbase : list Z :=
  [1; 2; 3; 4; 5; 7; 9; 13; 17; 25; 33; 49; 65; 97; 129; 193; 257; 385; 513;
   769; 1025; 1537; 2049; 3073; 4097; 6145; 8193; 12289; 16385; 24577].
Definition dext : list Z :=
  [0; 0; 0; 0; 1; 1; 2; 2; 3; 3; 4; 4; 5; 5; 6; 6; 7; 7; 8; 8; 9; 9; 10; 10;
   11; 11; 12; 12; 13; 13].

(** Copy [n] bytes from [dist] back; [out] is in reverse. *)
Fixpoint copy_back (n : nat) (dist : Z) (out : list Z) : list Z :=
  match n with
  | O => out
  | S n' => copy_back n' dist (nthZ out (dist - 1) :: out)
  end.

(** The symbols of one compressed block, up to its end-of-block. *)
Fixpoint codes (fuel : nat) (lencode distcode : huffman) (bs : bits)
         (out : list Z) : dec (bits * list Z) :=
  match fuel with
  | O => Short
  | S fuel' =>
      '(symbol, bs1) <~ decode lencode bs ;;
      if symbol <? 256 then codes fuel' lencode distcode bs1 (symbol :: out)
      else if symbol =? 256 then Got (bs1, out)
      else
        let symbol := symbol - 257 in
        if 29 <=? symbol then Bad
        else
          '(extra, bs2) <~ take_bits (Z.to_nat (nthZ lext symbol)) bs1 ;;
          let length := nthZ lbase symbol + extra in
          '(dsym, bs3) <~ decode distcode bs2 ;;
          if 30 <=? dsym then Bad
          else
            '(dextra, bs4) <~ take_bits (Z.to_nat (nthZ dext dsym)) bs3 ;;
            let dist := nthZ dbase dsym + dextra in
            if Z.of_nat (List.length out) <? dist then Bad
            else codes fuel' lencode distcode bs4
                   (copy_back (Z.to_nat length) dist out)
  end.

Definition fixed_lencode : huffman :=
  construct (repeat 8 144 ++ repeat 9 112 ++ repeat 7 24 ++ repeat 8 8).
Definition fixed_distcode : huffman := construct (repeat 5 30).

Definition stored (bs : bits) (out : list Z) : dec (bits * list Z) :=
  let bs := align bs in
  '(len, bs1) <~ take_bits 16 bs ;;
  '(nlen, bs2) <~ take_bits 16 bs1 ;;
  if negb (len =? Z.lxor nlen 65535) then Bad
  else
    '(data, bs3) <~ take_bytes (Z.to_nat len) bs2 ;;
    Got (bs3, rev data ++ out).

Definition order : list nat :=
  [16; 17; 18; 0; 8; 7; 9; 6; 10; 5; 11; 4; 12; 3; 13; 2; 14; 1; 15]%nat.

Fixpoint read_code_lengths (n : nat) (ord : list nat) (bs : bits)
         (lens : list Z) : dec (list Z * bits) :=
  match n, ord with
  | S n', o :: ord' =>
      '(v, bs1) <~ take_bits 3 bs ;;
      read_code_lengths n' ord' bs1
        (firstn o lens ++ [v] ++ skipn (S o) lens)
  | _, _ => Got (lens, bs)
  end.

(** The literal/length and distance code lengths of a dynamic block;
    [lens] is in reverse. *)
Fixpoint read_lengths (fuel : nat) (lencode : huffman) (total : Z)
         (bs : bits) (lens : list Z) : dec (list Z * bits) :=
  match fuel with
  | O => Short
  | S fuel' =>
      let have := Z.of_nat (List.length lens) in
      if total <=? have then Got (rev lens, bs)
      else
        '(sym, bs1) <~ decode lencode bs ;;
        if sym <? 16 then read_lengths fuel' lencode total bs1 (sym :: lens)
        else
          '(len_copy, bs2) <~
            (if sym =? 16 then
               '(v, r) <~ take_bits 2 bs1 ;;
               match lens with
               | [] => Bad
               | prev :: _ => Got ((prev, 3 + v), r)
               end
             else if sym =? 17 then
               '(v, r) <~ take_bits 3 bs1 ;; Got ((0, 3 + v), r)
             else
               '(v, r) <~ take_bits 7 bs1 ;; Got ((0, 11 + v), r)) ;;
          let '(len, copy) := len_copy in
          if total <? have + copy then Bad
          else read_lengths fuel' lencode total bs2
                 (repeat len (Z.to_nat copy) ++ lens)
  end.

Definition dynamic (bs : bits) (out : list Z) : dec (bits * list Z) :=
  '(hlit, bs1) <~ take_bits 5 bs ;;
  '(hdist, bs2) <~ take_bits 5 bs1 ;;
  '(hclen, bs3) <~ take_bits 4 bs2 ;;
  let nlen := hlit + 257 in
  let ndist := hdist + 1 in
  let ncode := hclen + 4 in
  if (286 <? nlen) || (30 <? ndist) then Bad
  else
    '(cl, bs4) <~ read_code_lengths (Z.to_nat ncode) order bs3 (repeat 0 19) ;;
    let clcode := construct cl in
    if negb (acceptable true clcode) then Bad
    else if max_length clcode =? 0 then
      (* no code at all: every length reads as 0 from one bit each *)
      if Z.of_nat (List.length bs4) <? nlen + ndist then Short else Bad
    else
      '(lens, bs5) <~ read_lengths (S (List.length bs4)) clcode (nlen + ndist)
                        bs4 [] ;;
      if nthZ lens 256 =? 0 then Bad
      else
        let lencode := construct (firstn (Z.to_nat nlen) lens) in
        let distcode := construct (skipn (Z.to_nat nlen) lens) in
        if negb (acceptable false lencode) then Bad
        else if negb (acceptable false distcode) then Bad
        else codes (S (List.length bs5)) lencode distcode bs5 out.

Fixpoint blocks (fuel : nat) (bs : bits) (out : list Z)
  : dec (bits * list Z) :=
  match fuel with
  | O => Short
  | S fuel' =>
      '(last, bs1) <~ take_bits 1 bs ;;
      '(type, bs2) <~ take_bits 2 bs1 ;;
      '(bs3, out') <~
        (if type =? 0 then stored bs2 out
         else if type =? 1 then
           codes (S (List.length bs2)) fixed_lencode fixed_distcode bs2 out
         else if type =? 2 then dynamic bs2 out
         else Bad) ;;
      if last =? 1 then Got (align bs3, out')
      else blocks fuel' bs3 out'
  end.

(** The decompressed data and [unused_data], the bytes after the end of
    the stream. *)
Definition inflate (data : list Z) : dec (list Z * list Z) :=
  let bs := bits_of_bytes data in
  '(rest, out) <~ blocks (S (List.length bs)) bs [] ;;
  Got (rev out, bytes_of_bits (List.length data) rest).

(** A deflate stream of stored blocks, for building test payloads. *)
Fixpoint deflate_stored (fuel : nat) (data : list Z) : list Z :=
  match fuel with
  | O => []
  | S fuel' =>
      let chunk := firstn (Z.to_nat 65535) data in
      let rest := skipn (Z.to_nat 65535) data in
      let n := Z.of_nat (List.length chunk) in
      let final := match rest with [] => 1 | _ => 0 end in
      [final; n mod 256; n / 256;
       Z.lxor n 65535 mod 256; Z.lxor n 65535 / 256]
      ++ chunk
      ++ match rest with [] => [] | _ => deflate_stored fuel' rest end
  end.

End Inflate.

(** *** [gzip.decompress] *)

Module Gzip.

Import Inflate.

Definition FHCRC : Z := 2.
Definition FEXTRA : Z := 4.
Definition FNAME : Z := 8.
Definition FCOMMENT : Z := 16.

Definition flag_set (flag bit : Z) : bool := negb (Z.land flag bit =? 0).

(** [_read_exact(fp, n)]. *)
Definition read_exact (n : nat) (data : list Z) : result (list Z * list Z) :=
  if (List.length data <? n)%nat then Raise EOFError
  else Ok (firstn n data, skipn n data).

(** Skip a zero-terminated field; the end of the data also ends it. *)
Fixpoint skip_zero_terminated (data : list Z) : list Z :=
  match data with
  | [] => []
  | b :: rest => if b =? 0 then rest else skip_zero_terminated rest
  end.

Definition little_endian (l : list Z) : Z :=
  fold_right (fun b acc => b + 256 * acc) 0 l.

(** [_read_gzip_header]: [None] at the end of the data, else the data
    after the header. *)
Definition read_gzip_header (data : list Z) : result (option (list Z)) :=
  match data with
  | [] => Ok None
  | _ =>
      if negb (if list_eq_dec Z.eq_dec (firstn 2 data) [31; 139]
               then true else false)
      then Raise BadGzipFile
      else
        '(fixed, d1) <- read_exact 8 (skipn 2 data) ;;
        let method := nthZ fixed 0 in
        let flag := nthZ fixed 1 in
        if negb (method =? 8) then Raise BadGzipFile
        else
          d2 <- (if flag_set flag FEXTRA then
                   '(xl, r) <- read_exact 2 d1 ;;
                   '(_, r') <- read_exact (Z.to_nat (little_endian xl)) r ;;
                   Ok r'
                 else Ok d1) ;;
          let d3 := if flag_set flag FNAME then skip_zero_terminated d2 else d2 in
          let d4 := if flag_set flag FCOMMENT then skip_zero_terminated d3 else d3 in
          d5 <- (if flag_set flag FHCRC then
                   '(_, r) <- read_exact 2 d4 ;; Ok r
                 else Ok d4) ;;
          Ok (Some d5)
  end.

Fixpoint lstrip_zeros (data : list Z) : list Z :=
  match data with
  | b :: rest => if b =? 0 then lstrip_zeros rest else data
  | [] => []
  end.

(** The loop of [gzip.decompress] over the members of the data. *)
Fixpoint members (fuel : nat) (data : list Z) (acc : list Z)
  : result (list Z) :=
  match fuel with
  | O => Raise EOFError
  | S fuel' =>
      header <- read_gzip_header data ;;
      match header with
      | None => Ok acc
      | Some body =>
          match inflate body with
          | Bad => Raise ZlibError
          | Short => Raise EOFError
          | Got (decompressed, unused_data) =>
              if (List.length unused_data <? 8)%nat then Raise EOFError
              else
                let crc := little_endian (firstn 4 unused_data) in
                let length := little_endian (firstn 4 (skipn 4 unused_data)) in
                if negb (crc =? Crc32.crc32 decompressed) then Raise BadGzipFile
                else if negb (length =?
                              Z.land (Z.of_nat (List.length decompressed))
                                     4294967295)
                then Raise BadGzipFile
                else members fuel' (lstrip_zeros (skipn 8 unused_data))
                       (acc ++ decompressed)
          end
      end
  end.

Definition decompress (b : bytes) : result bytes :=
  let data := map Z_of_byte b in
  out <- members (S (List.length data)) data [] ;;
  Ok (map byte_of_Z out).

Definition to_le4 (v : Z) : list Z :=
  [v mod 256; (v / 256) mod 256; (v / 65536) mod 256; (v / 16777216) mod 256].

(** A gzip writer that stores the data uncompressed. *)
Definition compress_stored (b : bytes) : bytes :=
  let data := map Z_of_byte b in
  map byte_of_Z
    ([31; 139; 8; 0; 0; 0; 0; 0; 0; 255]
     ++ deflate_stored (S (List.length data)) data
     ++ to_le4 (Crc32.crc32 data)
     ++ to_le4 (Z.of_nat (List.length data))).

End Gzip.

(** *** Decimal text to [float] *)

Module Decimal.

(** The binary64 nearest to [m * 10^e] for [m > 0], ties to even, with
    the sign [neg]: the conversion that [float(s)] and the JSON scanner
    perform on a decimal literal. *)
Definition to_float (neg : bool) (m e : Z) : float :=
  if m <=? 0 then S754_zero neg
  else
    let digits := Z.log2 m / 3 in       (* no more than the decimal digits *)
    if 400 <? e + digits then S754_infinity neg
    else if e + 4 * (digits + 1) <? -400 then S754_zero neg
    else
      let signed (x : Z) := if neg then - x else x in
      if 0 <=? e then binary_normalize prec emax (signed (m * 10 ^ e)) 0 neg
      else
        let den := 10 ^ (- e) in
        let k := Z.max 0 (prec + 3 + Z.log2 den - Z.log2 m) in
        let num := m * 2 ^ k in
        let q := num / den in
        let sticky := if num mod den =? 0 then 0 else 1 in
        binary_normalize prec emax (signed (2 * q + sticky)) (- k - 1) neg.

Definition is_digit (c : Z) : bool := between 48 c 57.

(** The value of a run of decimal digits. *)
Definition digits_value (ds : list Z) : Z :=
  fold_left (fun acc d => 10 * acc + (d - 48)) ds 0.

Fixpoint span_digits (l : list Z) : list Z * list Z :=
  match l with
  | c :: r =>
      if is_digit c then let '(ds, rest) := span_digits r in (c :: ds, rest)
      else ([], l)
  | [] => ([], [])
  end.

End Decimal.

(** *** [json.loads] *)

Module Json.

Import Decimal.

Definition is_whitespace (c : Z) : bool :=
  (c =? 32) || (c =? 9) || (c =? 10) || (c =? 13).

Fixpoint skip_whitespace (l : list Z) : list Z :=
  match l with
  | c :: r => if is_whitespace c then skip_whitespace r else l
  | [] => []
  end.

Definition hex_value (c : Z) : option Z :=
  if between 48 c 57 then Some (c - 48)
  else if between 97 c 102 then Some (c - 87)
  else if between 65 c 70 then Some (c - 55)
  else None.

(** Four hex digits. *)
Definition hex4 (l : list Z) : option (Z * list Z) :=
  match l with
  | a :: b :: c :: d :: rest =>
      match hex_value a, hex_value b, hex_value c, hex_value d with
      | Some x, Some y, Some z, Some w =>
          Some (((x * 16 + y) * 16 + z) * 16 + w, rest)
      | _, _, _, _ => None
      end
  | _ => None
  end.

(** UTF-8 of a code point; a surrogate takes the three-byte form. *)
Definition utf8_of_code_point (c : Z) : list Z :=
  if c <? 128 then [c]
  else if c <? 2048 then [192 + c / 64; 128 + c mod 64]
  else if c <? 65536 then
    [224 + c / 4096; 128 + (c / 64) mod 64; 128 + c mod 64]
  else [240 + c / 262144; 128 + (c / 4096) mod 64;
        128 + (c / 64) mod 64; 128 + c mod 64].

Definition is_high_surrogate (c : Z) : bool := between 55296 c 56319.
Definition is_low_surrogate (c : Z) : bool := between 56320 c 57343.

(** [scanstring] in strict mode, from after the opening quote; [acc] is
    the text so far, in reverse. *)
Fixpoint scanstring (fuel : nat) (l : list Z) (acc : list Z)
  : result (str * list Z) :=
  match fuel with
  | O => Raise JSONDecodeError
  | S fuel' =>
      match l with
      | [] => Raise JSONDecodeError
      | c :: r =>
          if c =? 34 then Ok (str_of_codes (rev acc), r)
          else if c =? 92 then
            match r with
            | [] => Raise JSONDecodeError
            | e :: r' =>
                if e =? 117 then
                  match hex4 r' with
                  | None => Raise JSONDecodeError
                  | Some (u, r'') =>
                      let joined :=
                        if is_high_surrogate u then
                          match r'' with
                          | 92 :: 117 :: r3 =>
                              match hex4 r3 with
                              | Some (u2, r4) =>
                                  if is_low_surrogate u2
                                  then Some (65536 + (u - 55296) * 1024
                                             + (u2 - 56320), r4)
                                  else None
                              | None => None
                              end
                          | _ => None
                          end
                        else None in
                      let '(cp, rest) :=
                        match joined with
                        | Some p => p
                        | None => (u, r'')
                        end in
                      scanstring fuel' rest (rev (utf8_of_code_point cp) ++ acc)
                  end
                else
                  let plain :=
                    if (e =? 34) || (e =? 92) || (e =? 47) then Some e
                    else if e =? 98 then Some 8
                    else if e =? 102 then Some 12
                    else if e =? 110 then Some 10
                    else if e =? 114 then Some 13
                    else if e =? 116 then Some 9
                    else None in
                  match plain with
                  | Some x => scanstring fuel' r' (x :: acc)
                  | None => Raise JSONDecodeError
                  end
            end
          else if c <=? 31 then Raise JSONDecodeError
          else scanstring fuel' r (c :: acc)
      end
  end.

(** The digit limit of [int(s)] (CPython 3.11, [sys.int_info]). *)
Definition MAX_STR_DIGITS : Z := 4300.

(** [_match_number]: an integer part, then a fraction and an exponent
    when complete ones follow. *)
Definition match_number (l : list Z) : result (pyval * list Z) :=
  let '(neg, l1) :=
    match l with
    | 45 :: r => (true, r)
    | _ => (false, l)
    end in
  match l1 with
  | [] => Raise JSONDecodeError
  | c :: r =>
      match (if between 49 c 57
             then let '(ds, rest) := span_digits r in Some (c :: ds, rest)
             else if c =? 48 then Some ([c], r)
             else None) with
      | None => Raise JSONDecodeError
      | Some (int_digits, l2) =>
          let '(frac_digits, l3) :=
            match l2 with
            | 46 :: d :: r2 =>
                if is_digit d then span_digits (d :: r2) else ([], l2)
            | _ => ([], l2)
            end in
          let '(exponent, l4) :=
            match l3 with
            | e :: r3 =>
                if (e =? 101) || (e =? 69) then
                  let '(eneg, r4) :=
                    match r3 with
                    | 45 :: r' => (true, r')
                    | 43 :: r' => (false, r')
                    | _ => (false, r3)
                    end in
                  match span_digits r4 with
                  | ([], _) => (None, l3)
                  | (ds, rest) =>
                      (Some (if eneg then - digits_value ds
                             else digits_value ds), rest)
                  end
                else (None, l3)
            | [] => (None, l3)
            end in
          match frac_digits, exponent with
          | [], None =>
              if MAX_STR_DIGITS <? Z.of_nat (List.length int_digits)
              then Raise ValueError
              else
                let v := digits_value int_digits in
                Ok (PInt (if neg then - v else v), l4)
          | _, _ =>
              let m := digits_value (int_digits ++ frac_digits) in
              let e := match exponent with Some x => x | None => 0 end
                       - Z.of_nat (List.length frac_digits) in
              Ok (PFloat (to_float neg m e), l4)
          end
      end
  end.

(** [d[k] = v]: a key that is present keeps its place. *)
Fixpoint dict_set (d : list (str * pyval)) (k : str) (v : pyval)
  : list (str * pyval) :=
  match d with
  | [] => [(k, v)]
  | (k', v') :: d' =>
      if String.eqb k k' then (k, v) :: d' else (k', v') :: dict_set d' k v
  end.

Definition starts_with (prefix l : list Z) : option (list Z) :=
  if list_eq_dec Z.eq_dec (firstn (List.length prefix) l) prefix
  then Some (skipn (List.length prefix) l)
  else None.

Definition literal (text : str) (v : pyval) (l : list Z)
  : option (result (pyval * list Z)) :=
  match starts_with (codes_of_str text) l with
  | Some rest => Some (Ok (v, rest))
  | None => None
  end.

(** [scan_once], with the loops of [_parse_array] (after its first
    element) and [_parse_object] (at a key). *)
Fixpoint scan_once (fuel : nat) (l : list Z) : result (pyval * list Z) :=
  match fuel with
  | O => Raise JSONDecodeError
  | S fuel' =>
      match l with
      | [] => Raise JSONDecodeError
      | c :: r =>
          if c =? 34 then
            '(s, rest) <- scanstring (S (List.length r)) r [] ;;
            Ok (PStr s, rest)
          else if c =? 123 then
            let r1 := skip_whitespace r in
            match r1 with
            | 125 :: rest => Ok (PDict [], rest)
            | _ => parse_members fuel' r1 []
            end
          else if c =? 91 then
            let r1 := skip_whitespace r in
            match r1 with
            | 93 :: rest => Ok (PList [], rest)
            | _ => parse_elements fuel' r1 []
            end
          else
            match
              (if c =? 110 then literal "null" PNone l
               else if c =? 116 then literal "true" (PBool true) l
               else if c =? 102 then literal "false" (PBool false) l
               else if c =? 78 then literal "NaN" (PFloat S754_nan) l
               else if c =? 73
               then literal "Infinity" (PFloat (S754_infinity false)) l
               else if c =? 45
               then literal "-Infinity" (PFloat (S754_infinity true)) l
               else None)
            with
            | Some found => found
            | None => match_number l
            end
      end
  end

with parse_elements (fuel : nat) (l : list Z) (acc : list pyval)
  : result (pyval * list Z) :=
  match fuel with
  | O => Raise JSONDecodeError
  | S fuel' =>
      '(v, l1) <- scan_once fuel' l ;;
      match skip_whitespace l1 with
      | 93 :: rest => Ok (PList (rev (v :: acc)), rest)
      | 44 :: rest => parse_elements fuel' (skip_whitespace rest) (v :: acc)
      | _ => Raise JSONDecodeError
      end
  end

with parse_members (fuel : nat) (l : list Z) (acc : list (str * pyval))
  : result (pyval * list Z) :=
  match fuel with
  | O => Raise JSONDecodeError
  | S fuel' =>
      match l with
      | 34 :: r =>
          '(key, l1) <- scanstring (S (List.length r)) r [] ;;
          match skip_whitespace l1 with
          | 58 :: l2 =>
              '(v, l3) <- scan_once fuel' (skip_whitespace l2) ;;
              let acc' := dict_set acc key v in
              match skip_whitespace l3 with
              | 125 :: rest => Ok (PDict acc', rest)
              | 44 :: rest => parse_members fuel' (skip_whitespace rest) acc'
              | _ => Raise JSONDecodeError
              end
          | _ => Raise JSONDecodeError
          end
      | _ => Raise JSONDecodeError
      end
  end.

(** [json.loads(s)]: one value between optional whitespace.  The limit
    on nesting depth ([RecursionError]) is not part of the model. *)
Definition loads (s : str) : result pyval :=
  let l := codes_of_str s in
  '(v, rest) <- scan_once (S (List.length l)) (skip_whitespace l) ;;
  match skip_whitespace rest with
  | [] => Ok v
  | _ => Raise JSONDecodeError
  end.

End Json.

(** *** [repr] of a float and [json.dumps] *)

Module Repr.

(** A positive finite float [m * 2^e] as a fraction. *)
Definition ratio (m e : Z) : Z * Z :=
  if 0 <=? e then (m * 2 ^ e, 1) else (m, 2 ^ (- e)).

(** [10^k <= num / den]. *)
Definition ge_pow10 (num den k : Z) : bool :=
  if 0 <=? k then 10 ^ k * den <=? num else den <=? num * 10 ^ (- k).

Fixpoint first_above (fuel : nat) (num den k : Z) : Z :=
  match fuel with
  | O => k
  | S fuel' =>
      if ge_pow10 num den k then first_above fuel' num den (k + 1) else k
  end.

(** The [k] with [10^(k-1) <= num / den < 10^k]. *)
Definition decimal_exponent (num den : Z) : Z :=
  let estimate := (Z.log2 num - Z.log2 den) * 30103 / 100000 in
  first_above 8 num den (estimate - 2).

(** [floor (num / den / 10^p)]. *)
Definition scaled_floor (num den p : Z) : Z :=
  if 0 <=? p then num / (den * 10 ^ p) else (num * 10 ^ (- p)) / den.

(** [2 * num / den] against [c * 10^p]. *)
Definition compare_twice (num den c p : Z) : comparison :=
  if 0 <=? p then Z.compare (2 * num) (c * 10 ^ p * den)
  else Z.compare (2 * num * 10 ^ (- p)) (c * den).

Definition float_eqb (a b : float) : bool :=
  match a, b with
  | S754_zero s, S754_zero t => Bool.eqb s t
  | S754_infinity s, S754_infinity t => Bool.eqb s t
  | S754_nan, S754_nan => true
  | S754_finite s m e, S754_finite t n f =>
      Bool.eqb s t && Pos.eqb m n && Z.eqb e f
  | _, _ => false
  end.

(** The shortest decimal that reads back as the float, and of those the
    nearest to it: its digits as an integer [d] and the exponent [p],
    the value being [d * 10^p]. *)
Fixpoint shortest (fuel : nat) (n : Z) (f : float) (num den k : Z) : Z * Z :=
  match fuel with
  | O => (scaled_floor num den (k - n), k - n)
  | S fuel' =>
      let p := k - n in
      let lo := scaled_floor num den p in
      let hi := lo + 1 in
      let ok_lo := float_eqb (Decimal.to_float false lo p) f in
      let ok_hi := float_eqb (Decimal.to_float false hi p) f in
      if ok_lo && ok_hi then
        match compare_twice num den (lo + hi) p with
        | Lt => (lo, p)
        | Gt => (hi, p)
        | Eq => (if Z.even lo then lo else hi, p)
        end
      else if ok_lo then (lo, p)
      else if ok_hi then (hi, p)
      else shortest fuel' (n + 1) f num den k
  end.

Fixpoint strip_zeros (fuel : nat) (d p : Z) : Z * Z :=
  match fuel with
  | O => (d, p)
  | S fuel' => if d mod 10 =? 0 then strip_zeros fuel' (d / 10) (p + 1) else (d, p)
  end.

Definition decimal_text (z : Z) : str := NilZero.string_of_int (Z.to_int z).

Fixpoint zeros (n : nat) : str :=
  match n with
  | O => EmptyString
  | S n' => String "0" (zeros n')
  end.

Definition two_digits (z : Z) : str :=
  let pad := if z <? 10 then "0" else EmptyString in
  (pad ++ decimal_text z)%string.

(** The text of the positive value [d * 10^p] in the style of [repr]:
    exponent form when the decimal point would be more than sixteen
    places right of the first digit or more than four left of it. *)
Definition layout (d p : Z) : str :=
  let digits := decimal_text d in
  let n := Z.of_nat (String.length digits) in
  let decpt := p + n in
  if (decpt <=? -4) || (16 <? decpt) then
    let mantissa :=
      match digits with
      | String c EmptyString => String c EmptyString
      | String c rest => String c (String "." rest)
      | EmptyString => EmptyString
      end in
    let exponent := decpt - 1 in
    let sign := if exponent <? 0 then "-" else "+" in
    (mantissa ++ "e" ++ sign ++ two_digits (Z.abs exponent))%string
  else if decpt <=? 0 then
    ("0." ++ zeros (Z.to_nat (- decpt)) ++ digits)%string
  else if decpt <? n then
    (substring 0 (Z.to_nat decpt) digits ++ "."
     ++ substring (Z.to_nat decpt) (Z.to_nat (n - decpt)) digits)%string
  else (digits ++ zeros (Z.to_nat (decpt - n)) ++ ".0")%string.

(** [repr(f)]. *)
Definition float_repr (f : float) : str :=
  match f with
  | S754_nan => "nan"
  | S754_infinity false => "inf"
  | S754_infinity true => "-inf"
  | S754_zero false => "0.0"
  | S754_zero true => "-0.0"
  | S754_finite s m e =>
      let f' := binary_normalize prec emax (Z.pos m) e false in
      let '(num, den) := ratio (Z.pos m) e in
      let k := decimal_exponent num den in
      let '(d, p) := shortest 17 1 f' num den k in
      let '(d', p') := strip_zeros 20 d p in
      let sign := if s then "-" else EmptyString in
      (sign ++ layout d' p')%string
  end.

End Repr.

(** *** Character classes (Unicode 14.0, as in CPython 3.11) *)

Module Unicode.

(** Code points of a [str] from its UTF-8 form. *)
Fixpoint code_points (l : list Z) : list Z :=
  match l with
  | [] => []
  | a :: r =>
      if a <? 192 then a :: code_points r
      else if a <? 224 then
        match r with
        | b :: r' => ((a - 192) * 64 + (b - 128)) :: code_points r'
        | _ => [a]
        end
      else if a <? 240 then
        match r with
        | b :: c :: r' =>
            ((a - 224) * 4096 + (b - 128) * 64 + (c - 128)) :: code_points r'
        | _ => [a]
        end
      else
        match r with
        | b :: c :: d :: r' =>
            ((a - 240) * 262144 + (b - 128) * 4096 + (c - 128) * 64
             + (d - 128)) :: code_points r'
        | _ => [a]
        end
  end.

(** The space characters from U+007F up ([str.isspace]). *)
Definition spaces : list Z :=
  [
   133; 160; 5760; 8192; 8193; 8194; 8195; 8196; 8197; 8198; 8199; 8200;
   8201; 8202; 8232; 8233; 8239; 8287; 12288].

Definition is_space (c : Z) : bool := existsb (Z.eqb c) spaces.

(** The zero of every run of decimal digits ([Nd]). *)
Definition digit_zeros : list Z :=
  [
   48; 1632; 1776; 1984; 2406; 2534; 2662; 2790; 2918; 3046; 3174; 3302;
   3430; 3558; 3664; 3792; 3872; 4160; 4240; 6112; 6160; 6470; 6608; 6784;
   6800; 6992; 7088; 7232; 7248; 42528; 43216; 43264; 43472; 43504; 43600;
   44016; 65296; 66720; 68912; 69734; 69872; 69942; 70096; 70384; 70736;
   70864; 71248; 71360; 71472; 71904; 72016; 72784; 73040; 73120; 92768;
   92864; 93008; 120782; 120792; 120802; 120812; 120822; 123200; 123632;
   125264; 130032].

(** [Py_UNICODE_TODECIMAL]. *)
Definition to_decimal (c : Z) : option Z :=
  match find (fun z => between z c (z + 9)) digit_zeros with
  | Some z => Some (c - z)
  | None => None
  end.

(** The ranges of code points from U+007F up that are not printable
    ([str.isprintable]). *)
Definition not_printable : list (Z * Z) :=
  [
   (127, 160); (173, 173); (888, 889); (896, 899); (907, 907); (909, 909);
   (930, 930); (1328, 1328); (1367, 1368); (1419, 1420); (1424, 1424);
   (1480, 1487); (1515, 1518); (1525, 1541); (1564, 1564); (1757, 1757);
   (1806, 1807); (1867, 1868); (1970, 1983); (2043, 2044); (2094, 2095);
   (2111, 2111); (2140, 2141); (2143, 2143); (2155, 2159); (2191, 2199);
   (2274, 2274); (2436, 2436); (2445, 2446); (2449, 2450); (2473, 2473);
   (2481, 2481); (2483, 2485); (2490, 2491); (2501, 2502); (2505, 2506);
   (2511, 2518); (2520, 2523); (2526, 2526); (2532, 2533); (2559, 2560);
   (2564, 2564); (2571, 2574); (2577, 2578); (2601, 2601); (2609, 2609);
   (2612, 2612); (2615, 2615); (2618, 2619); (2621, 2621); (2627, 2630);
   (2633, 2634); (2638, 2640); (2642, 2648); (2653, 2653); (2655, 2661);
   (2679, 2688); (2692, 2692); (2702, 2702); (2706, 2706); (2729, 2729);
   (2737, 2737); (2740, 2740); (2746, 2747); (2758, 2758); (2762, 2762);
   (2766, 2767); (2769, 2783); (2788, 2789); (2802, 2808); (2816, 2816);
   (2820, 2820); (2829, 2830); (2833, 2834); (2857, 2857); (2865, 2865);
   (2868, 2868); (2874, 2875); (2885, 2886); (2889, 2890); (2894, 2900);
   (2904, 2907); (2910, 2910); (2916, 2917); (2936, 2945); (2948, 2948);
   (2955, 2957); (2961, 2961); (2966, 2968); (2971, 2971); (2973, 2973);
   (2976, 2978); (2981, 2983); (2987, 2989); (3002, 3005); (3011, 3013);
   (3017, 3017); (3022, 3023); (3025, 3030); (3032, 3045); (3067, 3071);
   (3085, 3085); (3089, 3089); (3113, 3113); (3130, 3131); (3141, 3141);
   (3145, 3145); (3150, 3156); (3159, 3159); (3163, 3164); (3166, 3167);
   (3172, 3173); (3184, 3190); (3213, 3213); (3217, 3217); (3241, 3241);
   (3252, 3252); (3258, 3259); (3269, 3269); (3273, 3273); (3278, 3284);
   (3287, 3292); (3295, 3295); (3300, 3301); (3312, 3312); (3315, 3327);
   (3341, 3341); (3345, 3345); (3397, 3397); (3401, 3401); (3408, 3411);
   (3428, 3429); (3456, 3456); (3460, 3460); (3479, 3481); (3506, 3506);
   (3516, 3516); (3518, 3519); (3527, 3529); (3531, 3534); (3541, 3541);
   (3543, 3543); (3552, 3557); (3568, 3569); (3573, 3584); (3643, 3646);
   (3676, 3712); (3715, 3715); (3717, 3717); (3723, 3723); (3748, 3748);
   (3750, 3750); (3774, 3775); (3781, 3781); (3783, 3783); (3790, 3791);
   (3802, 3803); (3808, 3839); (3912, 3912); (3949, 3952); (3992, 3992);
   (4029, 4029); (4045, 4045); (4059, 4095); (4294, 4294); (4296, 4300);
   (4302, 4303); (4681, 4681); (4686, 4687); (4695, 4695); (4697, 4697);
   (4702, 4703); (4745, 4745); (4750, 4751); (4785, 4785); (4790, 4791);
   (4799, 4799); (4801, 4801); (4806, 4807); (4823, 4823); (4881, 4881);
   (4886, 4887); (4955, 4956); (4989, 4991); (5018, 5023); (5110, 5111);
   (5118, 5119); (5760, 5760); (5789, 5791); (5881, 5887); (5910, 5918);
   (5943, 5951); (5972, 5983); (5997, 5997); (6001, 6001); (6004, 6015);
   (6110, 6111); (6122, 6127); (6138, 6143); (6158, 6158); (6170, 6175);
   (6265, 6271); (6315, 6319); (6390, 6399); (6431, 6431); (6444, 6447);
   (6460, 6463); (6465, 6467); (6510, 6511); (6517, 6527); (6572, 6575);
   (6602, 6607); (6619, 6621); (6684, 6685); (6751, 6751); (6781, 6782);
   (6794, 6799); (6810, 6815); (6830, 6831); (6863, 6911); (6989, 6991);
   (7039, 7039); (7156, 7163); (7224, 7226); (7242, 7244); (7305, 7311);
   (7355, 7356); (7368, 7375); (7419, 7423); (7958, 7959); (7966, 7967);
   (8006, 8007); (8014, 8015); (8024, 8024); (8026, 8026); (8028, 8028);
   (8030, 8030); (8062, 8063); (8117, 8117); (8133, 8133); (8148, 8149);
   (8156, 8156); (8176, 8177); (8181, 8181); (8191, 8207); (8232, 8239);
   (8287, 8303); (8306, 8307); (8335, 8335); (8349, 8351); (8385, 8399);
   (8433, 8447); (8588, 8591); (9255, 9279); (9291, 9311); (11124, 11125);
   (11158, 11158); (11508, 11512); (11558, 11558); (11560, 11564); (11566,
   11567); (11624, 11630); (11633, 11646); (11671, 11679); (11687, 11687);
   (11695, 11695); (11703, 11703); (11711, 11711); (11719, 11719); (11727,
   11727); (11735, 11735); (11743, 11743); (11870, 11903); (11930, 11930);
   (12020, 12031); (12246, 12271); (12284, 12288); (12352, 12352); (12439,
   12440); (12544, 12548); (12592, 12592); (12687, 12687); (12772, 12783);
   (12831, 12831); (42125, 42127); (42183, 42191); (42540, 42559); (42744,
   42751); (42955, 42959); (42962, 42962); (42964, 42964); (42970, 42993);
   (43053, 43055); (43066, 43071); (43128, 43135); (43206, 43213); (43226,
   43231); (43348, 43358); (43389, 43391); (43470, 43470); (43482, 43485);
   (43519, 43519); (43575, 43583); (43598, 43599); (43610, 43611); (43715,
   43738); (43767, 43776); (43783, 43784); (43791, 43792); (43799, 43807);
   (43815, 43815); (43823, 43823); (43884, 43887); (44014, 44015); (44026,
   44031); (55204, 55215); (55239, 55242); (55292, 63743); (64110, 64111);
   (64218, 64255); (64263, 64274); (64280, 64284); (64311, 64311); (64317,
   64317); (64319, 64319); (64322, 64322); (64325, 64325); (64451, 64466);
   (64912, 64913); (64968, 64974); (64976, 65007); (65050, 65055); (65107,
   65107); (65127, 65127); (65132, 65135); (65141, 65141); (65277, 65280);
   (65471, 65473); (65480, 65481); (65488, 65489); (65496, 65497); (65501,
   65503); (65511, 65511); (65519, 65531); (65534, 65535); (65548, 65548);
   (65575, 65575); (65595, 65595); (65598, 65598); (65614, 65615); (65630,
   65663); (65787, 65791); (65795, 65798); (65844, 65846); (65935, 65935);
   (65949, 65951); (65953, 65999); (66046, 66175); (66205, 66207); (66257,
   66271); (66300, 66303); (66340, 66348); (66379, 66383); (66427, 66431);
   (66462, 66462); (66500, 66503); (66518, 66559); (66718, 66719); (66730,
   66735); (66772, 66775); (66812, 66815); (66856, 66863); (66916, 66926);
   (66939, 66939); (66955, 66955); (66963, 66963); (66966, 66966); (66978,
   66978); (66994, 66994); (67002, 67002); (67005, 67071); (67383, 67391);
   (67414, 67423); (67432, 67455); (67462, 67462); (67505, 67505); (67515,
   67583); (67590, 67591); (67593, 67593); (67638, 67638); (67641, 67643);
   (67645, 67646); (67670, 67670); (67743, 67750); (67760, 67807); (67827,
   67827); (67830, 67834); (67868, 67870); (67898, 67902); (67904, 67967);
   (68024, 68027); (68048, 68049); (68100, 68100); (68103, 68107); (68116,
   68116); (68120, 68120); (68150, 68151); (68155, 68158); (68169, 68175);
   (68185, 68191); (68256, 68287); (68327, 68330); (68343, 68351); (68406,
   68408); (68438, 68439); (68467, 68471); (68498, 68504); (68509, 68520);
   (68528, 68607); (68681, 68735); (68787, 68799); (68851, 68857); (68904,
   68911); (68922, 69215); (69247, 69247); (69290, 69290); (69294, 69295);
   (69298, 69375); (69416, 69423); (69466, 69487); (69514, 69551); (69580,
   69599); (69623, 69631); (69710, 69713); (69750, 69758); (69821, 69821);
   (69827, 69839); (69865, 69871); (69882, 69887); (69941, 69941); (69960,
   69967); (70007, 70015); (70112, 70112); (70133, 70143); (70162, 70162);
   (70207, 70271); (70279, 70279); (70281, 70281); (70286, 70286); (70302,
   70302); (70314, 70319); (70379, 70383); (70394, 70399); (70404, 70404);
   (70413, 70414); (70417, 70418); (70441, 70441); (70449, 70449); (70452,
   70452); (70458, 70458); (70469, 70470); (70473, 70474); (70478, 70479);
   (70481, 70486); (70488, 70492); (70500, 70501); (70509, 70511); (70517,
   70655); (70748, 70748); (70754, 70783); (70856, 70863); (70874, 71039);
   (71094, 71095); (71134, 71167); (71237, 71247); (71258, 71263); (71277,
   71295); (71354, 71359); (71370, 71423); (71451, 71452); (71468, 71471);
   (71495, 71679); (71740, 71839); (71923, 71934); (71943, 71944); (71946,
   71947); (71956, 71956); (71959, 71959); (71990, 71990); (71993, 71994);
   (72007, 72015); (72026, 72095); (72104, 72105); (72152, 72153); (72165,
   72191); (72264, 72271); (72355, 72367); (72441, 72703); (72713, 72713);
   (72759, 72759); (72774, 72783); (72813, 72815); (72848, 72849); (72872,
   72872); (72887, 72959); (72967, 72967); (72970, 72970); (73015, 73017);
   (73019, 73019); (73022, 73022); (73032, 73039); (73050, 73055); (73062,
   73062); (73065, 73065); (73103, 73103); (73106, 73106); (73113, 73119);
   (73130, 73439); (73465, 73647); (73649, 73663); (73714, 73726); (74650,
   74751); (74863, 74863); (74869, 74879); (75076, 77711); (77811, 77823);
   (78895, 82943); (83527, 92159); (92729, 92735); (92767, 92767); (92778,
   92781); (92863, 92863); (92874, 92879); (92910, 92911); (92918, 92927);
   (92998, 93007); (93018, 93018); (93026, 93026); (93048, 93052); (93072,
   93759); (93851, 93951); (94027, 94030); (94088, 94094); (94112, 94175);
   (94181, 94191); (94194, 94207); (100344, 100351); (101590, 101631);
   (101641, 110575); (110580, 110580); (110588, 110588); (110591, 110591);
   (110883, 110927); (110931, 110947); (110952, 110959); (111356, 113663);
   (113771, 113775); (113789, 113791); (113801, 113807); (113818, 113819);
   (113824, 118527); (118574, 118575); (118599, 118607); (118724, 118783);
   (119030, 119039); (119079, 119080); (119155, 119162); (119275, 119295);
   (119366, 119519); (119540, 119551); (119639, 119647); (119673, 119807);
   (119893, 119893); (119965, 119965); (119968, 119969); (119971, 119972);
   (119975, 119976); (119981, 119981); (119994, 119994); (119996, 119996);
   (120004, 120004); (120070, 120070); (120075, 120076); (120085, 120085);
   (120093, 120093); (120122, 120122); (120127, 120127); (120133, 120133);
   (120135, 120137); (120145, 120145); (120486, 120487); (120780, 120781);
   (121484, 121498); (121504, 121504); (121520, 122623); (122655, 122879);
   (122887, 122887); (122905, 122906); (122914, 122914); (122917, 122917);
   (122923, 123135); (123181, 123183); (123198, 123199); (123210, 123213);
   (123216, 123535); (123567, 123583); (123642, 123646); (123648, 124895);
   (124903, 124903); (124908, 124908); (124911, 124911); (124927, 124927);
   (125125, 125126); (125143, 125183); (125260, 125263); (125274, 125277);
   (125280, 126064); (126133, 126208); (126270, 126463); (126468, 126468);
   (126496, 126496); (126499, 126499); (126501, 126502); (126504, 126504);
   (126515, 126515); (126520, 126520); (126522, 126522); (126524, 126529);
   (126531, 126534); (126536, 126536); (126538, 126538); (126540, 126540);
   (126544, 126544); (126547, 126547); (126549, 126550); (126552, 126552);
   (126554, 126554); (126556, 126556); (126558, 126558); (126560, 126560);
   (126563, 126563); (126565, 126566); (126571, 126571); (126579, 126579);
   (126584, 126584); (126589, 126589); (126591, 126591); (126602, 126602);
   (126620, 126624); (126628, 126628); (126634, 126634); (126652, 126703);
   (126706, 126975); (127020, 127023); (127124, 127135); (127151, 127152);
   (127168, 127168); (127184, 127184); (127222, 127231); (127406, 127461);
   (127491, 127503); (127548, 127551); (127561, 127567); (127570, 127583);
   (127590, 127743); (128728, 128732); (128749, 128751); (128765, 128767);
   (128884, 128895); (128985, 128991); (129004, 129007); (129009, 129023);
   (129036, 129039); (129096, 129103); (129114, 129119); (129160, 129167);
   (129198, 129199); (129202, 129279); (129620, 129631); (129646, 129647);
   (129653, 129655); (129661, 129663); (129671, 129679); (129709, 129711);
   (129723, 129727); (129734, 129743); (129754, 129759); (129768, 129775);
   (129783, 129791); (129939, 129939); (129995, 130031); (130042, 131071);
   (173792, 173823); (177977, 177983); (178206, 178207); (183970, 183983);
   (191457, 194559); (195102, 196607); (201547, 917759); (918000, 1114111)].

Definition is_printable (c : Z) : bool :=
  negb (existsb (fun '(lo, hi) => between lo c hi) not_printable).

End Unicode.

(** *** [float(s)] for a [str] *)

Module FloatStr.

Import Decimal.

(** [_PyUnicode_TransformDecimalAndSpaceToASCII]: spaces and decimal
    digits beyond ASCII become their ASCII form, and the text is cut at
    the first other character, which becomes a question mark. *)
Fixpoint to_ascii (cps : list Z) : list Z :=
  match cps with
  | [] => []
  | c :: r =>
      if c <? 127 then c :: to_ascii r
      else if Unicode.is_space c then 32 :: to_ascii r
      else
        match Unicode.to_decimal c with
        | Some d => (48 + d) :: to_ascii r
        | None => [63]
        end
  end.

(** Underscores may stand between two digits only; they are removed.
    A NUL character is refused. *)
Fixpoint strip_underscores (l : list Z) (prev : Z) : option (list Z) :=
  match l with
  | [] => if prev =? 95 then None else Some []
  | c :: r =>
      if c =? 0 then None
      else if c =? 95 then
        if is_digit prev then strip_underscores r c else None
      else if (prev =? 95) && negb (is_digit c) then None
      else
        match strip_underscores r c with
        | Some r' => Some (c :: r')
        | None => None
        end
  end.

(** [Py_ISSPACE]. *)
Definition is_c_space (c : Z) : bool := (c =? 32) || between 9 c 13.

Fixpoint lstrip (l : list Z) : list Z :=
  match l with
  | c :: r => if is_c_space c then lstrip r else l
  | [] => []
  end.

Definition strip (l : list Z) : list Z := rev (lstrip (rev (lstrip l))).

Definition lower (c : Z) : Z := if between 65 c 90 then c + 32 else c.

(** The text after an optional sign. *)
Definition sign_of (l : list Z) : bool * list Z :=
  match l with
  | 45 :: r => (true, r)
  | 43 :: r => (false, r)
  | _ => (false, l)
  end.

Definition word_is (w : str) (l : list Z) : bool :=
  if list_eq_dec Z.eq_dec (map lower l) (codes_of_str w) then true else false.

(** A decimal literal: digits with an optional point, at least one
    digit, and an optional exponent; nothing may follow. *)
Definition decimal_literal (neg : bool) (l : list Z) : option float :=
  let '(int_digits, l1) := span_digits l in
  let '(frac_digits, l2) :=
    match l1 with
    | 46 :: r => span_digits r
    | _ => ([], l1)
    end in
  match int_digits ++ frac_digits with
  | [] => None
  | mantissa =>
      let exponent :=
        match l2 with
        | [] => Some 0
        | e :: r =>
            if (e =? 101) || (e =? 69) then
              let '(eneg, r') := sign_of r in
              match span_digits r' with
              | (d :: ds, []) =>
                  let v := digits_value (d :: ds) in
                  Some (if eneg then - v else v)
              | _ => None
              end
            else None
        end in
      match exponent with
      | Some x =>
          Some (to_float neg (digits_value mantissa)
                  (x - Z.of_nat (List.length frac_digits)))
      | None => None
      end
  end.

Definition of_str (s : str) : option float :=
  match strip_underscores (to_ascii (Unicode.code_points (codes_of_str s))) 0 with
  | None => None
  | Some l =>
      let '(neg, body) := sign_of (strip l) in
      if word_is "inf" body || word_is "infinity" body
      then Some (S754_infinity neg)
      else if word_is "nan" body then Some S754_nan
      else decimal_literal neg body
  end.

End FloatStr.

(** *** [repr(v)] *)

Module ValueRepr.

Definition hex_digit (v : Z) : Z := if v <? 10 then 48 + v else 87 + v.

(** [n] lower-case hex digits of [v]. *)
Fixpoint hex (n : nat) (v : Z) : list Z :=
  match n with
  | O => []
  | S n' => hex n' (v / 16) ++ [hex_digit (v mod 16)]
  end.

(** One character of [repr] of a [str] quoted with [quote]. *)
Definition repr_char (quote c : Z) : list Z :=
  if (c =? quote) || (c =? 92) then [92; c]
  else if c =? 9 then [92; 116]
  else if c =? 10 then [92; 110]
  else if c =? 13 then [92; 114]
  else if (c <? 32) || (c =? 127) then [92; 120] ++ hex 2 c
  else if c <? 127 then [c]
  else if Unicode.is_printable c then Json.utf8_of_code_point c
  else if c <=? 255 then [92; 120] ++ hex 2 c
  else if c <=? 65535 then [92; 117] ++ hex 4 c
  else [92; 85] ++ hex 8 c.

(** Double quotes when the text has an apostrophe and no double quote,
    else apostrophes. *)
Definition str_repr (s : str) : str :=
  let cps := Unicode.code_points (codes_of_str s) in
  let quote :=
    if existsb (Z.eqb 39) cps && negb (existsb (Z.eqb 34) cps)
    then 34 else 39 in
  str_of_codes ([quote] ++ flat_map (repr_char quote) cps ++ [quote]).

Fixpoint join (sep : str) (l : list str) : str :=
  match l with
  | [] => EmptyString
  | [x] => x
  | x :: r => (x ++ sep ++ join sep r)%string
  end.

(** The text of a value. *)
Fixpoint text (v : pyval) : str :=
  match v with
  | PNone => "None"
  | PBool true => "True"
  | PBool false => "False"
  | PInt z => Repr.decimal_text z
  | PFloat f => Repr.float_repr f
  | PStr s => str_repr s
  | PList l => ("[" ++ join ", " (map text l) ++ "]")%string
  | PDict d =>
      ("{" ++ join ", "
         (map (fun kv => (str_repr (fst kv) ++ ": " ++ text (snd kv))%string) d)
       ++ "}")%string
  end.

(** No [int] in the value has more than 4300 digits. *)
Fixpoint within_digits (v : pyval) : bool :=
  match v with
  | PInt z => Z.abs z <? INT_STR_LIMIT
  | PList l => forallb within_digits l
  | PDict d => forallb (fun kv => within_digits (snd kv)) d
  | _ => true
  end.

(** [repr(v)]: the text, unless an [int] in it is beyond the limit.
    (The depth at which CPython gives up a nested value depends on the
    depth of the call; it is not modelled.) *)
Definition repr (v : pyval) : result str :=
  if within_digits v then Ok (text v) else Raise ValueError.

End ValueRepr.

(** *** [json.dumps(v)] with its defaults *)

Module JsonEncoder.

Import ValueRepr.

(** [encode_basestring_ascii]: one character. *)
Definition escape_char (c : Z) : list Z :=
  if c =? 34 then [92; 34]
  else if c =? 92 then [92; 92]
  else if c =? 10 then [92; 110]
  else if c =? 13 then [92; 114]
  else if c =? 9 then [92; 116]
  else if c =? 12 then [92; 102]
  else if c =? 8 then [92; 98]
  else if between 32 c 126 then [c]
  else if c <? 65536 then [92; 117] ++ hex 4 c
  else
    let v := c - 65536 in
    [92; 117] ++ hex 4 (55296 + v / 1024)
    ++ [92; 117] ++ hex 4 (56320 + v mod 1024).

Definition encode_str (s : str) : str :=
  str_of_codes
    ([34] ++ flat_map escape_char (Unicode.code_points (codes_of_str s))
     ++ [34]).

Definition encode_float (f : float) : str :=
  match f with
  | S754_nan => "NaN"
  | S754_infinity false => "Infinity"
  | S754_infinity true => "-Infinity"
  | _ => Repr.float_repr f
  end.

Fixpoint dumps (v : pyval) : str :=
  match v with
  | PNone => "null"
  | PBool true => "true"
  | PBool false => "false"
  | PInt z => Repr.decimal_text z
  | PFloat f => encode_float f
  | PStr s => encode_str s
  | PList l => ("[" ++ join ", " (map dumps l) ++ "]")%string
  | PDict d =>
      ("{" ++ join ", "
         (map (fun kv => (encode_str (fst kv) ++ ": " ++ dumps (snd kv))%string) d)
       ++ "}")%string
  end.

End JsonEncoder.

(** *** The instance *)

Definition library : Library := {|
  b64decode := Base64.b64decode;
  gzip_decompress := Gzip.decompress;
  utf8_decode := Utf8.decode;
  json_loads := Json.loads;
  float_of_str := FloatStr.of_str;
  repr_float := Repr.float_repr;
  repr := ValueRepr.repr
|}.

End CPython.

(* ================================================================== *)
(** ** The vocabulary of the specification *)
(* ================================================================== *)

(** [document.k1.k2...]: the value at a path of keys, absent when a key
    is missing or a value on the way is not a mapping. *)
Fixpoint navigate (path : list str) (v : pyval) : option pyval :=
  match path with
  | [] => Some v
  | k :: rest =>
      match v with
      | PDict d =>
          match lookup k d with
          | Some x => navigate rest x
          | None => None
          end
      | _ => None
      end
  end.

(** The paths that extraction follows. *)
Abbreviation at_message := ["message"].
Abbreviation at_call := ["message"; "call"].
Abbreviation at_call_id := ["message"; "call"; "id"].
Abbreviation at_duration := ["message"; "durationSeconds"].
Abbreviation at_artifact := ["message"; "artifact"].
Abbreviation at_messages := ["message"; "artifact"; "messages"].

Definition absent_or_falsy (path : list str) (doc : pyval) : bool :=
  match navigate path doc with
  | Some v => negb (truthy v)
  | None => true
  end.

(** The value at [path] is a mapping, or there is none. *)
Definition mapping_or_missing (path : list str) (doc : pyval) : bool :=
  match navigate path doc with
  | Some v => is_dict v
  | None => true
  end.

(** The value at [path], [None] when there is none. *)
Definition value_at (path : list str) (doc : pyval) : pyval :=
  match navigate path doc with
  | Some v => v
  | None => PNone
  end.

(** [secondsFromStart] of the last element of
    [message.artifact.messages]; [None] when the sequence is missing or
    empty. *)
Definition last_message_seconds (doc : pyval) : pyval :=
  match navigate at_messages doc with
  | Some (PList (m :: ms)) =>
      match navigate ["secondsFromStart"] (last ms m) with
      | Some t => t
      | None => PNone
      end
  | _ => PNone
  end.

Definition RECORD_FIELDS : list str :=
  ["callID"; "dashboardURL"; "vapiCallDuration"; "lastMessageTimeStamp";
   "difference"; "startedAt"; "endedAt"; "endedReason"].

(** The [callID] of a Call Record. *)
Definition call_id_of (record : pyval) : pyval :=
  match record with
  | PDict r => field r "callID" PNone
  | _ => PNone
  end.

(** Two records are of the same call: their [callID] are one object or
    equal, the test of the seen set. *)
Definition same_call_id (a b : pyval) : bool :=
  matches (call_id_of a) (call_id_of b).

(** The records of a sequence that no earlier record shares its
    [callID] with; [earlier] are the records before the sequence. *)
Fixpoint first_occurrences (earlier records : list pyval) : list pyval :=
  match records with
  | [] => []
  | r :: rest =>
      if existsb (same_call_id r) earlier
      then first_occurrences (earlier ++ [r]) rest
      else r :: first_occurrences (earlier ++ [r]) rest
  end.

(** An [int] that [float] can convert. *)
Definition in_float_range (v : pyval) : bool :=
  match v with
  | PInt z => negb (raises (float_of_int z))
  | _ => true
  end.

(** [messages] is falsy or a sequence that ends in a mapping. *)
Definition messages_usable (messages : pyval) : bool :=
  negb (truthy messages)
  || match messages with
     | PList l => match rev l with x :: _ => is_dict x | [] => false end
     | _ => false
     end.

(** An [int] that [str] can convert: of no more than 4300 digits. *)
Definition in_text_range (v : pyval) : bool :=
  match v with
  | PInt z => Z.abs z <? INT_STR_LIMIT
  | _ => true
  end.

Section SpecVocabulary.

Context {L : Library}.

(** [float(v)] returns a float. *)
Definition converts (v : pyval) : bool :=
  match v with
  | PFloat _ | PBool _ => true
  | PInt _ => in_float_range v
  | PStr s => match float_of_str s with Some _ => true | None => false end
  | _ => false
  end.

(** No [int] that the difference converts is beyond the floats: when
    both durations are there, [float] is called on the first, and on
    the second when the first has converted. *)
Definition durations_in_range (duration ts : pyval) : bool :=
  is_none duration || is_none ts
  || (in_float_range duration
      && (negb (converts duration) || in_float_range ts)).

(** A document on which extraction meets no value of the wrong kind:
    the nesting is of mappings where present, and when there is a call
    identifier it is not a container and not an [int] of more than 4300
    digits, the messages are usable and no duration that is converted
    is an [int] beyond the floats. *)
Definition well_shaped (doc : pyval) : bool :=
  is_dict doc
  && mapping_or_missing at_message doc
  && mapping_or_missing at_call doc
  && (absent_or_falsy at_call_id doc
      || (match navigate at_call_id doc with
          | Some id => hashable id && in_text_range id
          | None => false
          end
          && mapping_or_missing at_artifact doc
          && match navigate at_messages doc with
             | Some messages => messages_usable messages
             | None => true
             end
          && durations_in_range (value_at at_duration doc)
                                (last_message_seconds doc))).

(** The Call Record built from the parts of a message. *)
Definition record_of_parts (m : list (str * pyval)) (call_id : pyval)
           (url : str) (ts diff : pyval) : list (str * pyval) :=
  [ ("callID", call_id);
    ("dashboardURL", PStr url);
    ("vapiCallDuration", field m "durationSeconds" PNone);
    ("lastMessageTimeStamp", ts);
    ("difference", diff);
    ("startedAt", field m "startedAt" PNone);
    ("endedAt", field m "endedAt" PNone);
    ("endedReason", field m "endedReason" PNone) ].

(** Decoding and extraction on one raw stored record. *)
Definition decode_extract (webhook : pyval) : result pyval :=
  raw <- get webhook "payload" (PDict []) ;;
  payload <- decode_payload raw ;;
  extract_call_data payload.

(** The record, if any, that a raw stored record yields. *)
Definition extracted_of (webhook : pyval) : list pyval :=
  match decode_extract webhook with
  | Ok call_data => if truthy call_data then [call_data] else []
  | Raise _ => []
  end.

Definition extracted (webhooks : list pyval) : list pyval :=
  flat_map extracted_of webhooks.

(** A raw stored record whose payload decodes to a well-shaped document. *)
Definition usable (webhook : pyval) : bool :=
  match webhook with
  | PDict d =>
      match decode_payload (field d "payload" (PDict [])) with
      | Ok doc => well_shaped doc
      | Raise _ => false
      end
  | _ => false
  end.

End SpecVocabulary.

(* ================================================================== *)
(** ** Sample payloads *)
(* ================================================================== *)

(** [dq s] is [s] with every apostrophe turned into a double quote, for
    writing JSON texts. *)
Fixpoint dq (s : str) : str :=
  match s with
  | EmptyString => EmptyString
  | String c s' => String (if Ascii.eqb c "'" then "034"%char else c) (dq s')
  end.

(** A call report: 62.5 seconds long, last message at 60.0. *)
Definition call_report (id : str) (reason : str) : pyval :=
  PDict [("message",
          PDict [("call", PDict [("id", PStr id)]);
                 ("durationSeconds", PFloat (float_lit 125 (-1)));
                 ("artifact",
                  PDict [("messages",
                          PList [PDict [("secondsFromStart", PInt 1)];
                                 PDict [("secondsFromStart",
                                         PFloat (float_lit 60 0))]])]);
                 ("startedAt", PStr "2025-01-01T10:00:00Z");
                 ("endedAt", PStr "2025-01-01T10:01:02Z");
                 ("endedReason", PStr reason)])].

(** A stored row holding [payload]. *)
Definition row (payload : pyval) : pyval :=
  PDict [("id", PInt 7); ("payload", payload);
         ("received_at", PStr "2025-01-01T10:01:03Z")].



(** A document with a text of two code points, the surrogate halves
    U+D83D and U+DE00, and the document with the one code point U+1F600
    that the two halves encode as a pair. *)
Definition surrogate_halves : pyval :=
  PDict [("a", PStr (CPython.str_of_codes [237; 160; 189; 237; 184; 128]))].

Definition surrogate_pair : pyval :=
  PDict [("a", PStr (CPython.str_of_codes [240; 159; 152; 128]))].

(** The compressed-payload encoding of a document with the reference
    codecs. *)
Definition pack (D : pyval) : str :=
  CPython.Base64.b64encode
    (CPython.Gzip.compress_stored
       (CPython.Utf8.encode (CPython.JsonEncoder.dumps D))).

(** The rows of the dedup example: calls A, B, A again with another
    reason, and C, stored as a mapping, compressed, as plain JSON text
    and as a mapping. *)
Definition rows_ABAC : list pyval :=
  [ row (call_report "A" "hangup");
    row (PStr (pack (call_report "B" "hangup")));
    row (PStr (CPython.JsonEncoder.dumps (call_report "A" "timeout")));
    row (call_report "C" "hangup") ].

(** Rows with every anomaly that costs a field or the record: a payload
    that no strategy decodes, no payload, a payload that is a number, no
    [message], no identifier, a duration that is text with no messages,
    and at the end a complete report. *)
Definition rows_degraded : list pyval :=
  [ row (PStr "not valid base64 or json @@@");
    PDict [("id", PInt 8)];
    row (PInt 5);
    row (PDict [("type", PStr "status-update")]);
    row (PDict [("message", PDict [("call", PDict [])])]);
    row (PDict [("message",
                 PDict [("call", PDict [("id", PStr "D")]);
                        ("durationSeconds", PStr "soon");
                        ("artifact", PDict [])])]);
    row (PStr (pack (call_report "E" "hangup"))) ].

(** The row of call A and the row of a call B whose duration is the
    integer 10^4300; the report of B has no messages, so that no
    difference is computed. *)
Definition rows_huge_field : list pyval :=
  [ row (call_report "A" "hangup");
    row (PDict [("message",
                 PDict [("call", PDict [("id", PStr "B")]);
                        ("durationSeconds",
                         PInt INT_STR_LIMIT)])]) ].

(** A report with its duration and its messages replaced. *)
Definition report_with (duration messages : pyval) : pyval :=
  PDict [("message",
          PDict [("call", PDict [("id", PStr "call-A")]);
                 ("durationSeconds", duration);
                 ("artifact", PDict [("messages", messages)])])].

(** A report that has a call identifier and nothing else. *)
Definition report_of_id (id : pyval) : pyval :=
  PDict [("message", PDict [("call", PDict [("id", id)])])].

(** The JSON text of a report whose [durationSeconds] is the integer
    10^400. *)
Definition huge_duration_text : str :=
  (dq "{'message': {'call': {'id': 'call-A'}, 'durationSeconds': 1"
   ++ CPython.Repr.zeros 400
   ++ dq ", 'artifact': {'messages': [{'secondsFromStart': 1}]}}}")%string.

(* ================================================================== *)
(** ** Rows that the loop accepts *)
(* ================================================================== *)

Section LoopVocabulary.

Context {L : Library}.

(** One iteration of the loop of [process_webhooks] raises nothing on
    [webhook], whatever was seen before: decoding and extraction
    return, and the [callID] of the record, if there is a record, can
    be hashed. *)
Definition accepted (webhook : pyval) : bool :=
  match decode_extract webhook with
  | Ok call_data =>
      negb (truthy call_data)
      || match getitem call_data "callID" with
         | Ok call_id => hashable call_id
         | Raise _ => false
         end
  | Raise _ => false
  end.

End LoopVocabulary.

(* ================================================================== *)
(** ** The record source: [get_supabase_client] and [fetch_webhooks]

    - [os.environ] is a function from the name of a variable to its
      value, if it is set.
    - The calls of the [supabase] package are the fields of a class,
      [Supabase]: [create_client], and the one query that the script
      builds, which is sent once per page.  The clock that gives the
      start of the time window is on the side of the store: the query
      is a function of [days] and of the range asked for.
    - [while True] has no bound: [fetch_webhooks] takes the number of
      requests it may send, and gives [None] when they do not
      suffice. *)
(* ================================================================== *)

Definition environ := str -> option str.

Class Supabase : Type := {
  Client : Type;
  (* create_client(url, key) *)
  create_client : str -> str -> result Client;
  (* client.table("webhook_dumps").select("*")
       .gte("received_at", start_date).order("received_at", desc=True)
       .range(first, last).execute().data,
     with start_date the given number of days before now *)
  select_range : Client -> Z -> Z -> Z -> result (option (list pyval))
}.

(** [a or b] for two results of [os.environ.get]: [a] unless it is
    [None] or the empty text. *)
Definition text_or (a b : option str) : option str :=
  match a with
  | Some s => if String.eqb s EmptyString then b else a
  | None => b
  end.

Definition page_size : Z := 1000.

Section RecordSource.

Context {DB : Supabase}.

Definition get_supabase_client (env : environ) : result Client :=
  let url := text_or (env "SUPABASE_PROD_URL") (env "SUPABASE_URL") in
  let key := text_or (env "SUPABASE_PROD_KEY") (env "SUPABASE_KEY") in
  match url, key with
  | Some url, Some key =>
      if String.eqb url EmptyString || String.eqb key EmptyString
      then Raise ValueError
      else create_client url key
  | _, _ => Raise ValueError
  end.

(** The loop of [fetch_webhooks] from a given state ([all_webhooks],
    [offset]), for at most [requests] requests. *)
Fixpoint fetch_loop (requests : nat) (client : Client) (days : Z)
         (all_webhooks : list pyval) (offset : Z)
  : option (result (list pyval)) :=
  match requests with
  | O => None
  | S requests' =>
      match select_range client days offset (offset + page_size - 1) with
      | Raise e => Some (Raise e)
      | Ok data =>
          let webhooks := match data with Some l => l | None => [] end in
          let all_webhooks := all_webhooks ++ webhooks in
          if Z.of_nat (List.length webhooks) <? page_size
          then Some (Ok all_webhooks)
          else fetch_loop requests' client days all_webhooks
                          (offset + page_size)
      end
  end.

Definition fetch_webhooks (requests : nat) (client : Client) (days : Z)
  : option (result (list pyval)) :=
  fetch_loop requests client days [] 0.

(** *** Vocabulary for the pages *)

(** The answer to the request of page [k], the pages counted from 0. *)
Definition page (client : Client) (days : Z) (k : nat)
  : result (list pyval) :=
  data <- select_range client days (page_size * Z.of_nat k)
                       (page_size * Z.of_nat k + page_size - 1) ;;
  Ok (match data with Some l => l | None => [] end).

Definition page_rows (client : Client) (days : Z) (k : nat) : list pyval :=
  match page client days k with
  | Ok l => l
  | Raise _ => []
  end.

(** A page with as many rows as were asked for, or more. *)
Definition full_page (client : Client) (days : Z) (k : nat) : bool :=
  match page client days k with
  | Ok l => page_size <=? Z.of_nat (List.length l)
  | Raise _ => false
  end.

(** A page with fewer rows than were asked for. *)
Definition short_page (client : Client) (days : Z) (k : nat) : bool :=
  match page client days k with
  | Ok l => Z.of_nat (List.length l) <? page_size
  | Raise _ => false
  end.

End RecordSource.

(** The rows of [table] at the positions [first] to [last], both
    included, counted from 0. *)
Definition rows_in_range (table : list pyval) (first last : Z) : list pyval :=
  firstn (Z.to_nat (last - first + 1)) (skipn (Z.to_nat first) table).

(** The value of the first of the variables [names] that is set to a
    text that is not empty. *)
Fixpoint first_set (env : environ) (names : list str) : option str :=
  match names with
  | [] => None
  | name :: rest =>
      match env name with
      | Some s => if String.eqb s EmptyString then first_set env rest else Some s
      | None => first_set env rest
      end
  end.

(** *** Sample stores and environments *)

(** A store that holds [table] and answers a request with the rows of
    the range. *)
Definition table_store (table : list pyval) : Supabase := {|
  Client := unit;
  create_client := fun _ _ => Ok tt;
  select_range := fun _ _ first last =>
    Ok (Some (rows_in_range table first last))
|}.

(** A store that holds [table] and gives no more than [max_rows] rows
    of the range in one answer. *)
Definition capped_store (table : list pyval) (max_rows : nat) : Supabase := {|
  Client := unit;
  create_client := fun _ _ => Ok tt;
  select_range := fun _ _ first last =>
    Ok (Some (firstn max_rows (rows_in_range table first last)))
|}.

(** A store that fails at the request of the rows from [broken] on. *)
Definition failing_store (table : list pyval) (broken : Z) : Supabase := {|
  Client := unit;
  create_client := fun _ _ => Ok tt;
  select_range := fun _ _ first last =>
    if broken <=? first then Raise OSError
    else Ok (Some (rows_in_range table first last))
|}.

(** A store that has a full page for every request. *)
Definition endless_store (r : pyval) : Supabase := {|
  Client := unit;
  create_client := fun _ _ => Ok tt;
  select_range := fun _ _ first last =>
    Ok (Some (repeat r (Z.to_nat (last - first + 1))))
|}.

(** [n] stored rows, numbered from 0, the payload of row [i] an event
    of call [i + 1]. *)
Definition numbered_rows (n : nat) : list pyval :=
  map (fun i =>
         PDict [("id", PInt (Z.of_nat i));
                ("payload",
                 PDict [("message",
                         PDict [("call", PDict [("id", PInt (Z.of_nat i + 1))])])])])
      (seq 0 n).

(** A store whose client is the URL and the key it was created with. *)
Definition recording_store : Supabase := {|
  Client := str * str;
  create_client := fun url key => Ok (url, key);
  select_range := fun _ _ _ _ => Ok None
|}.

(** An environment in which exactly the listed variables are set. *)
Definition environ_of (vars : list (str * str)) : environ :=
  fun name =>
    match find (fun v => String.eqb name (fst v)) vars with
    | Some v => Some (snd v)
    | None => None
    end.

(** The production pair. *)
Definition production : environ :=
  environ_of [("SUPABASE_PROD_URL", "https://prod.supabase.co");
              ("SUPABASE_PROD_KEY", "prod-key")].

(** A production URL without its key, beside a general pair. *)
Definition half_production : environ :=
  environ_of [("SUPABASE_PROD_URL", "https://prod.supabase.co");
              ("SUPABASE_PROD_KEY", EmptyString);
              ("SUPABASE_URL", "https://dev.supabase.co");
              ("SUPABASE_KEY", "dev-key")].

(** A URL and no key. *)
Definition no_key : environ :=
  environ_of [("SUPABASE_URL", "https://dev.supabase.co")].

(* ================================================================== *)
(** ** The report: [save_to_csv]

    - The file is the text that has been written to it.  It is opened
      with the encoding UTF-8 and no translation of line ends: a line
      is written as it is given, and a text with a lone surrogate is
      refused with [UnicodeEncodeError].  The file system is taken to
      accept the file.
    - [csv.DictWriter] is used with the default dialect: fields parted
      by commas, a field quoted when it holds a comma, a quote or a
      line break, a quote doubled inside quotes, lines ended by CR LF.
    - [save_to_csv] gives the file, if it has opened one, and how it
      ended. *)
(* ================================================================== *)

Module Csv.

Definition COMMA : ascii := ","%char.
Definition QUOTE : ascii := "034"%char.
Definition CR : ascii := "013"%char.
Definition LF : ascii := "010"%char.

Definition special (c : ascii) : bool :=
  Ascii.eqb c COMMA || Ascii.eqb c QUOTE || Ascii.eqb c CR || Ascii.eqb c LF.

Fixpoint needs_quotes (field : str) : bool :=
  match field with
  | EmptyString => false
  | String c rest => special c || needs_quotes rest
  end.

Fixpoint double_quotes (field : str) : str :=
  match field with
  | EmptyString => EmptyString
  | String c rest =>
      if Ascii.eqb c QUOTE then String QUOTE (String QUOTE (double_quotes rest))
      else String c (double_quotes rest)
  end.

Definition quoted (field : str) : str :=
  String QUOTE (double_quotes field ++ String QUOTE EmptyString).

Definition write_field (field : str) : str :=
  if needs_quotes field then quoted field else field.

Fixpoint join_fields (fields : list str) : str :=
  match fields with
  | [] => EmptyString
  | [field] => write_field field
  | field :: rest => (write_field field ++ String COMMA (join_fields rest))%string
  end.

(** The line that [writer.writerow(fields)] writes; a row of one empty
    field is written as a pair of quotes. *)
Definition writerow (fields : list str) : str :=
  (match fields with
   | [EmptyString] => quoted EmptyString
   | _ => join_fields fields
   end ++ String CR (String LF EmptyString))%string.

End Csv.

(** A lone surrogate in a text: in the form of the text kept here, the
    byte [ED] followed by a byte from [A0] on. *)
Fixpoint has_surrogate (s : str) : bool :=
  match s with
  | EmptyString => false
  | String c rest =>
      match rest with
      | String c' _ =>
          ((N_of_ascii c =? 237)%N && (160 <=? N_of_ascii c')%N)
          || has_surrogate rest
      | EmptyString => false
      end
  end.

(** The text of a file that is being written. *)
Definition file := str.

(** [f.write(text)]. *)
Definition write (f : file) (text : str) : result file :=
  if has_surrogate text then Raise UnicodeEncodeError
  else Ok (f ++ text)%string.

Definition FIELDNAMES : list str :=
  ["callID"; "vapiCallDuration"; "lastMessageTimeStamp"; "difference";
   "startedAt"; "endedAt"; "endedReason"].

Section Report.

Context {L : Library}.

(** The text of a value in a CSV field: nothing for [None], a [str] as
    it is, [str(v)] for the rest. *)
Definition field_text (v : pyval) : result str :=
  match v with
  | PNone => Ok EmptyString
  | _ => format v
  end.

(** [f'=HYPERLINK("{row["dashboardURL"]}", "{row["callID"]}")']: each
    of the two values is read and turned into text in its turn. *)
Definition hyperlink_formula (row : pyval) : result str :=
  url <- getitem row "dashboardURL" ;;
  url_text <- format url ;;
  call_id <- getitem row "callID" ;;
  id_text <- format call_id ;;
  Ok (dq "=HYPERLINK('" ++ url_text ++ dq "', '" ++ id_text ++ dq "')")%string.

(** The values that one record puts in the seven columns. *)
Definition report_row (row : pyval) : result (list pyval) :=
  formula <- hyperlink_formula row ;;
  duration <- getitem row "vapiCallDuration" ;;
  last_message <- getitem row "lastMessageTimeStamp" ;;
  difference <- getitem row "difference" ;;
  started_at <- getitem row "startedAt" ;;
  ended_at <- getitem row "endedAt" ;;
  ended_reason <- getitem row "endedReason" ;;
  Ok [PStr formula; duration; last_message;
      difference; started_at; ended_at; ended_reason].

(** The texts of the fields of a row, in the order of the fields; the
    first value that has no text raises. *)
Fixpoint field_texts (cells : list pyval) : result (list str) :=
  match cells with
  | [] => Ok []
  | cell :: rest =>
      text <- field_text cell ;;
      texts <- field_texts rest ;;
      Ok (text :: texts)
  end.

(** The line of one record. *)
Definition report_line (row : pyval) : result str :=
  cells <- report_row row ;;
  texts <- field_texts cells ;;
  Ok (Csv.writerow texts).

(** The loop of [save_to_csv]: the file after the rows that were
    written, and how the loop ended. *)
Fixpoint write_rows (data : list pyval) (f : file) : file * result unit :=
  match data with
  | [] => (f, Ok tt)
  | row :: rest =>
      match (line <- report_line row ;; write f line) with
      | Ok f' => write_rows rest f'
      | Raise e => (f, Raise e)
      end
  end.

Definition save_to_csv (data : list pyval) : option file * result unit :=
  match data with
  | [] => (None, Ok tt)
  | _ :: _ =>
      match write EmptyString (Csv.writerow FIELDNAMES) with
      | Ok f => let (f', ended) := write_rows data f in (Some f', ended)
      | Raise e => (Some EmptyString, Raise e)
      end
  end.

(** *** Vocabulary for the file *)

(** The line of the record can be written: the record is a mapping
    with the eight fields, each value that is written has a text, and
    the text of the line has no lone surrogate. *)
Definition writable (row : pyval) : bool :=
  match report_line row with
  | Ok line => negb (has_surrogate line)
  | Raise _ => false
  end.

(** The exception that a record that is not writable ends the loop
    with. *)
Definition write_error (row : pyval) : exc :=
  match report_line row with
  | Ok _ => UnicodeEncodeError
  | Raise e => e
  end.

(** [text] is [str(v)]: the name of [None], [True] and [False], the
    decimal numeral of an [int] of no more than 4300 digits, the [repr]
    of a float, a [str] itself, the [repr] of a sequence or a mapping. *)
Definition str_text (v : pyval) (text : str) : Prop :=
  match v with
  | PNone => text = "None"
  | PBool b => text = if b then "True" else "False"
  | PInt z =>
      Z.abs z < INT_STR_LIMIT
      /\ text = NilZero.string_of_int (Z.to_int z)
  | PFloat f => text = repr_float f
  | PStr s => text = s
  | PList _ | PDict _ => repr v = Ok text
  end.

(** [text] is what the csv writer writes for [v]: nothing for [None],
    [str(v)] for the rest. *)
Definition cell_text (v : pyval) (text : str) : Prop :=
  match v with
  | PNone => text = EmptyString
  | _ => str_text v text
  end.

(** [str(v)] raises [e]: [ValueError] for an [int] of more than 4300
    digits, and what [repr] raises for a sequence or a mapping. *)
Definition no_text (v : pyval) (e : exc) : Prop :=
  match v with
  | PInt z => INT_STR_LIMIT <= Z.abs z /\ e = ValueError
  | PList _ | PDict _ => repr v = Raise e
  | _ => False
  end.

(** The fields of a record that are written as they are. *)
Definition PLAIN_FIELDS : list str :=
  ["vapiCallDuration"; "lastMessageTimeStamp"; "difference";
   "startedAt"; "endedAt"; "endedReason"].

(** The URL of a call whose identifier has the text [text], and the
    formula that links to it. *)
Definition url_of (text : str) : str :=
  (DASHBOARD_BASE_URL ++ "?" ++ DASHBOARD_PARAMS ++ "&c=" ++ text)%string.

Definition formula_of (text : str) : str :=
  (dq "=HYPERLINK('" ++ url_of text ++ dq "', '" ++ text ++ dq "')")%string.

(** The lines of the records, one after the other. *)
Fixpoint report_lines (data : list pyval) : str :=
  match data with
  | [] => EmptyString
  | row :: rest =>
      (match report_line row with Ok line => line | Raise _ => EmptyString end
       ++ report_lines rest)%string
  end.

End Report.

(** The [difference] of a Call Record. *)
Definition difference_of (record : pyval) : pyval :=
  match record with
  | PDict r => field r "difference" PNone
  | _ => PNone
  end.

Definition is_float (v : pyval) : bool :=
  match v with PFloat _ => true | _ => false end.

(* ================================================================== *)
(** ** The run: [main]

    - The messages are not printed: [main] gives the outcome that they
      report, with the numbers of the summary before they are
      formatted, and the file that [save_to_csv] has written.  The name
      of the file, which is taken from the clock, is left out.
    - [sum] is that of CPython 3.11, which adds the floats one after
      the other. *)
(* ================================================================== *)

Definition float_add (a b : float) : float := SFadd prec emax a b.
Definition float_div (a b : float) : float := SFdiv prec emax a b.

(** The running total of [sum], an [int] until a [float] is added. *)
Inductive total : Type :=
| TInt (z : Z)
| TFloat (f : float).

(** [total + item]: only a number can be added to a number. *)
Definition add_to (t : total) (item : pyval) : result total :=
  match t, item with
  | TInt x, PInt y => Ok (TInt (x + y))
  | TInt x, PBool b => Ok (TInt (x + (if b then 1 else 0)))
  | TInt x, PFloat g => f <- float_of_int x ;; Ok (TFloat (float_add f g))
  | TFloat f, PFloat g => Ok (TFloat (float_add f g))
  | TFloat f, PInt y => g <- float_of_int y ;; Ok (TFloat (float_add f g))
  | TFloat f, PBool b =>
      g <- float_of_int (if b then 1 else 0) ;; Ok (TFloat (float_add f g))
  | _, _ => Raise TypeError
  end.

(** [sum(items)] from a running total. *)
Fixpoint sum_from (t : total) (items : list pyval) : result total :=
  match items with
  | [] => Ok t
  | item :: rest => t' <- add_to t item ;; sum_from t' rest
  end.

(** [a / b] for two [int], [b > 0]: the float nearest to the quotient,
    ties to even. *)
Definition int_true_divide (a : Z) (b : positive) : result float :=
  if a =? 0 then Ok (S754_zero false)
  else
    let k := Z.max 0 (prec + 3 + Z.log2 (Z.pos b) - Z.log2 (Z.abs a)) in
    let num := Z.abs a * 2 ^ k in
    let q := num / Z.pos b in
    let sticky := if num mod Z.pos b =? 0 then 0 else 1 in
    let signed (x : Z) := if a <? 0 then - x else x in
    match binary_normalize prec emax (signed (2 * q + sticky)) (- k - 1) false with
    | S754_infinity _ => Raise OverflowError
    | f => Ok f
    end.

(** [total / n] for the length [n] of a list that is not empty. *)
Definition divide (t : total) (n : positive) : result float :=
  match t with
  | TInt z => int_true_divide z n
  | TFloat f => g <- float_of_int (Z.pos n) ;; Ok (float_div f g)
  end.

Definition number_ltb (x y : number) : bool :=
  match x, y with
  | NFinite p, NFinite q => negb (Qle_bool q p)
  | NInfinite s, NFinite _ => s
  | NFinite _, NInfinite t => negb t
  | NInfinite s, NInfinite t => s && negb t
  | _, _ => false
  end.

(** [a < b] for two numbers, which Python compares exactly.  ([max] and
    [min] compare the values that [sum] has added, all numbers.) *)
Definition less (a b : pyval) : bool :=
  match number_of a, number_of b with
  | Some x, Some y => number_ltb x y
  | _, _ => false
  end.

(** [max]: an item replaces the greatest so far when it is greater. *)
Fixpoint max_from (maxitem : pyval) (items : list pyval) : pyval :=
  match items with
  | [] => maxitem
  | item :: rest => max_from (if less maxitem item then item else maxitem) rest
  end.

(** [min]: an item replaces the least so far when it is less. *)
Fixpoint min_from (minitem : pyval) (items : list pyval) : pyval :=
  match items with
  | [] => minitem
  | item :: rest => min_from (if less item minitem then item else minitem) rest
  end.

(** [d["difference"] for d in call_data if d["difference"] is not None]. *)
Fixpoint valid_differences (call_data : list pyval) : result (list pyval) :=
  match call_data with
  | [] => Ok []
  | d :: rest =>
      tested <- getitem d "difference" ;;
      if negb (is_none tested) then
        difference <- getitem d "difference" ;;
        others <- valid_differences rest ;;
        Ok (difference :: others)
      else valid_differences rest
  end.

(** The numbers of the summary: the average, the greatest and the
    least of the differences, when there is one. *)
Record statistics : Type := {
  avg_diff : float;
  max_diff : pyval;
  min_diff : pyval
}.

(** [f"{v:.2f}"] for a number [v], one of those that [sum] has added:
    it raises nothing for a [float] or a [bool]; an [int] is converted
    to a [float] first.  (The text is not modelled.) *)
Definition format_2f (v : pyval) : result unit :=
  match v with
  | PInt z => _ <- float_of_int z ;; Ok tt
  | _ => Ok tt
  end.

(** The three numbers, and the messages that format them. *)
Definition summary_statistics (valid : list pyval)
  : result (option statistics) :=
  match valid with
  | [] => Ok None
  | first :: rest =>
      sum <- sum_from (TInt 0) valid ;;
      avg <- divide sum (Pos.of_succ_nat (List.length rest)) ;;
      let max_diff := max_from first rest in
      let min_diff := min_from first rest in
      _ <- format_2f max_diff ;;
      _ <- format_2f min_diff ;;
      Ok (Some {| avg_diff := avg; max_diff := max_diff;
                  min_diff := min_diff |})
  end.

(** What the messages of a run report. *)
Inductive outcome : Type :=
| MissingCredentials
| NoWebhooks
| NoCallData
| Summary (unique_calls : nat) (valid : list pyval)
          (numbers : option statistics).

(** A run: the file written, if one was opened, and the outcome or the
    exception that ended it. *)
Record run : Type := {
  csv_file : option file;
  ended : result outcome
}.

Section Main.

Context {L : Library} {DB : Supabase}.

(** The part of [main] after [process_webhooks]. *)
Definition report (call_data : list pyval) : run :=
  match call_data with
  | [] => {| csv_file := None; ended := Ok NoCallData |}
  | _ :: _ =>
      let (f, saved) := save_to_csv call_data in
      {| csv_file := f;
         ended :=
           _ <- saved ;;
           valid <- valid_differences call_data ;;
           numbers <- summary_statistics valid ;;
           Ok (Summary (List.length call_data) valid numbers) |}
  end.

Definition main (requests : nat) (env : environ) : option run :=
  match get_supabase_client env with
  | Raise e =>
      Some {| csv_file := None;
              ended := if caught e [ValueError] then Ok MissingCredentials
                       else Raise e |}
  | Ok client =>
      match fetch_webhooks requests client 30 with
      | None => None
      | Some (Raise e) => Some {| csv_file := None; ended := Raise e |}
      | Some (Ok []) => Some {| csv_file := None; ended := Ok NoWebhooks |}
      | Some (Ok webhooks) =>
          match process_webhooks webhooks with
          | Raise e => Some {| csv_file := None; ended := Raise e |}
          | Ok call_data => Some (report call_data)
          end
      end
  end.

End Main.

(* ================================================================== *)
(** ** Sample records *)
(* ================================================================== *)

Definition CRLF : str := String Csv.CR (String Csv.LF EmptyString).

(** The text of one code point, the lone surrogate U+D800. *)
Definition lone_surrogate : str := CPython.str_of_codes [237; 160; 128].

(** The Call Record of [call_report id reason], with the reference
    library. *)
Definition record_of_report (id reason : str) : pyval :=
  match @extract_call_data CPython.library (call_report id reason) with
  | Ok record => record
  | Raise _ => PNone
  end.

(** The line of the column names. *)
Definition header_line : str :=
  ("callID,vapiCallDuration,lastMessageTimeStamp,difference,"
   ++ "startedAt,endedAt,endedReason" ++ CRLF)%string.

(** The line of [record_of_report id reason]. *)
Definition line_of_report (id reason : str) : str :=
  (dq "'=HYPERLINK(''https://hellocounsel-dashboard.vercel.app/calls?"
   ++ "f=0&e=production&s=N4IgJgtiBcIJ4FMDOAXBAnMBDOIA0ISYMIATAAykBsAtOQIw2kAs%2BICxsF1djAzPRABfIA"
   ++ "&c=" ++ id ++ dq "'', ''" ++ id ++ dq "'')',"
   ++ "62.5,60.0,2.5,2025-01-01T10:00:00Z,2025-01-01T10:01:02Z,"
   ++ reason ++ CRLF)%string.

(** The rows of the dedup example in a store. *)
Definition store_ABAC : Supabase := table_store rows_ABAC.

(** *** Tactics for running the script *)

(** [evaluated t H] runs [t] and names the equation [H : t = value]. *)
Ltac evaluated t H :=
  let v := eval vm_compute in t in
  assert (H : t = v) by (vm_compute; reflexivity).

(** The value that [H : _ = Ok v] names, as the witness of the goal. *)
Ltac exists_result H :=
  match type of H with
  | _ = Ok (PDict ?v) => exists v
  | _ = Ok ?v => exists v
  end.

(* ================================================================== *)
(** ** Properties of [decode_payload] *)
(* ================================================================== *)

Section DecodeProperties.

Context {L : Library}.

Lemma issubclass_Exception (e : exc) : issubclass e Exception = true.
Proof. destruct e; reflexivity. Qed.

Lemma caught_Exception (e : exc) : caught e [Exception] = true.
Proof. unfold caught; simpl. now rewrite issubclass_Exception. Qed.

Lemma try_except_Exception {A} (body handler : result A) :
  try_except body [Exception] handler =
  match body with Ok a => Ok a | Raise _ => handler end.
Proof.
  destruct body; unfold try_except; [reflexivity | now rewrite caught_Exception].
Qed.

Lemma raises_true {A} (r : result A) :
  raises r = true -> exists e, r = Raise e.
Proof. destruct r; simpl; [discriminate | eauto]. Qed.

(** What [decode_payload] returns for a [str]. *)
Lemma decode_payload_str (s : str) :
  decode_payload (PStr s) =
  match decode_compressed s with
  | Ok doc => Ok doc
  | Raise _ =>
      match json_loads s with
      | Ok doc => Ok doc
      | Raise _ => Ok (PDict [])
      end
  end.
Proof.
  unfold decode_payload. now rewrite !try_except_Exception.
Qed.

(** C7. [decode_payload] returns a payload that is already a mapping
    unchanged. *)
Theorem decode_payload_mapping_identity (d : list (str * pyval)) :
  decode_payload (PDict d) = Ok (PDict d).
Proof. reflexivity. Qed.

(** C4. [decode_payload] never raises: it returns a document for every
    input.  A [str] on which both the base64+gzip+JSON strategy and the
    plain JSON strategy fail gives the empty mapping, and so does every
    input that is neither a mapping nor a [str]. *)
Theorem decode_payload_never_raises (payload : pyval) :
  (exists doc, decode_payload payload = Ok doc)
  /\ (forall s, payload = PStr s ->
        raises (decode_compressed s) = true ->
        raises (json_loads s) = true ->
        decode_payload payload = Ok (PDict []))
  /\ (match payload with
      | PDict _ | PStr _ => True
      | _ => decode_payload payload = Ok (PDict [])
      end).
Proof.
  split; [| split].
  - destruct payload; simpl; eauto.
    fold (decode_payload (PStr s)). rewrite decode_payload_str.
    destruct (decode_compressed s); eauto.
    destruct (json_loads s); eauto.
  - intros s -> H1 H2. rewrite decode_payload_str.
    apply raises_true in H1 as [e1 ->]. apply raises_true in H2 as [e2 ->].
    reflexivity.
  - destruct payload; simpl; trivial.
Qed.

(** C5, as amended.  Round trip: when [D] is encoded as JSON, then as
    UTF-8, gzip and base64, the library decoders undo each of the three
    encodings of the text, and [json.loads] reads the text back as [D],
    [decode_payload] returns [D]. *)
Theorem decode_payload_roundtrip
        (json_encode : pyval -> str) (utf8_encode : str -> bytes)
        (gzip_compress : bytes -> bytes) (b64encode : bytes -> str)
        (D : pyval) :
  b64decode (b64encode (gzip_compress (utf8_encode (json_encode D))))
    = Ok (gzip_compress (utf8_encode (json_encode D))) ->
  gzip_decompress (gzip_compress (utf8_encode (json_encode D)))
    = Ok (utf8_encode (json_encode D)) ->
  utf8_decode (utf8_encode (json_encode D)) = Ok (json_encode D) ->
  json_loads (json_encode D) = Ok D ->
  decode_payload
    (PStr (b64encode (gzip_compress (utf8_encode (json_encode D))))) = Ok D.
Proof.
  intros Hb Hg Hu Hj. rewrite decode_payload_str.
  unfold decode_compressed. rewrite Hb; simpl. rewrite Hg; simpl.
  rewrite Hu; simpl. now rewrite Hj.
Qed.


End DecodeProperties.

(** The spec's example of a text that no strategy decodes. *)
Lemma decode_payload_never_raises_witness :
  @decode_payload CPython.library (PStr "not valid base64 or json @@@")
  = Ok (PDict []).
Proof.
  apply (proj1 (proj2 (@decode_payload_never_raises CPython.library
                         (PStr "not valid base64 or json @@@")))
           "not valid base64 or json @@@" eq_refl);
    vm_compute; reflexivity.
Defined.

Lemma decode_payload_roundtrip_witness :
  @decode_payload CPython.library (PStr (pack (call_report "call-A" "hangup")))
  = Ok (call_report "call-A" "hangup").
Proof.
  apply (@decode_payload_roundtrip CPython.library
           CPython.JsonEncoder.dumps CPython.Utf8.encode
           CPython.Gzip.compress_stored CPython.Base64.b64encode
           (call_report "call-A" "hangup"));
    vm_compute; reflexivity.
Defined.

(** C5, counterexample.  The JSON text of [surrogate_halves] is
    [{"a": "\ud83d\ude00"}], plain ASCII that the codecs give back as it
    is; [json.loads] reads the two escapes as one pair, the code point
    U+1F600, so what is decoded is another document. *)
Lemma decode_payload_roundtrip_counterexample :
  CPython.JsonEncoder.dumps surrogate_halves = dq "{'a': '\ud83d\ude00'}"
  /\ @decode_compressed CPython.library (pack surrogate_halves)
     = @json_loads CPython.library (CPython.JsonEncoder.dumps surrogate_halves)
  /\ @decode_payload CPython.library (PStr (pack surrogate_halves))
     = Ok surrogate_pair
  /\ @decode_payload CPython.library (PStr (pack surrogate_halves))
     <> Ok surrogate_halves.
Proof.
  split; [vm_compute; reflexivity|].
  split; [vm_compute; reflexivity|].
  split; [vm_compute; reflexivity|].
  vm_compute. discriminate.
Qed.



(* ================================================================== *)
(** ** Properties of [extract_call_data] *)
(* ================================================================== *)

Section ExtractProperties.

Context {L : Library}.

(** [extract_call_data] on a mapping, one navigation step at a time. *)
Lemma extract_call_data_eq (d : list (str * pyval)) :
  extract_call_data (PDict d) =
  match field d "message" (PDict []) with
  | PDict m =>
      match field m "call" (PDict []) with
      | PDict c =>
          if truthy (field c "id" PNone) then
            match field m "artifact" (PDict []) with
            | PDict a =>
                ts <- last_timestamp (field a "messages" (PList [])) ;;
                diff <- compute_difference (field m "durationSeconds" PNone) ts ;;
                url <- dashboard_url (field c "id" PNone) ;;
                Ok (PDict (record_of_parts m (field c "id" PNone) url ts diff))
            | _ => Raise AttributeError
            end
          else Ok PNone
      | _ => Raise AttributeError
      end
  | _ => Raise AttributeError
  end.
Proof.
  unfold extract_call_data; simpl.
  destruct (field d "message" (PDict [])); try reflexivity; simpl.
  destruct (field d0 "call" (PDict [])); try reflexivity; simpl.
  destruct (truthy (field d1 "id" PNone)); try reflexivity; simpl.
  destruct (field d0 "artifact" (PDict [])); reflexivity.
Qed.

(** Only a mapping is extracted from. *)
Lemma extract_call_data_not_mapping (doc : pyval) :
  is_dict doc = false -> extract_call_data doc = Raise AttributeError.
Proof. destruct doc; simpl; intros H; try reflexivity; discriminate. Qed.

(** What a successful extraction of a record was built from. *)
Lemma extract_call_data_record (doc : pyval) (rec : list (str * pyval)) :
  extract_call_data doc = Ok (PDict rec) ->
  exists d m c a ts diff url,
    doc = PDict d
    /\ field d "message" (PDict []) = PDict m
    /\ field m "call" (PDict []) = PDict c
    /\ truthy (field c "id" PNone) = true
    /\ field m "artifact" (PDict []) = PDict a
    /\ last_timestamp (field a "messages" (PList [])) = Ok ts
    /\ compute_difference (field m "durationSeconds" PNone) ts = Ok diff
    /\ dashboard_url (field c "id" PNone) = Ok url
    /\ rec = record_of_parts m (field c "id" PNone) url ts diff.
Proof.
  intros H. destruct doc as [ | | | | | |d];
    try (rewrite extract_call_data_not_mapping in H by reflexivity; discriminate).
  rewrite extract_call_data_eq in H.
  destruct (field d "message" (PDict [])) as [ | | | | | |m] eqn:Em; try discriminate.
  destruct (field m "call" (PDict [])) as [ | | | | | |c] eqn:Ec; try discriminate.
  destruct (truthy (field c "id" PNone)) eqn:Ei; try discriminate.
  destruct (field m "artifact" (PDict [])) as [ | | | | | |a] eqn:Ea; try discriminate.
  destruct (last_timestamp _) as [ts|] eqn:Et; try discriminate. simpl in H.
  destruct (compute_difference _ ts) as [diff|] eqn:Ed; try discriminate.
  cbn [bind] in H.
  destruct (dashboard_url _) as [url|] eqn:Eu; try discriminate.
  cbn [bind] in H. injection H as <-.
  exists d, m, c, a, ts, diff, url. repeat split; auto.
Qed.

(** Extraction gives [None] or a mapping. *)
Lemma extract_call_data_result (doc v : pyval) :
  extract_call_data doc = Ok v -> v = PNone \/ exists rec, v = PDict rec.
Proof.
  intros H. destruct doc as [ | | | | | |d];
    try (rewrite extract_call_data_not_mapping in H by reflexivity; discriminate).
  rewrite extract_call_data_eq in H.
  destruct (field d "message" (PDict [])) as [ | | | | | |m]; try discriminate.
  destruct (field m "call" (PDict [])) as [ | | | | | |c]; try discriminate.
  destruct (truthy (field c "id" PNone)).
  - destruct (field m "artifact" (PDict [])) as [ | | | | | |a]; try discriminate.
    destruct (last_timestamp _) as [ts|]; try discriminate. simpl in H.
    destruct (compute_difference _ ts) as [diff|]; try discriminate.
    cbn [bind] in H. destruct (dashboard_url _) as [url|]; try discriminate.
    cbn [bind] in H. injection H as <-. right. eauto.
  - injection H as <-. now left.
Qed.

(** Navigation of the specification against the defaulting [get]. *)
Lemma navigate_field (d : list (str * pyval)) (k : str) (path : list str) :
  navigate (k :: path) (PDict d) =
  match lookup k d with
  | Some x => navigate path x
  | None => None
  end.
Proof. reflexivity. Qed.

Lemma field_lookup (d : list (str * pyval)) (k : str) (default v : pyval) :
  lookup k d = Some v -> field d k default = v.
Proof. unfold field. now intros ->. Qed.

Lemma field_missing (d : list (str * pyval)) (k : str) (default : pyval) :
  lookup k d = None -> field d k default = default.
Proof. unfold field. now intros ->. Qed.

(** C8, as amended.  On a mapping whose [message] and [message.call]
    are mappings where present, extraction gives no record, and raises
    nothing, when [message.call.id] is absent or falsy. *)
Theorem extract_call_data_requires_call_id (doc : pyval) :
  is_dict doc = true ->
  mapping_or_missing at_message doc = true ->
  mapping_or_missing at_call doc = true ->
  absent_or_falsy at_call_id doc = true ->
  extract_call_data doc = Ok PNone.
Proof.
  destruct doc as [ | | | | | |d]; try discriminate. intros _.
  unfold mapping_or_missing, absent_or_falsy. rewrite !navigate_field.
  rewrite extract_call_data_eq. unfold field at 1.
  destruct (lookup "message" d) as [msg|]; [| reflexivity].
  simpl navigate at 1. intros Hm.
  destruct msg as [ | | | | | |m]; try discriminate.
  rewrite !navigate_field. unfold field at 1.
  destruct (lookup "call" m) as [call|]; [| reflexivity].
  simpl navigate at 1. intros Hc.
  destruct call as [ | | | | | |c]; try discriminate.
  rewrite !navigate_field. unfold field.
  destruct (lookup "id" c) as [id|]; [| reflexivity].
  simpl. intros Hid. apply negb_true_iff in Hid. now rewrite Hid.
Qed.

Lemma last_cons_default (l : list pyval) (x d : pyval) :
  last (x :: l) d = last l x.
Proof.
  revert x. induction l as [|y l IH]; intros x; [reflexivity|].
  change (last (x :: y :: l) d) with (last (y :: l) d).
  change (last (y :: l) x) with (match l with [] => y | _ :: _ => last l x end).
  rewrite IH. destruct l as [|z l]; [reflexivity|].
  now rewrite <- (IH y), <- (IH x).
Qed.

Lemma rev_head_last (x y : pyval) (l rest : list pyval) :
  rev (x :: l) = y :: rest -> y = last l x.
Proof.
  intros H. rewrite <- (last_cons_default l x PNone).
  apply (f_equal (@rev _)) in H. rewrite rev_involutive in H.
  rewrite H. simpl. now rewrite last_last.
Qed.

(** What [last_timestamp] returns when it returns. *)
Lemma last_timestamp_value (messages ts : pyval) :
  last_timestamp messages = Ok ts ->
  ts = match messages with
       | PList (m :: ms) =>
           match navigate ["secondsFromStart"] (last ms m) with
           | Some t => t
           | None => PNone
           end
       | _ => PNone
       end.
Proof.
  unfold last_timestamp.
  destruct (truthy messages) eqn:T.
  - destruct messages as [ | | | |s|l|d]; simpl; try discriminate.
    + destruct (0 <? str_len s); [| now intros [= <-]].
      simpl. destruct (String.eqb s EmptyString); discriminate.
    + destruct l as [|m ms]; [discriminate|].
      assert (Hpos : (0 <? Z.of_nat (List.length (m :: ms))) = true)
        by (apply Z.ltb_lt; simpl; lia).
      rewrite Hpos. unfold getitem_last.
      destruct (rev (m :: ms)) as [|y rest] eqn:E; [discriminate|].
      apply rev_head_last in E. subst y. simpl bind.
      destruct (last ms m) as [ | | | | | |ld]; simpl; try discriminate.
      unfold field. destruct (lookup "secondsFromStart" ld); now intros [= <-].
    + destruct (0 <? Z.of_nat (List.length d)); [discriminate | now intros [= <-]].
  - intros [= <-]. destruct messages as [ | | | | |l| ]; try reflexivity.
    destruct l; [reflexivity | discriminate].
Qed.

(** The timestamp of a returned record, from the document. *)
Lemma extract_call_data_timestamp (doc : pyval) (rec : list (str * pyval)) :
  extract_call_data doc = Ok (PDict rec) ->
  lookup "lastMessageTimeStamp" rec = Some (last_message_seconds doc).
Proof.
  intros H. apply extract_call_data_record in H
    as (d & m & c & a & ts & diff & url
        & -> & Hm & Hc & Hid & Ha & Hts & Hd & Hu & ->).
  simpl. f_equal. apply last_timestamp_value in Hts. subst ts.
  unfold last_message_seconds. rewrite navigate_field.
  unfold field in Hm. destruct (lookup "message" d) as [msg|].
  - subst msg. rewrite navigate_field.
    unfold field in Ha. destruct (lookup "artifact" m) as [art|].
    + subst art. rewrite navigate_field. unfold field.
      destruct (lookup "messages" a) as [ms|]; reflexivity.
    + injection Ha as <-. reflexivity.
  - injection Hm as <-. injection Ha as <-. reflexivity.
Qed.

(** C9. The [lastMessageTimeStamp] of every extracted record is the
    [secondsFromStart] of the last element of
    [message.artifact.messages], and [None] when that sequence is
    missing or empty. *)
Theorem extract_call_data_last_message (doc : pyval)
        (rec : list (str * pyval)) :
  extract_call_data doc = Ok (PDict rec) ->
  lookup "lastMessageTimeStamp" rec = Some (last_message_seconds doc)
  /\ (forall m ms,
        navigate at_messages doc = Some (PList (m :: ms)) ->
        exists last_message,
          last (m :: ms) PNone = PDict last_message
          /\ lookup "lastMessageTimeStamp" rec
             = Some (field last_message "secondsFromStart" PNone))
  /\ (navigate at_messages doc = None
      \/ navigate at_messages doc = Some (PList []) ->
      lookup "lastMessageTimeStamp" rec = Some PNone).
Proof.
  intros H. pose proof (extract_call_data_timestamp _ _ H) as Hts.
  split; [exact Hts | split].
  - intros m ms Hnav.
    apply extract_call_data_record in H
      as (d & dm & c & a & ts & diff & url
          & -> & Hm & Hc & Hid & Ha & Hl & Hd & Hu & ->).
    assert (Hmsgs : field a "messages" (PList []) = PList (m :: ms)).
    { rewrite navigate_field in Hnav. unfold field in Hm.
      destruct (lookup "message" d) as [msg|]; [| discriminate]. subst msg.
      rewrite navigate_field in Hnav. unfold field in Ha.
      destruct (lookup "artifact" dm) as [art|]; [| discriminate]. subst art.
      rewrite navigate_field in Hnav. unfold field.
      destruct (lookup "messages" a); [| discriminate].
      simpl in Hnav. now injection Hnav as ->. }
    rewrite Hmsgs in Hl. unfold last_timestamp in Hl. simpl truthy in Hl.
    cbv iota in Hl.
    assert (Hpos : (0 <? Z.of_nat (List.length (m :: ms))) = true)
      by (apply Z.ltb_lt; simpl; lia).
    cbn [len bind] in Hl. rewrite Hpos in Hl. unfold getitem_last in Hl.
    destruct (rev (m :: ms)) as [|y rest] eqn:E; [discriminate|].
    apply rev_head_last in E. subst y. simpl bind in Hl.
    destruct (last ms m) as [ | | | | | |ld] eqn:El; simpl in Hl; try discriminate.
    exists ld. split.
    + now rewrite last_cons_default.
    + simpl. now injection Hl as <-.
  - intros Hnone. rewrite Hts. unfold last_message_seconds.
    destruct Hnone as [-> | ->]; reflexivity.
Qed.

(** A field that is passed through, from the document. *)
Lemma value_at_message (d m : list (str * pyval)) (k : str) :
  field d "message" (PDict []) = PDict m ->
  value_at ["message"; k] (PDict d) = field m k PNone.
Proof.
  intros Hm. unfold value_at.
  assert (E : navigate ["message"; k] (PDict d) = navigate [k] (PDict m)).
  { unfold field in Hm. simpl.
    destruct (lookup "message" d) as [x|]; [now subst x | now injection Hm as <-]. }
  rewrite E. unfold field. simpl. destruct (lookup k m); reflexivity.
Qed.

(** [str] of an [int] that has a text: its decimal numeral. *)
Lemma str_of_int_ok (z : Z) (text : str) :
  str_of_int z = Ok text ->
  Z.abs z < INT_STR_LIMIT
  /\ text = NilZero.string_of_int (Z.to_int z).
Proof.
  unfold str_of_int.
  destruct (Z.ltb_spec (Z.abs z) (INT_STR_LIMIT)) as [Hlt|Hge].
  - intros [= <-]. split; [exact Hlt | reflexivity].
  - discriminate.
Qed.

Lemma str_of_int_raises (z : Z) (e : exc) :
  str_of_int z = Raise e ->
  INT_STR_LIMIT <= Z.abs z /\ e = ValueError.
Proof.
  unfold str_of_int.
  destruct (Z.ltb_spec (Z.abs z) (INT_STR_LIMIT)) as [Hlt|Hge].
  - discriminate.
  - intros [= <-]. split; [exact Hge | reflexivity].
Qed.

(** The URL of a call: the base URL, the query and the text of the
    identifier. *)
Lemma dashboard_url_ok (call_id : pyval) (url : str) :
  dashboard_url call_id = Ok url ->
  exists text,
    format call_id = Ok text
    /\ url = (DASHBOARD_BASE_URL ++ "?" ++ DASHBOARD_PARAMS ++ "&c=" ++ text)%string.
Proof.
  unfold dashboard_url. destruct (format call_id) as [text|e]; [| discriminate].
  cbn [bind]. intros [= <-]. now exists text.
Qed.


(** C10. A record that extraction returns has exactly the eight fields,
    each with a value; a value that the document lacks is [None].  Its
    [callID] is truthy, and its [dashboardURL] is the base URL, the
    query template and [&c=] followed by the [callID]: a [str] as it
    is, an [int] as its decimal numeral, [True] as [True], a float as
    its [repr], a container as its [repr]. *)
Theorem extract_call_data_record_shape (doc v : pyval) :
  extract_call_data doc = Ok v ->
  v <> PNone ->
  exists rec call_id text,
    v = PDict rec
    /\ map fst rec = RECORD_FIELDS
    /\ (forall k, In k RECORD_FIELDS -> exists x, lookup k rec = Some x)
    /\ lookup "callID" rec = Some call_id
    /\ truthy call_id = true
    /\ lookup "dashboardURL" rec
       = Some (PStr (DASHBOARD_BASE_URL ++ "?" ++ DASHBOARD_PARAMS
                     ++ "&c=" ++ text)%string)
    /\ match call_id with
       | PStr s => text = s
       | PInt z => text = NilZero.string_of_int (Z.to_int z)
       | PBool b => b = true /\ text = "True"
       | PFloat f => text = repr_float f
       | PList _ | PDict _ => repr call_id = Ok text
       | PNone => False
       end
    /\ lookup "vapiCallDuration" rec = Some (value_at at_duration doc)
    /\ lookup "startedAt" rec = Some (value_at ["message"; "startedAt"] doc)
    /\ lookup "endedAt" rec = Some (value_at ["message"; "endedAt"] doc)
    /\ lookup "endedReason" rec
       = Some (value_at ["message"; "endedReason"] doc).
Proof.
  intros H Hv. destruct (extract_call_data_result _ _ H) as [-> | [rec ->]];
    [contradiction|].
  apply extract_call_data_record in H
    as (d & m & c & a & ts & diff & url
        & -> & Hm & Hc & Hid & Ha & Hts & Hd & Hu & ->).
  apply dashboard_url_ok in Hu as (text & Htext & ->).
  exists (record_of_parts m (field c "id" PNone)
            (DASHBOARD_BASE_URL ++ "?" ++ DASHBOARD_PARAMS ++ "&c=" ++ text)%string
            ts diff),
         (field c "id" PNone), text.
  rewrite !(value_at_message d m) by assumption.
  split; [reflexivity|]. split; [reflexivity|]. split.
  { intros k Hk. simpl in Hk.
    repeat (destruct Hk as [<- | Hk]; [simpl; eauto|]). contradiction. }
  split; [reflexivity|]. split; [exact Hid|]. split; [reflexivity|]. split.
  { destruct (field c "id" PNone) as [ |b|z|f|s|l|dd]; cbn [format] in Htext.
    - discriminate Hid.
    - destruct b; [| discriminate Hid]. now injection Htext as <-.
    - now apply str_of_int_ok in Htext.
    - now injection Htext as <-.
    - now injection Htext as <-.
    - exact Htext.
    - exact Htext. }
  repeat split; reflexivity.
Qed.

(** The [difference] of a returned record: the float difference when
    both durations are present and both convert, else [None]. *)
Lemma extract_call_data_difference (doc : pyval) (rec : list (str * pyval)) :
  extract_call_data doc = Ok (PDict rec) ->
  exists duration ts,
    lookup "vapiCallDuration" rec = Some duration
    /\ lookup "lastMessageTimeStamp" rec = Some ts
    /\ lookup "difference" rec
       = Some (if is_none duration || is_none ts then PNone
               else match float_of duration, float_of ts with
                    | Ok a, Ok b => PFloat (float_sub a b)
                    | _, _ => PNone
                    end).
Proof.
  intros H. apply extract_call_data_record in H
    as (d & m & c & a & ts & diff & url
        & -> & Hm & Hc & Hid & Ha & Hts & Hd & Hu & ->).
  exists (field m "durationSeconds" PNone), ts. repeat split.
  simpl. f_equal. unfold compute_difference in Hd.
  destruct (is_none (field m "durationSeconds" PNone)); cbn [negb andb orb] in *;
    [now injection Hd as <-|].
  destruct (is_none ts); cbn [negb andb orb] in *; [now injection Hd as <-|].
  unfold try_except in Hd.
  destruct (float_of (field m "durationSeconds" PNone)) as [x|e1]; cbn [bind] in Hd.
  - destruct (float_of ts) as [y|e2]; cbn [bind] in Hd; [now injection Hd as <-|].
    destruct (caught e2 [ValueError; TypeError]); [now injection Hd as <- | discriminate].
  - destruct (caught e1 [ValueError; TypeError]); [now injection Hd as <- | discriminate].
Qed.

(** C2, at the failing input.  An integer duration beyond the floats
    makes [float] raise [OverflowError], which the handler for
    [ValueError] and [TypeError] lets through: extraction raises. *)
Theorem extract_call_data_huge_duration :
  extract_call_data
    (report_with (PInt (10 ^ 400))
                 (PList [PDict [("secondsFromStart", PInt 1)]]))
  = Raise OverflowError.
Proof. vm_compute. reflexivity. Qed.

End ExtractProperties.

(* ================================================================== *)
(** ** The test of the seen set *)
(* ================================================================== *)

Section Equality.

Lemma number_eqb_sym (x y : number) : number_eqb x y = number_eqb y x.
Proof.
  destruct x as [p|s|], y as [q|t|]; simpl; try reflexivity.
  - destruct (Qeq_bool p q) eqn:E1, (Qeq_bool q p) eqn:E2; try reflexivity.
    + apply Qeq_bool_iff, Qeq_sym, Qeq_bool_iff in E1. congruence.
    + apply Qeq_bool_iff, Qeq_sym, Qeq_bool_iff in E2. congruence.
  - now destruct s, t.
Qed.

Lemma number_eqb_trans (x y z : number) :
  number_eqb x y = true -> number_eqb y z = true -> number_eqb x z = true.
Proof.
  destruct x as [p|s|], y as [q|t|], z as [r|u|]; simpl; try discriminate.
  - intros H1 H2. apply Qeq_bool_iff in H1, H2. apply Qeq_bool_iff.
    now rewrite H1.
  - now destruct s, t, u.
Qed.

(** The three ways in which two values are equal. *)
Lemma eqb_true_iff (a b : pyval) :
  eqb a b = true <->
  (a = PNone /\ b = PNone)
  \/ (exists s, a = PStr s /\ b = PStr s)
  \/ (exists x y, number_of a = Some x /\ number_of b = Some y
                  /\ number_eqb x y = true).
Proof.
  split.
  - intros H.
    destruct a, b; cbv beta iota delta [eqb] in H;
      try (left; split; reflexivity);
      try (right; left; apply String.eqb_eq in H; subst; eauto; fail);
      right; right;
      match type of H with
      | match ?u with _ => _ end = true =>
          destruct u as [x|] eqn:Ex; [| simpl in H; discriminate];
          match type of H with
          | match ?w with _ => _ end = true =>
              destruct w as [y|] eqn:Ey; [| discriminate]
          end
      end;
      eauto.
  - intros [[-> ->] | [(s & -> & ->) | (x & y & Hx & Hy & H)]].
    + reflexivity.
    + simpl. apply String.eqb_refl.
    + destruct a; try discriminate; destruct b; try discriminate;
        unfold eqb; rewrite Hx, Hy; exact H.
Qed.

Lemma eqb_sym_true (a b : pyval) : eqb a b = true -> eqb b a = true.
Proof.
  intros H. apply eqb_true_iff in H. apply eqb_true_iff.
  destruct H as [[-> ->] | [(s & -> & ->) | (x & y & Hx & Hy & H)]]; eauto.
  right; right. exists y, x. rewrite number_eqb_sym. auto.
Qed.

Lemma eqb_sym (a b : pyval) : eqb a b = eqb b a.
Proof.
  destruct (eqb a b) eqn:E1, (eqb b a) eqn:E2; try reflexivity.
  - apply eqb_sym_true in E1. congruence.
  - apply eqb_sym_true in E2. congruence.
Qed.

Lemma eqb_trans (a b c : pyval) :
  eqb a b = true -> eqb b c = true -> eqb a c = true.
Proof.
  intros H1 H2. apply eqb_true_iff in H1, H2. apply eqb_true_iff.
  destruct H1 as [[-> ->] | [(s & -> & ->) | (x & y & Hx & Hy & H)]];
    destruct H2 as [[E ->] | [(t & E & ->) | (y' & z & Hy' & Hz & H')]];
    try discriminate; eauto.
  - subst b. discriminate.
  - subst b. discriminate.
  - right; right. exists x, z. rewrite Hy in Hy'. injection Hy' as <-.
    eauto using number_eqb_trans.
Qed.

(** A NaN is equal to nothing, on either side. *)
Lemma eqb_nan_l (a b : pyval) : is_nan a = true -> eqb a b = false.
Proof.
  destruct a as [ | | |f| | | ]; try discriminate.
  intros H. destruct f; try discriminate H.
  unfold eqb. simpl. destruct (number_of b); reflexivity.
Qed.

Lemma eqb_nan_r (a b : pyval) : is_nan b = true -> eqb a b = false.
Proof. intros H. rewrite eqb_sym. now apply eqb_nan_l. Qed.

Lemma matches_sym (a b : pyval) : matches a b = matches b a.
Proof. unfold matches, same_object. now rewrite eqb_sym, andb_comm. Qed.

Lemma matches_trans (a b c : pyval) :
  matches a b = true -> matches b c = true -> matches a c = true.
Proof.
  unfold matches, same_object. intros H1 H2.
  apply orb_true_iff in H1 as [H1 | H1]; apply orb_true_iff in H2 as [H2 | H2];
    apply orb_true_iff.
  - apply andb_true_iff in H1 as [Ha _], H2 as [_ Hc].
    left. now rewrite Ha, Hc.
  - apply andb_true_iff in H1 as [_ Hb]. rewrite (eqb_nan_l b c Hb) in H2.
    discriminate.
  - apply andb_true_iff in H2 as [Hb _]. rewrite (eqb_nan_r a b Hb) in H1.
    discriminate.
  - right. eauto using eqb_trans.
Qed.

End Equality.

(* ================================================================== *)
(** ** Properties of [process_webhooks] *)
(* ================================================================== *)

Section ProcessProperties.

Context {L : Library}.

(** One iteration of the loop, with decoding and extraction as one
    step. *)
Lemma process_loop_step (webhook : pyval) (rest results : list pyval)
      (seen : pyset) :
  process_loop (webhook :: rest) results seen =
  (call_data <- decode_extract webhook ;;
   if truthy call_data then
     call_id <- getitem call_data "callID" ;;
     present <- set_contains seen call_id ;;
     if negb present then
       seen' <- set_add seen call_id ;;
       process_loop rest (results ++ [call_data]) seen'
     else process_loop rest results seen
   else process_loop rest results seen).
Proof.
  unfold decode_extract. cbn [process_loop].
  destruct (get webhook "payload" (PDict [])) as [raw|]; [|reflexivity].
  cbn [bind]. destruct (decode_payload raw) as [payload|]; [|reflexivity].
  cbn [bind]. destruct (extract_call_data payload); reflexivity.
Qed.

Lemma decode_extract_result (webhook call_data : pyval) :
  decode_extract webhook = Ok call_data ->
  call_data = PNone \/ exists rec, call_data = PDict rec.
Proof.
  unfold decode_extract.
  destruct (get webhook "payload" (PDict [])) as [raw|]; [|discriminate].
  cbn [bind]. destruct (decode_payload raw) as [payload|]; [|discriminate].
  cbn [bind]. apply extract_call_data_result.
Qed.

(** The loop from a state in which the seen set answers as the earlier
    records do. *)
Lemma process_loop_first_occurrences (webhooks : list pyval) :
  forall (results : list pyval) (seen : pyset) (earlier out : list pyval),
    (forall x, existsb (matches x) seen
               = existsb (fun e => matches x (call_id_of e)) earlier) ->
    process_loop webhooks results seen = Ok out ->
    out = results ++ first_occurrences earlier (extracted webhooks).
Proof.
  induction webhooks as [|w ws IH]; intros results seen earlier out Hseen H.
  - simpl in H. injection H as <-. simpl. now rewrite app_nil_r.
  - rewrite process_loop_step in H.
    unfold extracted. cbn [flat_map]. fold (extracted ws).
    unfold extracted_of.
    destruct (decode_extract w) as [cd|e] eqn:Ecd; [|discriminate].
    cbn [bind] in H.
    destruct (truthy cd) eqn:T; [| now apply (IH results seen earlier)].
    destruct (decode_extract_result w cd Ecd) as [-> | [rec ->]];
      [discriminate|].
    cbn [getitem] in H.
    destruct (lookup "callID" rec) as [cid|] eqn:Ecid; [|discriminate].
    cbn [bind] in H. unfold set_contains, set_add in H.
    destruct (hashable cid) eqn:Hh; [|discriminate].
    cbn [bind] in H.
    assert (Hid : call_id_of (PDict rec) = cid)
      by (unfold call_id_of, field; now rewrite Ecid).
    cbn [app first_occurrences]. unfold same_call_id at 1.
    rewrite Hid, <- Hseen.
    destruct (existsb (matches cid) seen) eqn:Hdup; cbn [negb bind] in H.
    + apply (IH results seen (earlier ++ [PDict rec])); [|exact H].
      intros x. rewrite existsb_app, <- Hseen. cbn [existsb]. rewrite Hid.
      destruct (matches x cid) eqn:Ex; [| now rewrite !orb_false_r].
      rewrite orb_true_r.
      apply existsb_exists in Hdup as (s & Hs & Hcs).
      apply existsb_exists. exists s. split; [exact Hs|].
      eauto using matches_trans.
    + rewrite (IH (results ++ [PDict rec]) (seen ++ [cid])
                 (earlier ++ [PDict rec]) out); [| | exact H].
      * now rewrite <- app_assoc.
      * intros x. rewrite !existsb_app, Hseen. cbn [existsb]. now rewrite Hid.
Qed.

(** The records kept differ in [callID] from all earlier records, and
    from one another. *)
Lemma first_occurrences_fresh (records : list pyval) :
  forall earlier r e,
    In r (first_occurrences earlier records) -> In e earlier ->
    same_call_id r e = false.
Proof.
  induction records as [|x rest IH]; intros earlier r e Hr He; [contradiction|].
  simpl in Hr.
  destruct (existsb (same_call_id x) earlier) eqn:E.
  - apply (IH (earlier ++ [x])); [exact Hr | apply in_or_app; now left].
  - destruct Hr as [<- | Hr].
    + destruct (same_call_id x e) eqn:Ee; [|reflexivity].
      assert (existsb (same_call_id x) earlier = true)
        by (apply existsb_exists; eauto).
      congruence.
    + apply (IH (earlier ++ [x])); [exact Hr | apply in_or_app; now left].
Qed.

Lemma first_occurrences_distinct (records : list pyval) :
  forall earlier,
    ForallOrdPairs (fun a b => same_call_id a b = false)
                   (first_occurrences earlier records).
Proof.
  induction records as [|x rest IH]; intros earlier; [constructor|].
  simpl.
  destruct (existsb (same_call_id x) earlier); [apply IH|].
  constructor; [| apply IH].
  apply Forall_forall. intros r Hr.
  unfold same_call_id. rewrite matches_sym.
  apply (first_occurrences_fresh rest (earlier ++ [x]) r x Hr).
  apply in_or_app. right. now left.
Qed.

(** *** Inputs on which the loop does not raise *)

(** Below a key that defaults to the empty mapping, the path of the
    specification and the chain of [get] agree. *)
Lemma navigate_default (d m : list (str * pyval)) (k k' : str)
      (path : list str) :
  field d k (PDict []) = PDict m ->
  navigate (k :: k' :: path) (PDict d) = navigate (k' :: path) (PDict m).
Proof.
  unfold field. rewrite navigate_field.
  destruct (lookup k d) as [x|]; [now intros -> | now intros [= <-]].
Qed.

Lemma mapping_or_missing_field (d : list (str * pyval)) (k : str) :
  mapping_or_missing [k] (PDict d) = true ->
  exists m, field d k (PDict []) = PDict m.
Proof.
  unfold mapping_or_missing, field. rewrite navigate_field.
  destruct (lookup k d) as [x|]; [| eauto].
  simpl. destruct x; try discriminate. eauto.
Qed.

Lemma mapping_or_missing_default (d m : list (str * pyval)) (k k' : str)
      (path : list str) :
  field d k (PDict []) = PDict m ->
  mapping_or_missing (k :: k' :: path) (PDict d)
  = mapping_or_missing (k' :: path) (PDict m).
Proof.
  intros H. unfold mapping_or_missing. now rewrite (navigate_default d m).
Qed.

Lemma absent_or_falsy_field (c : list (str * pyval)) (k : str) :
  absent_or_falsy [k] (PDict c) = negb (truthy (field c k PNone)).
Proof.
  unfold absent_or_falsy, field. rewrite navigate_field.
  destruct (lookup k c); reflexivity.
Qed.

Lemma last_message_seconds_eq (d m a : list (str * pyval)) :
  field d "message" (PDict []) = PDict m ->
  field m "artifact" (PDict []) = PDict a ->
  last_message_seconds (PDict d)
  = match field a "messages" (PList []) with
    | PList (x :: l) =>
        match navigate ["secondsFromStart"] (last l x) with
        | Some t => t
        | None => PNone
        end
    | _ => PNone
    end.
Proof.
  intros Hm Ha. unfold last_message_seconds.
  rewrite (navigate_default d m), (navigate_default m a) by assumption.
  rewrite navigate_field. unfold field.
  destruct (lookup "messages" a); reflexivity.
Qed.

Lemma last_timestamp_usable (messages : pyval) :
  messages_usable messages = true ->
  exists ts, last_timestamp messages = Ok ts.
Proof.
  unfold messages_usable, last_timestamp.
  destruct (truthy messages) eqn:T; [| eauto]. cbn [negb orb].
  destruct messages as [ | | | | |l| ]; try discriminate.
  destruct (rev l) as [|x r] eqn:E; [discriminate|]. intros Hx.
  assert (Hlen : (0 <? Z.of_nat (List.length l)) = true).
  { apply Z.ltb_lt. destruct l; [discriminate | simpl; lia]. }
  cbn [len bind]. rewrite Hlen. unfold getitem_last. rewrite E. cbn [bind].
  destruct x; try discriminate. simpl. eauto.
Qed.

(** [float] of a value that is not an [int] beyond the floats converts
    it or raises one of the two exceptions that are handled. *)
Lemma float_of_in_range (v : pyval) :
  in_float_range v = true ->
  (exists f, float_of v = Ok f)
  \/ float_of v = Raise ValueError \/ float_of v = Raise TypeError.
Proof.
  destruct v as [ |b|z|f|s|l|d]; simpl; intros H; eauto.
  - left. destruct b; vm_compute; eauto.
  - left. destruct (float_of_int z); [eauto | discriminate].
  - destruct (float_of_str s); eauto.
Qed.

(** [float] returns exactly on the values that convert. *)
Lemma float_of_converts (v : pyval) :
  converts v = true <-> exists f, float_of v = Ok f.
Proof.
  destruct v as [ |b|z|f|s|l|d]; simpl;
    try (split; [discriminate | intros [? ?]; discriminate]).
  - split; [intros _ | reflexivity]. destruct b; vm_compute; eauto.
  - destruct (float_of_int z); simpl; split; eauto; try discriminate.
    intros [? ?]; discriminate.
  - split; eauto.
  - destruct (float_of_str s); split; eauto; try discriminate.
    intros [? ?]; discriminate.
Qed.

(** The difference is computed when no [int] that is converted is
    beyond the floats. *)
Lemma compute_difference_in_range (duration ts : pyval) :
  durations_in_range duration ts = true ->
  exists diff, compute_difference duration ts = Ok diff.
Proof.
  unfold durations_in_range, compute_difference.
  destruct (is_none duration); cbn [negb andb orb]; [eauto|].
  destruct (is_none ts); cbn [negb andb orb]; [eauto|].
  intros H. apply andb_true_iff in H as [Hd Ht].
  destruct (float_of_in_range _ Hd) as [[x Ex] | [-> | ->]];
    cbn [bind try_except]; try (simpl; eauto; fail).
  rewrite Ex. cbn [bind].
  assert (Hc : converts duration = true) by (apply float_of_converts; eauto).
  rewrite Hc in Ht. cbn [negb orb] in Ht.
  destruct (float_of_in_range _ Ht) as [[y ->] | [-> | ->]];
    cbn [bind try_except]; simpl; eauto.
Qed.

(** A value that is no container and no [int] of more than 4300 digits
    has a text. *)
Lemma format_in_range (v : pyval) :
  hashable v = true -> in_text_range v = true ->
  exists text, format v = Ok text.
Proof.
  destruct v as [ |b|z|f|s|l|d]; cbn [hashable in_text_range format];
    intros Hh Hr; try discriminate Hh; eauto.
  - destruct b; eauto.
  - unfold str_of_int. rewrite Hr. eauto.
Qed.

(** Extraction from a well-shaped document returns: no record, or a
    record whose [callID] can be hashed. *)
Lemma extract_call_data_well_shaped (doc : pyval) :
  well_shaped doc = true ->
  extract_call_data doc = Ok PNone
  \/ exists rec call_id,
       extract_call_data doc = Ok (PDict rec)
       /\ lookup "callID" rec = Some call_id
       /\ hashable call_id = true.
Proof.
  unfold well_shaped. destruct doc as [ | | | | | |d]; try discriminate.
  cbn [is_dict andb]. intros H.
  apply andb_true_iff in H as [H Hrest].
  apply andb_true_iff in H as [Hm Hc].
  destruct (mapping_or_missing_field d "message" Hm) as [m Em].
  rewrite (mapping_or_missing_default d m) in Hc by assumption.
  destruct (mapping_or_missing_field m "call" Hc) as [c Ec].
  unfold absent_or_falsy in Hrest.
  rewrite (mapping_or_missing_default d m) in Hrest by assumption.
  rewrite !(navigate_default d m) in Hrest by assumption.
  rewrite (navigate_default m c) in Hrest by assumption.
  change (match navigate ["id"] (PDict c) with
          | Some v => negb (truthy v)
          | None => true
          end) with (absent_or_falsy ["id"] (PDict c)) in Hrest.
  rewrite absent_or_falsy_field in Hrest.
  rewrite extract_call_data_eq, Em, Ec.
  destruct (truthy (field c "id" PNone)) eqn:Tid; [| now left].
  cbn [negb orb] in Hrest.
  apply andb_true_iff in Hrest as [Hrest Hdur].
  apply andb_true_iff in Hrest as [Hrest Hmsgs].
  apply andb_true_iff in Hrest as [Hid Ha].
  assert (Hhash : hashable (field c "id" PNone) = true
                  /\ in_text_range (field c "id" PNone) = true).
  { rewrite navigate_field in Hid. unfold field.
    destruct (lookup "id" c); [| discriminate].
    now apply andb_true_iff in Hid. }
  destruct Hhash as [Hhash Hrange].
  destruct (mapping_or_missing_field m "artifact" Ha) as [a Ea].
  rewrite Ea. rewrite (navigate_default m a) in Hmsgs by assumption.
  rewrite (last_message_seconds_eq d m a) in Hdur by assumption.
  rewrite (value_at_message d m) in Hdur by assumption.
  assert (Husable : messages_usable (field a "messages" (PList [])) = true).
  { rewrite navigate_field in Hmsgs. unfold field.
    destruct (lookup "messages" a); [exact Hmsgs | reflexivity]. }
  destruct (last_timestamp_usable _ Husable) as [ts Ets].
  rewrite Ets. cbn [bind].
  rewrite <- (last_timestamp_value _ _ Ets) in Hdur.
  destruct (compute_difference_in_range _ _ Hdur) as [diff ->].
  cbn [bind].
  destruct (format_in_range _ Hhash Hrange) as [text Etext].
  unfold dashboard_url. rewrite Etext. cbn [bind].
  right. eexists _, (field c "id" PNone).
  split; [reflexivity | split; [reflexivity | exact Hhash]].
Qed.

Lemma process_loop_usable (webhooks : list pyval) :
  Forall (fun w => usable w = true) webhooks ->
  forall results seen, exists out, process_loop webhooks results seen = Ok out.
Proof.
  induction 1 as [|w ws Hw _ IH]; intros results seen; [simpl; eauto|].
  rewrite process_loop_step. unfold decode_extract.
  destruct w as [ | | | | | |dw]; try discriminate. cbn [get bind].
  unfold usable in Hw.
  destruct (decode_payload (field dw "payload" (PDict []))) as [doc|];
    [| discriminate].
  cbn [bind].
  destruct (extract_call_data_well_shaped doc Hw)
    as [-> | (rec & cid & -> & Hcid & Hh)]; cbn [bind];
    [cbn [truthy]; apply IH|].
  assert (Hnonempty : truthy (PDict rec) = true)
    by (destruct rec; [discriminate | reflexivity]).
  rewrite Hnonempty. cbn [getitem]. rewrite Hcid. cbn [bind].
  unfold set_contains, set_add. rewrite Hh. cbn [bind].
  destruct (existsb (matches cid) seen); cbn [negb bind]; apply IH.
Qed.

(** C3, as amended.  On raw stored records that are mappings and whose
    payloads decode to well-shaped documents, the pipeline returns a
    result: a payload that no strategy decodes, missing nesting, a
    missing identifier and a duration that is not a number cost a
    field or the record, never the run.  (A document is well-shaped
    when the nesting is of mappings where present and, if there is a
    call identifier, it is no sequence, no mapping and no integer of
    more than 4300 digits, the messages are absent, falsy or a sequence
    that ends in a mapping, and no duration that [float] is called on
    is an integer beyond the floats.) *)
Theorem process_webhooks_no_raise (webhooks : list pyval) :
  Forall (fun w => usable w = true) webhooks ->
  exists out, process_webhooks webhooks = Ok out.
Proof.
  intros H. apply (process_loop_usable webhooks H).
Qed.

(** C1. The records that [process_webhooks] returns are those extracted
    from the input that no earlier extracted record shares its [callID]
    with, each as first extracted and in input order, and no two of
    them have the same [callID]; on usable input it returns them. *)
Theorem process_webhooks_first_occurrence (webhooks : list pyval) :
  (forall out,
      process_webhooks webhooks = Ok out ->
      out = first_occurrences [] (extracted webhooks)
      /\ ForallOrdPairs (fun a b => same_call_id a b = false) out)
  /\ (Forall (fun w => usable w = true) webhooks ->
      process_webhooks webhooks
      = Ok (first_occurrences [] (extracted webhooks))).
Proof.
  assert (Hspec : forall out,
             process_webhooks webhooks = Ok out ->
             out = first_occurrences [] (extracted webhooks)).
  { intros out H.
    apply (process_loop_first_occurrences webhooks [] [] [] out);
      [reflexivity | exact H]. }
  split.
  - intros out H. split; [now apply Hspec|].
    rewrite (Hspec out H). apply first_occurrences_distinct.
  - intros Husable.
    destruct (process_loop_usable webhooks Husable [] []) as [out H].
    unfold process_webhooks. rewrite H. f_equal. now apply Hspec.
Qed.

End ProcessProperties.

(* ================================================================== *)
(** ** The properties on concrete payloads, with the reference library *)
(* ================================================================== *)

Section Examples.

#[local] Existing Instance CPython.library.

(** The documents without a call identifier. *)
Lemma extract_call_data_requires_call_id_witness :
  extract_call_data (PDict [("message", PDict [])]) = Ok PNone
  /\ extract_call_data (PDict [("message", PDict [("call", PDict [])])]) = Ok PNone
  /\ extract_call_data (PDict [("message",
                      PDict [("call", PDict [("id", PStr EmptyString)])])])
     = Ok PNone.
Proof.
  split; [| split];
    apply (@extract_call_data_requires_call_id CPython.library); reflexivity.
Defined.

(** C8, counterexample.  In [{"message": null}] there is no
    [message.call.id], and extraction raises. *)
Lemma extract_call_data_requires_call_id_counterexample :
  is_dict (PDict [("message", PNone)]) = true
  /\ absent_or_falsy at_call_id (PDict [("message", PNone)])
     = true
  /\ extract_call_data (PDict [("message", PNone)]) = Raise AttributeError
  /\ extract_call_data (PDict [("message", PNone)]) <> Ok PNone.
Proof.
  split; [reflexivity | split; [reflexivity | split; [reflexivity|]]].
  discriminate.
Qed.

(** The last of two messages, at 1 and at 9 seconds. *)
Lemma extract_call_data_last_message_witness :
  exists rec,
    extract_call_data
      (report_with PNone
                   (PList [PDict [("secondsFromStart", PInt 1)];
                           PDict [("secondsFromStart", PInt 9)]]))
    = Ok (PDict rec)
    /\ lookup "lastMessageTimeStamp" rec = Some (PInt 9).
Proof.
  match goal with
  | |- exists rec, extract_call_data ?doc = _ /\ _ =>
      evaluated (extract_call_data doc) E; exists_result E; split; [exact E|];
      exact (proj1 (@extract_call_data_last_message CPython.library doc _ E))
  end.
Defined.

(** The record of call [call-A], and the URLs of identifiers that are
    no text: the integers 1 and -7, the float 1.0, [True] and the
    sequence [[1]]. *)
Lemma extract_call_data_record_shape_witness :
  (exists rec,
     extract_call_data (call_report "call-A" "hangup") = Ok (PDict rec)
     /\ map fst rec = RECORD_FIELDS
     /\ lookup "callID" rec = Some (PStr "call-A")
     /\ lookup "dashboardURL" rec
        = Some (PStr "https://hellocounsel-dashboard.vercel.app/calls?f=0&e=production&s=N4IgJgtiBcIJ4FMDOAXBAnMBDOIA0ISYMIATAAykBsAtOQIw2kAs%2BICxsF1djAzPRABfIA&c=call-A"))
  /\ Forall (fun id_text =>
               exists rec,
                 extract_call_data (report_of_id (fst id_text)) = Ok (PDict rec)
                 /\ lookup "callID" rec = Some (fst id_text)
                 /\ lookup "dashboardURL" rec
                    = Some (PStr (DASHBOARD_BASE_URL ++ "?" ++ DASHBOARD_PARAMS
                                  ++ "&c=" ++ snd id_text)%string))
       [ (PInt 1, "1"); (PInt (-7), "-7"); (PFloat (float_lit 1 0), "1.0");
         (PBool true, "True"); (PList [PInt 1], "[1]") ].
Proof.
  split.
  - evaluated (extract_call_data (call_report "call-A" "hangup")) E.
    destruct (@extract_call_data_record_shape CPython.library
                (call_report "call-A" "hangup") _ E ltac:(discriminate))
      as (rec & call_id & text & Erec & Hkeys & _ & Hid & _ & Hurl & Htext & _).
    exists rec. split; [now rewrite <- Erec|].
    injection Erec as <-. split; [exact Hkeys|].
    injection Hid as <-. subst text. split; [reflexivity | exact Hurl].
  - repeat constructor; cbn [fst snd];
      match goal with
      | |- exists rec, extract_call_data ?doc = _ /\ _ =>
          evaluated (extract_call_data doc) E;
          destruct (@extract_call_data_record_shape CPython.library
                      doc _ E ltac:(discriminate))
            as (rec & call_id & text & Erec & _ & _ & Hid & _ & Hurl & Htext & _);
          exists rec; split; [now rewrite <- Erec|];
          injection Erec as <-; injection Hid as <-;
          split; [reflexivity|];
          rewrite Hurl; cbv beta iota in Htext
      end.
    + now subst text.
    + now subst text.
    + subst text. vm_compute. reflexivity.
    + destruct Htext as [_ ->]. reflexivity.
    + revert Htext. vm_compute. now intros [= <-].
Defined.

(** The difference of the durations 62.5 and 60.0 is 2.5. *)
Example extract_call_data_difference_example :
  exists rec,
    extract_call_data (call_report "call-A" "hangup") = Ok (PDict rec)
    /\ lookup "vapiCallDuration" rec = Some (PFloat (float_lit 125 (-1)))
    /\ lookup "lastMessageTimeStamp" rec = Some (PFloat (float_lit 60 0))
    /\ lookup "difference" rec = Some (PFloat (float_lit 5 (-1))).
Proof.
  evaluated (extract_call_data (call_report "call-A" "hangup")) E. exists_result E.
  split; [exact E|]. split; [| split]; vm_compute; reflexivity.
Qed.

(** Durations that do not convert leave [difference] out and the record
    in: text that is no number, a sequence, and none at all. *)
Example extract_call_data_difference_absent :
  Forall (fun duration =>
            exists rec,
              extract_call_data
                (report_with duration
                   (PList [PDict [("secondsFromStart", PStr "1.5")]]))
              = Ok (PDict rec)
              /\ lookup "vapiCallDuration" rec = Some duration
              /\ lookup "difference" rec = Some PNone)
         [PStr "soon"; PList [PInt 3]; PNone].
Proof.
  repeat constructor;
    match goal with
    | |- exists rec, extract_call_data ?doc = _ /\ _ =>
        evaluated (extract_call_data doc) E; exists_result E; split; [exact E|];
        split; reflexivity
    end.
Qed.

(** The calls A, B, A, C give the records of A, B, C, and the record of
    A is the first one. *)
Lemma process_webhooks_first_occurrence_witness :
  exists out,
    process_webhooks rows_ABAC = Ok out
    /\ map call_id_of out = [PStr "A"; PStr "B"; PStr "C"]
    /\ map (navigate ["endedReason"]) out
       = [Some (PStr "hangup"); Some (PStr "hangup"); Some (PStr "hangup")]
    /\ out = first_occurrences [] (@extracted CPython.library rows_ABAC).
Proof.
  evaluated (process_webhooks rows_ABAC) E. exists_result E.
  split; [exact E|]. split; [reflexivity | split; [reflexivity|]].
  exact (proj1 (proj1 (@process_webhooks_first_occurrence CPython.library
                         rows_ABAC) _ E)).
Defined.

(** Identifiers that are equal as numbers, and two NaN, count once. *)
Example process_webhooks_numeric_ids :
  exists out,
    process_webhooks
      [ row (PStr (dq "{'message': {'call': {'id': 1}}}"));
        row (PStr (dq "{'message': {'call': {'id': 1.0}}}"));
        row (PStr (dq "{'message': {'call': {'id': true}}}"));
        row (PStr (dq "{'message': {'call': {'id': NaN}}}"));
        row (PStr (dq "{'message': {'call': {'id': NaN}}}"));
        row (PStr (dq "{'message': {'call': {'id': '1'}}}")) ]
    = Ok out
    /\ map call_id_of out = [PInt 1; PFloat S754_nan; PStr "1"].
Proof.
  match goal with
  | |- exists out, ?run = _ /\ _ =>
      evaluated run E; exists_result E; split; [exact E | reflexivity]
  end.
Qed.

(** The degraded rows give the records of the calls D and E; the row
    of a call whose duration is the integer 10^4300 and that has no
    messages gives its record too, as [float] is not called. *)
Lemma process_webhooks_no_raise_witness :
  (exists out,
     process_webhooks rows_degraded = Ok out
     /\ map call_id_of out = [PStr "D"; PStr "E"])
  /\ (exists out,
        process_webhooks rows_huge_field = Ok out
        /\ map call_id_of out = [PStr "A"; PStr "B"]).
Proof.
  split.
  - destruct (@process_webhooks_no_raise CPython.library rows_degraded)
      as [out H].
    { repeat constructor; vm_compute; reflexivity. }
    exists out. split; [exact H|].
    evaluated (@process_webhooks CPython.library rows_degraded) E.
    rewrite H in E. injection E as ->. reflexivity.
  - destruct (@process_webhooks_no_raise CPython.library rows_huge_field)
      as [out H].
    { repeat constructor; vm_compute; reflexivity. }
    exists out. split; [exact H|].
    evaluated (@process_webhooks CPython.library rows_huge_field) E.
    rewrite H in E. injection E as ->. reflexivity.
Defined.

(** C3, counterexample.  A [message] that is text, a payload whose JSON
    text is a sequence, an identifier that is a sequence and an
    identifier that is the integer 10^4300, each abort the run. *)
Lemma process_webhooks_no_raise_counterexample :
  process_webhooks [row (PDict [("message", PStr "hello")])] = Raise AttributeError
  /\ process_webhooks [row (PStr "[]")] = Raise AttributeError
  /\ process_webhooks [row (PDict [("message",
                           PDict [("call", PDict [("id", PList [PInt 1])])])])]
     = Raise TypeError
  /\ process_webhooks [row (report_of_id (PInt (INT_STR_LIMIT)))]
     = Raise ValueError.
Proof. split; [| split; [| split]]; vm_compute; reflexivity. Qed.

(** C2, the failing input as the pipeline receives it: one row with the
    JSON text of a report whose duration is the integer 10^400. *)
Example process_webhooks_huge_duration :
  process_webhooks [row (PStr huge_duration_text)] = Raise OverflowError.
Proof. vm_compute. reflexivity. Qed.

End Examples.

(* ================================================================== *)
(** ** More properties of the pipeline *)
(* ================================================================== *)

Section PipelineProperties.

Context {L : Library}.

(** *** When the loop returns *)

Lemma process_loop_accepted (webhooks : list pyval) :
  forall results seen,
    (exists out, process_loop webhooks results seen = Ok out)
    <-> Forall (fun w => accepted w = true) webhooks.
Proof.
  induction webhooks as [|w ws IH]; intros results seen.
  - simpl. split; eauto.
  - rewrite process_loop_step, Forall_cons_iff. unfold accepted.
    destruct (decode_extract w) as [cd|e] eqn:Ecd; cbn [bind].
    2:{ split; [intros [out H]; discriminate | intros [H _]; discriminate]. }
    destruct (truthy cd) eqn:T; cbn [negb orb].
    2:{ rewrite IH. tauto. }
    destruct (getitem cd "callID") as [cid|e]; cbn [bind].
    2:{ split; [intros [out H]; discriminate | intros [H _]; discriminate]. }
    unfold set_contains, set_add.
    destruct (hashable cid); cbn [bind].
    2:{ split; [intros [out H]; discriminate | intros [H _]; discriminate]. }
    destruct (existsb (matches cid) seen); cbn [negb bind]; rewrite IH; tauto.
Qed.

Lemma process_webhooks_accepted (webhooks : list pyval) :
  Forall (fun w => accepted w = true) webhooks ->
  process_webhooks webhooks = Ok (first_occurrences [] (extracted webhooks)).
Proof.
  intros H. apply (process_loop_accepted webhooks [] []) in H as [out H].
  unfold process_webhooks. rewrite H. f_equal.
  exact (process_loop_first_occurrences webhooks [] [] [] out
           (fun _ => eq_refl) H).
Qed.

(** A run returns exactly when every row is accepted: the loop raises
    on a row whatever the rows before it were, so one row on which
    decoding and extraction raise, or whose [callID] is a container,
    aborts the run and loses the records of all the others. *)
Theorem process_webhooks_returns_iff (webhooks : list pyval) :
  (exists out, process_webhooks webhooks = Ok out)
  <-> Forall (fun w => accepted w = true) webhooks.
Proof. exact (process_loop_accepted webhooks [] []). Qed.

(** *** The exceptions of a run *)










(** *** Streaming *)

Lemma first_occurrences_app (x y : list pyval) :
  forall earlier,
    first_occurrences earlier (x ++ y)
    = first_occurrences earlier x ++ first_occurrences (earlier ++ x) y.
Proof.
  induction x as [|r x IH]; intros earlier; simpl.
  - now rewrite app_nil_r.
  - rewrite IH, <- app_assoc. simpl.
    now destruct (existsb (same_call_id r) earlier).
Qed.

Lemma extracted_app (a b : list pyval) :
  extracted (a ++ b) = extracted a ++ extracted b.
Proof. apply flat_map_app. Qed.

(** The pipeline is a single pass: when it returns for a sequence of
    rows, it returns for every prefix of the sequence, and the records
    of the prefix are the first records of the whole, followed by the
    first occurrences among the later rows of the calls that the prefix
    does not have. *)
Theorem process_webhooks_prefix (a b out : list pyval) :
  process_webhooks (a ++ b) = Ok out ->
  exists out_a,
    process_webhooks a = Ok out_a
    /\ out = out_a ++ first_occurrences (extracted a) (extracted b).
Proof.
  intros H.
  assert (Hall : Forall (fun w => accepted w = true) (a ++ b))
    by (apply process_loop_accepted with (results := []) (seen := []); eauto).
  rewrite (process_webhooks_accepted _ Hall) in H. injection H as <-.
  apply Forall_app in Hall as [Ha _].
  exists (first_occurrences [] (extracted a)).
  split; [now apply process_webhooks_accepted|].
  now rewrite extracted_app, first_occurrences_app.
Qed.

Lemma process_loop_skips (a b : list pyval) (w : pyval) :
  accepted w = true -> extracted_of w = [] ->
  forall results seen,
    process_loop (a ++ w :: b) results seen
    = process_loop (a ++ b) results seen.
Proof.
  intros Hacc Hnone.
  induction a as [|x a IH]; intros results seen; cbn [app].
  - rewrite process_loop_step. unfold accepted in Hacc.
    unfold extracted_of in Hnone.
    destruct (decode_extract w) as [cd|]; [| discriminate]. cbn [bind].
    destruct (truthy cd); [discriminate | reflexivity].
  - rewrite !process_loop_step.
    destruct (decode_extract x) as [cd|]; [| reflexivity]. cbn [bind].
    destruct (truthy cd); [| apply IH].
    destruct (getitem cd "callID") as [cid|]; [| reflexivity]. cbn [bind].
    destruct (set_contains seen cid) as [present|]; [| reflexivity].
    cbn [bind]. destruct (negb present); [| apply IH].
    destruct (set_add seen cid) as [seen'|]; [| reflexivity]. cbn [bind].
    apply IH.
Qed.

(** A row that yields no record changes nothing, wherever it stands
    among the rows: a payload that no strategy decodes, a row without a
    payload, an event that is not of a call.  With it or without it the
    run returns the same records, or raises the same exception. *)
Theorem process_webhooks_skips (a b : list pyval) (w : pyval) :
  accepted w = true -> extracted_of w = [] ->
  process_webhooks (a ++ w :: b) = process_webhooks (a ++ b).
Proof.
  intros Hacc Hnone. exact (process_loop_skips a b w Hacc Hnone [] []).
Qed.

(** *** Replay and coverage *)

Lemma number_eqb_refl (v : pyval) (x : number) :
  number_of v = Some x -> is_nan v = false -> number_eqb x x = true.
Proof.
  destruct v as [ |b|z|f|s|l|d]; simpl; try discriminate.
  - intros [= <-] _. apply Qeq_bool_iff. reflexivity.
  - intros [= <-] _. apply Qeq_bool_iff. reflexivity.
  - destruct f; intros [= <-]; try discriminate; intros _; simpl.
    + reflexivity.
    + now destruct s.
    + apply Qeq_bool_iff. reflexivity.
Qed.

(** A value that can be in a set is found in a set that holds it. *)
Lemma matches_refl (v : pyval) : hashable v = true -> matches v v = true.
Proof.
  intros H. unfold matches, same_object.
  destruct (is_nan v) eqn:N; [reflexivity|]. cbn [andb orb].
  destruct v as [ |b|z|f|s|l|d]; try discriminate H.
  - reflexivity.
  - unfold eqb. simpl number_of. now apply (number_eqb_refl (PBool b)).
  - unfold eqb. simpl number_of. now apply (number_eqb_refl (PInt z)).
  - unfold eqb. destruct (number_of (PFloat f)) as [x|] eqn:E.
    + now apply (number_eqb_refl (PFloat f)).
    + destruct f; discriminate.
  - simpl. apply String.eqb_refl.
Qed.

Lemma extracted_of_hashable (w r : pyval) :
  accepted w = true -> In r (extracted_of w) ->
  hashable (call_id_of r) = true.
Proof.
  unfold accepted, extracted_of.
  destruct (decode_extract w) as [cd|] eqn:E; [| discriminate].
  destruct (truthy cd) eqn:T; [| contradiction]. cbn [negb orb].
  intros H [<- | []].
  destruct (decode_extract_result _ _ E) as [-> | [rec ->]]; [discriminate|].
  cbn [getitem] in H. unfold call_id_of, field.
  now destruct (lookup "callID" rec).
Qed.

Lemma extracted_hashable (webhooks : list pyval) (r : pyval) :
  Forall (fun w => accepted w = true) webhooks ->
  In r (extracted webhooks) -> hashable (call_id_of r) = true.
Proof.
  intros Hall Hr. unfold extracted in Hr.
  apply in_flat_map in Hr as (w & Hw & Hr).
  rewrite Forall_forall in Hall. eauto using extracted_of_hashable.
Qed.

(** Records whose calls all came earlier add nothing. *)
Lemma first_occurrences_seen (records : list pyval) :
  forall earlier,
    (forall r, In r records -> existsb (same_call_id r) earlier = true) ->
    first_occurrences earlier records = [].
Proof.
  induction records as [|x rest IH]; intros earlier H; [reflexivity|].
  simpl. rewrite (H x) by now left.
  apply IH. intros r Hr. rewrite existsb_app, (H r) by now right.
  reflexivity.
Qed.

Lemma process_webhooks_late_duplicates (a b out : list pyval) :
  process_webhooks a = Ok out ->
  Forall (fun w => accepted w = true) b ->
  (forall r, In r (extracted b) ->
             existsb (same_call_id r) (extracted a) = true) ->
  process_webhooks (a ++ b) = Ok out.
Proof.
  intros Ha Hb Hdup.
  assert (Hacc : Forall (fun w => accepted w = true) a)
    by (apply process_loop_accepted with (results := []) (seen := []); eauto).
  rewrite (process_webhooks_accepted _ Hacc) in Ha. injection Ha as <-.
  rewrite process_webhooks_accepted by (apply Forall_app; auto).
  rewrite extracted_app, first_occurrences_app.
  rewrite (first_occurrences_seen (extracted b)) by exact Hdup.
  now rewrite app_nil_r.
Qed.

(** Rows that arrive again change nothing: a run on a sequence of rows
    followed by rows that are all among them returns what the run on
    the sequence alone returns.  (A store that delivers a row twice,
    or pages that overlap, cost no record and add none.) *)
Theorem process_webhooks_replay (webhooks again out : list pyval) :
  process_webhooks webhooks = Ok out ->
  incl again webhooks ->
  process_webhooks (webhooks ++ again) = Ok out.
Proof.
  intros H Hincl.
  assert (Hacc : Forall (fun w => accepted w = true) webhooks)
    by (apply process_loop_accepted with (results := []) (seen := []); eauto).
  assert (Hagain : Forall (fun w => accepted w = true) again).
  { rewrite Forall_forall in *. auto. }
  apply process_webhooks_late_duplicates; [exact H | exact Hagain |].
  intros r Hr.
  assert (Hin : In r (extracted webhooks)).
  { unfold extracted in *. apply in_flat_map in Hr as (w & Hw & Hr).
    apply in_flat_map. eauto. }
  apply existsb_exists. exists r. split; [exact Hin|].
  apply matches_refl. eauto using extracted_hashable.
Qed.

Lemma first_occurrences_incl (records : list pyval) :
  forall earlier r, In r (first_occurrences earlier records) -> In r records.
Proof.
  induction records as [|x rest IH]; intros earlier r; simpl; [tauto|].
  destruct (existsb (same_call_id x) earlier); simpl; intros H.
  - right. eauto.
  - destruct H; [now left | right; eauto].
Qed.

Lemma first_occurrences_length (records : list pyval) :
  forall earlier,
    (List.length (first_occurrences earlier records) <= List.length records)%nat.
Proof.
  induction records as [|x rest IH]; intros earlier; simpl; [lia|].
  specialize (IH (earlier ++ [x])).
  destruct (existsb (same_call_id x) earlier); simpl; lia.
Qed.

Lemma extracted_length (webhooks : list pyval) :
  (List.length (extracted webhooks) <= List.length webhooks)%nat.
Proof.
  induction webhooks as [|w ws IH]; simpl; [lia|].
  rewrite length_app. unfold extracted_of.
  destruct (decode_extract w) as [cd|]; [destruct (truthy cd)|]; simpl; lia.
Qed.

Lemma first_occurrences_cover (records : list pyval) :
  forall earlier r,
    (forall x, In x records -> hashable (call_id_of x) = true) ->
    In r records ->
    existsb (same_call_id r) earlier = true
    \/ exists o, In o (first_occurrences earlier records)
                 /\ same_call_id r o = true.
Proof.
  induction records as [|x rest IH]; intros earlier r Hh Hr; [contradiction|].
  simpl. destruct Hr as [-> | Hr].
  - destruct (existsb (same_call_id r) earlier) eqn:E; [now left|].
    right. exists r. split; [now left|].
    apply matches_refl, Hh. now left.
  - destruct (IH (earlier ++ [x]) r) as [H | (o & Ho & Hro)];
      [intros y Hy; apply Hh; now right | exact Hr | |].
    + rewrite existsb_app in H. cbn [existsb] in H.
      rewrite orb_false_r in H. apply orb_true_iff in H as [H | H];
        [now left|].
      destruct (existsb (same_call_id x) earlier) eqn:E.
      * left. apply existsb_exists in E as (e & He & Hxe).
        apply existsb_exists. exists e. split; [exact He|].
        unfold same_call_id in *. eauto using matches_trans.
      * right. exists x. split; [now left | exact H].
    + right. exists o. split; [| exact Hro].
      destruct (existsb (same_call_id x) earlier); [exact Ho | now right].
Qed.

(** No call is lost and none is made up: every record that the rows
    yield has a record of the same call in the result, every record of
    the result is one that a row yields, and there are no more records
    than rows. *)
Theorem process_webhooks_covers (webhooks out : list pyval) :
  process_webhooks webhooks = Ok out ->
  (forall r, In r (extracted webhooks) ->
             exists o, In o out /\ same_call_id r o = true)
  /\ (forall o, In o out -> In o (extracted webhooks))
  /\ (List.length out <= List.length webhooks)%nat.
Proof.
  intros H.
  assert (Hacc : Forall (fun w => accepted w = true) webhooks)
    by (apply process_loop_accepted with (results := []) (seen := []); eauto).
  rewrite (process_webhooks_accepted _ Hacc) in H. injection H as <-.
  split; [| split].
  - intros r Hr.
    destruct (first_occurrences_cover (extracted webhooks) [] r) as [E | E];
      [intros x Hx; eauto using extracted_hashable | exact Hr | discriminate E
      | exact E].
  - intros o. apply first_occurrences_incl.
  - etransitivity; [apply first_occurrences_length | apply extracted_length].
Qed.

End PipelineProperties.

(* ================================================================== *)
(** ** Properties of [get_supabase_client] and [fetch_webhooks] *)
(* ================================================================== *)

Section RecordSourceProperties.

Context {DB : Supabase}.

Lemma text_or_first_set (env : environ) (a b : str) :
  match text_or (env a) (env b) with
  | Some s => if String.eqb s EmptyString then None else Some s
  | None => None
  end = first_set env [a; b].
Proof.
  unfold text_or. simpl.
  destruct (env a) as [s|].
  - destruct (String.eqb s EmptyString) eqn:E.
    + destruct (env b) as [t|]; [| reflexivity].
      now destruct (String.eqb t EmptyString).
    + now rewrite E.
  - destruct (env b) as [t|]; [| reflexivity].
    now destruct (String.eqb t EmptyString).
Qed.

Lemma first_set_not_empty (env : environ) (names : list str) (s : str) :
  first_set env names = Some s -> s <> EmptyString.
Proof.
  induction names as [|n rest IH]; simpl; [discriminate|].
  destruct (env n) as [t|]; [| exact IH].
  destruct (String.eqb t EmptyString) eqn:E; [exact IH|].
  intros [= <-]. now apply String.eqb_neq.
Qed.

Lemma get_supabase_client_first_set (env : environ) :
  get_supabase_client env
  = match first_set env ["SUPABASE_PROD_URL"; "SUPABASE_URL"],
          first_set env ["SUPABASE_PROD_KEY"; "SUPABASE_KEY"] with
    | Some url, Some key => create_client url key
    | _, _ => Raise ValueError
    end.
Proof.
  rewrite <- !text_or_first_set. unfold get_supabase_client.
  destruct (text_or (env "SUPABASE_PROD_URL") (env "SUPABASE_URL")) as [u|];
    [| reflexivity].
  destruct (text_or (env "SUPABASE_PROD_KEY") (env "SUPABASE_KEY")) as [k|].
  - destruct (String.eqb u EmptyString) eqn:Eu; [reflexivity|].
    now destruct (String.eqb k EmptyString) eqn:Ek.
  - now destruct (String.eqb u EmptyString).
Qed.

(** The client is created with the first URL and the first key that
    are set to a text that is not empty, the production variable before
    the general one; [create_client] is never given an empty URL or
    key.  When there is no such URL or no such key, [ValueError] is
    raised and no client is created. *)
Theorem get_supabase_client_credentials (env : environ) :
  match first_set env ["SUPABASE_PROD_URL"; "SUPABASE_URL"],
        first_set env ["SUPABASE_PROD_KEY"; "SUPABASE_KEY"] with
  | Some url, Some key =>
      url <> EmptyString /\ key <> EmptyString
      /\ get_supabase_client env = create_client url key
  | _, _ => get_supabase_client env = Raise ValueError
  end.
Proof.
  rewrite get_supabase_client_first_set.
  destruct (first_set env ["SUPABASE_PROD_URL"; "SUPABASE_URL"])
    as [url|] eqn:Eu; [| reflexivity].
  destruct (first_set env ["SUPABASE_PROD_KEY"; "SUPABASE_KEY"])
    as [key|] eqn:Ek; [| reflexivity].
  eauto using first_set_not_empty.
Qed.

(** The URL and the key are chosen apart from each other: with a
    production URL, no production key and a general key, the client is
    created for the production URL with the general key, whatever the
    general URL is. *)
Theorem get_supabase_client_mixed_pair (env : environ) (url key : str) :
  env "SUPABASE_PROD_URL" = Some url -> url <> EmptyString ->
  first_set env ["SUPABASE_PROD_KEY"] = None ->
  env "SUPABASE_KEY" = Some key -> key <> EmptyString ->
  get_supabase_client env = create_client url key.
Proof.
  intros Hu Hue Hpk Hk Hke. unfold get_supabase_client, text_or.
  apply String.eqb_neq in Hue, Hke.
  rewrite Hu, Hue, Hk. simpl in Hpk.
  destruct (env "SUPABASE_PROD_KEY") as [pk|].
  - destruct (String.eqb pk EmptyString); [| discriminate].
    now rewrite Hue, Hke.
  - now rewrite Hue, Hke.
Qed.

(** *** The pages *)

(** One request of the loop, at the offset of page [k]. *)
Lemma fetch_loop_step (requests : nat) (client : Client) (days : Z)
      (all : list pyval) (k : nat) :
  fetch_loop (S requests) client days all (page_size * Z.of_nat k) =
  match page client days k with
  | Raise e => Some (Raise e)
  | Ok l =>
      if Z.of_nat (List.length l) <? page_size then Some (Ok (all ++ l))
      else fetch_loop requests client days (all ++ l)
                      (page_size * Z.of_nat (S k))
  end.
Proof.
  cbn [fetch_loop]. unfold page.
  destruct (select_range client days _ _) as [data|e]; [| reflexivity].
  cbn [bind].
  replace (page_size * Z.of_nat k + page_size)
    with (page_size * Z.of_nat (S k)) by (unfold page_size; lia).
  reflexivity.
Qed.

Lemma full_page_rows (client : Client) (days : Z) (k : nat) :
  full_page client days k = true ->
  page client days k = Ok (page_rows client days k)
  /\ (Z.of_nat (List.length (page_rows client days k)) <? page_size) = false.
Proof.
  unfold full_page, page_rows.
  destruct (page client days k) as [l|]; [| discriminate].
  intros H. split; [reflexivity|]. apply Z.ltb_ge. now apply Z.leb_le.
Qed.

Lemma short_page_rows (client : Client) (days : Z) (k : nat) :
  short_page client days k = true ->
  page client days k = Ok (page_rows client days k)
  /\ (Z.of_nat (List.length (page_rows client days k)) <? page_size) = true.
Proof.
  unfold short_page, page_rows.
  destruct (page client days k) as [l|]; [| discriminate]. auto.
Qed.

(** The loop over [n] full pages and a short one. *)
Lemma fetch_loop_pages (client : Client) (days : Z) (n : nat) :
  forall (j : nat) (all : list pyval) (requests : nat),
    (forall i, (i < n)%nat -> full_page client days (j + i) = true) ->
    short_page client days (j + n) = true ->
    (n < requests)%nat ->
    fetch_loop requests client days all (page_size * Z.of_nat j)
    = Some (Ok (all ++ flat_map (page_rows client days) (seq j (S n)))).
Proof.
  induction n as [|n IH]; intros j all requests Hfull Hshort Hreq;
    (destruct requests as [|requests]; [lia|]); rewrite fetch_loop_step.
  - rewrite Nat.add_0_r in Hshort.
    destruct (short_page_rows _ _ _ Hshort) as [-> ->].
    simpl. now rewrite app_nil_r.
  - destruct (full_page_rows client days j) as [-> ->].
    { rewrite <- (Nat.add_0_r j). apply Hfull. lia. }
    rewrite (IH (S j)).
    + cbn [seq flat_map]. now rewrite <- app_assoc.
    + intros i Hi. replace (S j + i)%nat with (j + S i)%nat by lia.
      apply Hfull. lia.
    + now replace (S j + n)%nat with (j + S n)%nat by lia.
    + lia.
Qed.

(** The loop runs out of requests on full pages. *)
Lemma fetch_loop_full_pages (client : Client) (days : Z) (requests : nat) :
  forall (j : nat) (all : list pyval),
    (forall i, (i < requests)%nat -> full_page client days (j + i) = true) ->
    fetch_loop requests client days all (page_size * Z.of_nat j) = None.
Proof.
  induction requests as [|requests IH]; intros j all Hfull; [reflexivity|].
  rewrite fetch_loop_step.
  destruct (full_page_rows client days j) as [-> ->].
  { rewrite <- (Nat.add_0_r j). apply Hfull. lia. }
  apply IH. intros i Hi. replace (S j + i)%nat with (j + S i)%nat by lia.
  apply Hfull. lia.
Qed.

(** The loop over [n] full pages and a request that fails. *)
Lemma fetch_loop_failure (client : Client) (days : Z) (e : exc) (n : nat) :
  forall (j : nat) (all : list pyval) (requests : nat),
    (forall i, (i < n)%nat -> full_page client days (j + i) = true) ->
    page client days (j + n) = Raise e ->
    (n < requests)%nat ->
    fetch_loop requests client days all (page_size * Z.of_nat j)
    = Some (Raise e).
Proof.
  induction n as [|n IH]; intros j all requests Hfull Hfail Hreq;
    (destruct requests as [|requests]; [lia|]); rewrite fetch_loop_step.
  - rewrite Nat.add_0_r in Hfail. now rewrite Hfail.
  - destruct (full_page_rows client days j) as [-> ->].
    { rewrite <- (Nat.add_0_r j). apply Hfull. lia. }
    apply IH.
    + intros i Hi. replace (S j + i)%nat with (j + S i)%nat by lia.
      apply Hfull. lia.
    + now replace (S j + n)%nat with (j + S n)%nat by lia.
    + lia.
Qed.

(** [fetch_webhooks] asks for the pages of 1000 rows in turn, from
    offset 0, and stops at the first page that has fewer than 1000
    rows: when the pages before page [k] are full and page [k] is
    short, it returns the rows of the pages 0 to [k], in that order,
    with [k + 1] requests and not with fewer. *)
Theorem fetch_webhooks_pages (client : Client) (days : Z) (k requests : nat) :
  (forall j, (j < k)%nat -> full_page client days j = true) ->
  short_page client days k = true ->
  fetch_webhooks requests client days
  = if (k <? requests)%nat
    then Some (Ok (flat_map (page_rows client days) (seq 0 (S k))))
    else None.
Proof.
  intros Hfull Hshort. unfold fetch_webhooks.
  change 0 with (page_size * Z.of_nat 0).
  destruct (k <? requests)%nat eqn:E.
  - apply Nat.ltb_lt in E.
    now rewrite (fetch_loop_pages client days k 0 [] requests).
  - apply Nat.ltb_ge in E. apply fetch_loop_full_pages.
    intros i Hi. apply Hfull. simpl. lia.
Qed.

(** The loop has no bound of its own: against a store whose every page
    is full, no number of requests makes [fetch_webhooks] return. *)
Theorem fetch_webhooks_endless (client : Client) (days : Z) :
  (forall k, full_page client days k = true) ->
  forall requests, fetch_webhooks requests client days = None.
Proof.
  intros Hfull requests. unfold fetch_webhooks.
  change 0 with (page_size * Z.of_nat 0).
  apply fetch_loop_full_pages. intros i _. apply Hfull.
Qed.

(** A request that fails ends the fetch with its exception: the rows of
    the pages before it are not returned. *)
Theorem fetch_webhooks_failure (client : Client) (days : Z) (k requests : nat)
        (e : exc) :
  (forall j, (j < k)%nat -> full_page client days j = true) ->
  page client days k = Raise e ->
  (k < requests)%nat ->
  fetch_webhooks requests client days = Some (Raise e).
Proof.
  intros Hfull Hfail Hreq. unfold fetch_webhooks.
  change 0 with (page_size * Z.of_nat 0).
  now apply (fetch_loop_failure client days e k 0 [] requests).
Qed.

(** *** A store that holds a table *)

Lemma firstn_plus {A} (a b : nat) (l : list A) :
  firstn (a + b) l = firstn a l ++ firstn b (skipn a l).
Proof.
  revert l. induction a as [|a IH]; intros l; [reflexivity|].
  destruct l as [|x l]; simpl; [now destruct b | now rewrite IH].
Qed.

Lemma pages_of_table (table : list pyval) (p n : nat) :
  flat_map (fun j => firstn p (skipn (p * j) table)) (seq 0 n)
  = firstn (p * n) table.
Proof.
  induction n as [|n IH].
  - now rewrite Nat.mul_0_r.
  - rewrite seq_S, flat_map_app, IH. simpl. rewrite app_nil_r.
    replace (p * S n)%nat with (p * n + p)%nat by lia.
    now rewrite firstn_plus.
Qed.

Lemma rows_in_range_page (table : list pyval) (k : nat) :
  rows_in_range table (page_size * Z.of_nat k)
                (page_size * Z.of_nat k + page_size - 1)
  = firstn 1000 (skipn (1000 * k) table).
Proof.
  unfold rows_in_range, page_size. f_equal; [| f_equal]; lia.
Qed.

Lemma page_of_table (client : Client) (days : Z) (table : list pyval)
      (max_rows : nat) :
  (forall first last,
      select_range client days first last
      = Ok (Some (firstn max_rows (rows_in_range table first last)))) ->
  forall k,
    page client days k
    = Ok (firstn (Nat.min max_rows 1000) (skipn (1000 * k) table)).
Proof.
  intros H k. unfold page. rewrite H, rows_in_range_page. cbn [bind].
  now rewrite firstn_firstn.
Qed.

Lemma fetch_webhooks_table (client : Client) (days : Z)
      (table : list pyval) (requests : nat) :
  (forall first last,
      select_range client days first last
      = Ok (Some (rows_in_range table first last))) ->
  fetch_webhooks requests client days
  = if (List.length table / 1000 <? requests)%nat
    then Some (Ok table)
    else None.
Proof.
  intros H.
  assert (Hpage : forall k,
             page client days k = Ok (firstn 1000 (skipn (1000 * k) table))).
  { intros k. unfold page. now rewrite H, rows_in_range_page. }
  assert (Hlen : forall k,
             List.length (firstn 1000 (skipn (1000 * k) table))
             = Nat.min 1000 (List.length table - 1000 * k)).
  { intros k. now rewrite length_firstn, length_skipn. }
  pose proof (Nat.div_mod_eq (List.length table) 1000) as Hdiv.
  pose proof (Nat.mod_upper_bound (List.length table) 1000 ltac:(lia)) as Hmod.
  set (k := (List.length table / 1000)%nat) in *.
  assert (Hfull : forall j, (j < k)%nat -> full_page client days j = true).
  { intros j Hj. unfold full_page. rewrite Hpage, Hlen.
    apply Z.leb_le. unfold page_size. lia. }
  unfold fetch_webhooks. change 0 with (page_size * Z.of_nat 0).
  destruct (k <? requests)%nat eqn:E.
  - apply Nat.ltb_lt in E.
    rewrite (fetch_loop_pages client days k 0 [] requests); auto.
    + do 2 f_equal. cbn [app].
      rewrite (flat_map_ext _ (fun j => firstn 1000 (skipn (1000 * j) table)))
        by (intros j; unfold page_rows; now rewrite Hpage).
      rewrite pages_of_table. apply firstn_all2. lia.
    + unfold short_page. rewrite Hpage, Hlen.
      apply Z.ltb_lt. unfold page_size. lia.
  - apply Nat.ltb_ge in E. apply fetch_loop_full_pages.
    intros i Hi. apply Hfull. simpl. lia.
Qed.

(** Against a store that holds a table and answers each request with
    the rows of the range asked for, [fetch_webhooks] returns the whole
    table, each row once and in the order of the store, when it may
    send one request per started thousand of rows, and one more when
    the number of rows is a multiple of 1000; it does not return with
    fewer requests. *)
Theorem fetch_webhooks_complete (client : Client) (days : Z)
        (table : list pyval) :
  (forall first last,
      select_range client days first last
      = Ok (Some (rows_in_range table first last))) ->
  forall requests,
    (List.length table / 1000 < requests)%nat
    <-> fetch_webhooks requests client days = Some (Ok table).
Proof.
  intros H requests. rewrite (fetch_webhooks_table client days table) by exact H.
  destruct (List.length table / 1000 <? requests)%nat eqn:E.
  - apply Nat.ltb_lt in E. tauto.
  - apply Nat.ltb_ge in E. split; [lia | discriminate].
Qed.

(** A store that gives fewer than 1000 rows in one answer ends the
    fetch at the first page: [fetch_webhooks] returns the first
    [max_rows] rows of the table and asks for no more, however many
    rows the table has. *)
Theorem fetch_webhooks_capped (client : Client) (days : Z)
        (table : list pyval) (max_rows requests : nat) :
  (max_rows < 1000)%nat ->
  (forall first last,
      select_range client days first last
      = Ok (Some (firstn max_rows (rows_in_range table first last)))) ->
  fetch_webhooks (S requests) client days = Some (Ok (firstn max_rows table)).
Proof.
  intros Hcap H. unfold fetch_webhooks.
  change 0 with (page_size * Z.of_nat 0).
  rewrite fetch_loop_step, (page_of_table client days table max_rows H).
  rewrite Nat.min_l by lia. simpl skipn.
  assert (Hshort : (Z.of_nat (List.length (firstn max_rows table))
                    <? page_size) = true).
  { apply Z.ltb_lt. rewrite length_firstn. unfold page_size. lia. }
  now rewrite Hshort.
Qed.

End RecordSourceProperties.

(* ================================================================== *)
(** ** Properties of [save_to_csv] *)
(* ================================================================== *)

Section ReportProperties.

Context {L : Library}.

Lemma append_assoc (a b c : str) : ((a ++ b) ++ c = a ++ (b ++ c))%string.
Proof. induction a as [|x a IH]; simpl; [reflexivity | now rewrite IH]. Qed.

Lemma append_empty_r (a : str) : (a ++ EmptyString)%string = a.
Proof. induction a as [|x a IH]; simpl; [reflexivity | now rewrite IH]. Qed.

(** The loop over records that can be written. *)
Lemma write_rows_writable (data : list pyval) :
  forall f,
    Forall (fun r => writable r = true) data ->
    write_rows data f = ((f ++ report_lines data)%string, Ok tt).
Proof.
  induction data as [|r rest IH]; intros f H; simpl.
  - now rewrite append_empty_r.
  - apply Forall_cons_iff in H as [Hr Hrest]. unfold writable in Hr.
    destruct (report_line r) as [line|]; [| discriminate]. cbn [bind].
    unfold write. apply negb_true_iff in Hr. rewrite Hr.
    rewrite (IH _ Hrest). now rewrite append_assoc.
Qed.

(** The loop up to a record that cannot be written. *)
Lemma write_rows_stops (before after : list pyval) (bad : pyval) :
  forall f,
    Forall (fun r => writable r = true) before ->
    writable bad = false ->
    write_rows (before ++ bad :: after) f
    = ((f ++ report_lines before)%string, Raise (write_error bad)).
Proof.
  induction before as [|r rest IH]; intros f H Hbad; simpl.
  - rewrite append_empty_r. unfold writable in Hbad. unfold write_error.
    destruct (report_line bad) as [line|]; [| reflexivity]. cbn [bind].
    unfold write. apply negb_false_iff in Hbad. now rewrite Hbad.
  - apply Forall_cons_iff in H as [Hr Hrest]. unfold writable in Hr.
    destruct (report_line r) as [line|]; [| discriminate]. cbn [bind].
    unfold write. apply negb_true_iff in Hr. rewrite Hr.
    rewrite (IH _ Hrest Hbad). now rewrite append_assoc.
Qed.

Lemma header_written :
  write EmptyString (Csv.writerow FIELDNAMES)
  = Ok (Csv.writerow FIELDNAMES).
Proof. reflexivity. Qed.

(** When every record can be written, the file is the line of the
    column names followed by the lines of the records, one per record
    and in their order; with no record at all, no file is written. *)
Theorem save_to_csv_file (data : list pyval) :
  Forall (fun r => writable r = true) data ->
  save_to_csv data
  = (match data with
     | [] => None
     | _ :: _ => Some (Csv.writerow FIELDNAMES ++ report_lines data)%string
     end, Ok tt).
Proof.
  intros H. destruct data as [|r rest]; [reflexivity|].
  unfold save_to_csv. rewrite header_written.
  now rewrite (write_rows_writable (r :: rest) _ H).
Qed.

(** A record that cannot be written, for the lack of a field, for a
    value that has no text or for a lone surrogate in its text, ends
    [save_to_csv] with its exception and leaves a file behind: the
    column names and the lines of the records before it.  The records
    after it are not written. *)
Theorem save_to_csv_partial_file (before after : list pyval) (bad : pyval) :
  Forall (fun r => writable r = true) before ->
  writable bad = false ->
  save_to_csv (before ++ bad :: after)
  = (Some (Csv.writerow FIELDNAMES ++ report_lines before)%string,
     Raise (write_error bad)).
Proof.
  intros H Hbad. unfold save_to_csv.
  destruct (before ++ bad :: after) as [|r rest] eqn:E;
    [now destruct before|].
  rewrite header_written, <- E.
  now rewrite (write_rows_stops before after bad _ H Hbad).
Qed.

(** *** The texts of values *)

Lemma format_str_text (v : pyval) (text : str) :
  format v = Ok text <-> str_text v text.
Proof.
  destruct v as [ |b|z|f|s|l|d]; cbn [format str_text];
    try (split; [now intros [= <-] | now intros ->]); try reflexivity.
  - destruct b; split; try (now intros [= <-]); now intros ->.
  - split.
    + apply str_of_int_ok.
    + intros [Hlt ->]. unfold str_of_int.
      apply Z.ltb_lt in Hlt. now rewrite Hlt.
Qed.

Lemma format_no_text (v : pyval) (e : exc) :
  format v = Raise e <-> no_text v e.
Proof.
  destruct v as [ |b|z|f|s|l|d]; cbn [format no_text];
    try (split; [discriminate | contradiction]); try reflexivity.
  - destruct b; split; try discriminate; contradiction.
  - split.
    + apply str_of_int_raises.
    + intros [Hge ->]. unfold str_of_int.
      apply Z.ltb_ge in Hge. now rewrite Hge.
Qed.

Lemma field_text_cell (v : pyval) (text : str) :
  field_text v = Ok text <-> cell_text v text.
Proof.
  destruct v; cbn [field_text cell_text]; try apply format_str_text.
  split; [now intros [= <-] | now intros ->].
Qed.

Lemma field_text_no_text (v : pyval) (e : exc) :
  field_text v = Raise e <-> no_text v e.
Proof.
  destruct v; cbn [field_text]; try apply format_no_text.
  split; [discriminate | contradiction].
Qed.

(** The texts of the values of a row. *)
Lemma field_texts_cells (values : list pyval) (cells : list str) :
  field_texts values = Ok cells <-> Forall2 cell_text values cells.
Proof.
  revert cells. induction values as [|v rest IH]; intros cells; cbn [field_texts].
  - split; [intros [= <-]; constructor | intros H; now inversion H].
  - split.
    + destruct (field_text v) as [text|] eqn:Ev; [| discriminate]. cbn [bind].
      destruct (field_texts rest) as [texts|]; [| discriminate]. cbn [bind].
      intros [= <-]. constructor; [now apply field_text_cell | now apply IH].
    + intros H. inversion H as [|v' text rest' texts Hv Hrest]; subst.
      apply field_text_cell in Hv. apply IH in Hrest.
      now rewrite Hv, Hrest.
Qed.

Lemma field_texts_str (s : str) (rest : list pyval) :
  field_texts (PStr s :: rest)
  = (texts <- field_texts rest ;; Ok (s :: texts)).
Proof. reflexivity. Qed.

(** The first value of a row that has no text ends the row. *)
Lemma field_texts_raises (values : list pyval) (e : exc) :
  field_texts values = Raise e -> exists v, In v values /\ no_text v e.
Proof.
  induction values as [|v rest IH]; cbn [field_texts]; [discriminate|].
  destruct (field_text v) as [text|e'] eqn:Ev; cbn [bind].
  - destruct (field_texts rest) as [texts|e'']; cbn [bind]; [discriminate|].
    intros [= <-]. destruct (IH eq_refl) as (x & Hx & Hno).
    exists x. split; [now right | exact Hno].
  - intros [= <-]. exists v. split; [now left | now apply field_text_no_text].
Qed.

(** *** The records of a run in the file *)

Lemma compute_difference_value (duration ts diff : pyval) :
  compute_difference duration ts = Ok diff ->
  diff = PNone \/ exists f, diff = PFloat f.
Proof.
  unfold compute_difference.
  destruct (negb (is_none duration) && negb (is_none ts));
    [| intros [= <-]; now left].
  unfold try_except.
  destruct (float_of duration) as [a|e1]; cbn [bind].
  - destruct (float_of ts) as [b|e2]; cbn [bind].
    + intros [= <-]. right. eauto.
    + destruct (caught e2 [ValueError; TypeError]);
        [intros [= <-]; now left | discriminate].
  - destruct (caught e1 [ValueError; TypeError]);
      [intros [= <-]; now left | discriminate].
Qed.

(** What a record of the rows is made of. *)
Lemma extracted_record (webhooks : list pyval) (r : pyval) :
  In r (extracted webhooks) ->
  exists m call_id text ts diff,
    r = PDict (record_of_parts m call_id (url_of text) ts diff)
    /\ truthy call_id = true
    /\ format call_id = Ok text
    /\ (diff = PNone \/ exists f, diff = PFloat f).
Proof.
  intros Hr. unfold extracted in Hr.
  apply in_flat_map in Hr as (w & _ & Hr). unfold extracted_of in Hr.
  destruct (decode_extract w) as [cd|] eqn:E; [| contradiction].
  destruct (truthy cd) eqn:T; [| contradiction].
  destruct Hr as [<- | []].
  destruct (decode_extract_result _ _ E) as [-> | [rec ->]]; [discriminate|].
  unfold decode_extract in E.
  destruct (get w "payload" (PDict [])) as [raw|]; [| discriminate].
  cbn [bind] in E.
  destruct (decode_payload raw) as [payload|]; [| discriminate].
  cbn [bind] in E.
  apply extract_call_data_record in E
    as (d & m & c & a & ts & diff & url
        & _ & _ & _ & Hid & _ & _ & Hd & Hu & ->).
  apply dashboard_url_ok in Hu as (text & Htext & ->).
  exists m, (field c "id" PNone), text, ts, diff.
  split; [reflexivity | split; [exact Hid | split; [exact Htext|]]].
  eauto using compute_difference_value.
Qed.

Lemma report_row_record (m : list (str * pyval)) (call_id ts diff : pyval)
      (text : str) :
  format call_id = Ok text ->
  report_row (PDict (record_of_parts m call_id (url_of text) ts diff))
  = Ok [PStr (formula_of text);
        field m "durationSeconds" PNone; ts; diff;
        field m "startedAt" PNone; field m "endedAt" PNone;
        field m "endedReason" PNone].
Proof.
  intros Htext. unfold report_row, hyperlink_formula, record_of_parts.
  change (getitem (PDict ?d) ?k)
    with (match lookup k d with Some v => Ok v | None => Raise KeyError end).
  cbn [lookup String.eqb Ascii.eqb Bool.eqb bind format].
  rewrite Htext. reflexivity.
Qed.

(** How the loop over the records ends. *)
Lemma write_rows_ended (data : list pyval) :
  forall f,
    snd (write_rows data f) = Ok tt
    \/ snd (write_rows data f) = Raise UnicodeEncodeError
    \/ exists r e,
         In r data /\ report_line r = Raise e
         /\ snd (write_rows data f) = Raise e.
Proof.
  induction data as [|r rest IH]; intros f; cbn [write_rows]; [now left|].
  destruct (report_line r) as [line|e] eqn:Er; cbn [bind].
  - unfold write. destruct (has_surrogate line); [now right; left|].
    destruct (IH (f ++ line)%string) as [H | [H | (x & e & Hx & He & H)]];
      [now left | now right; left |].
    right; right. exists x, e. split; [now right | now split].
  - right; right. exists r, e. split; [now left | now split].
Qed.

Lemma save_to_csv_ended (data : list pyval) :
  snd (save_to_csv data) = Ok tt
  \/ snd (save_to_csv data) = Raise UnicodeEncodeError
  \/ exists r e,
       In r data /\ report_line r = Raise e
       /\ snd (save_to_csv data) = Raise e.
Proof.
  destruct data as [|r rest]; [now left|].
  unfold save_to_csv. rewrite header_written.
  pose proof (write_rows_ended (r :: rest) (Csv.writerow FIELDNAMES)) as Hend.
  now destruct (write_rows (r :: rest) (Csv.writerow FIELDNAMES)).
Qed.

(** The records of a run. *)
Lemma run_records (webhooks data : list pyval) (r : pyval) :
  process_webhooks webhooks = Ok data ->
  In r data ->
  exists m call_id text ts diff,
    r = PDict (record_of_parts m call_id (url_of text) ts diff)
    /\ truthy call_id = true
    /\ format call_id = Ok text
    /\ (diff = PNone \/ exists f, diff = PFloat f).
Proof.
  intros H Hr.
  assert (Hacc : Forall (fun w => accepted w = true) webhooks)
    by (apply process_loop_accepted with (results := []) (seen := []); eauto).
  rewrite (process_webhooks_accepted _ Hacc) in H. injection H as <-.
  now apply first_occurrences_incl, extracted_record in Hr.
Qed.

(** The line of a record of a run fails only for the text of one of the
    five values that are passed through. *)
Lemma report_line_record_raises (m : list (str * pyval))
      (call_id ts diff : pyval) (text : str) (e : exc) :
  format call_id = Ok text ->
  diff = PNone \/ (exists f, diff = PFloat f) ->
  report_line (PDict (record_of_parts m call_id (url_of text) ts diff))
  = Raise e ->
  exists k v,
    In k ["vapiCallDuration"; "lastMessageTimeStamp"; "startedAt";
          "endedAt"; "endedReason"]
    /\ getitem (PDict (record_of_parts m call_id (url_of text) ts diff)) k
       = Ok v
    /\ no_text v e.
Proof.
  intros Htext Hdiff. unfold report_line.
  rewrite (report_row_record _ _ _ _ _ Htext). cbn [bind].
  destruct (field_texts _) as [texts|e'] eqn:Et; cbn [bind]; [discriminate|].
  intros [= <-]. apply field_texts_raises in Et as (v & Hv & Hno).
  cbn [In] in Hv.
  destruct Hv as [<- | [<- | [<- | [<- | [<- | [<- | [<- | []]]]]]]].
  - contradiction.
  - exists "vapiCallDuration", (field m "durationSeconds" PNone).
    split; [simpl; auto | split; [reflexivity | exact Hno]].
  - exists "lastMessageTimeStamp", ts.
    split; [simpl; auto | split; [reflexivity | exact Hno]].
  - destruct Hdiff as [-> | [f ->]]; contradiction.
  - exists "startedAt", (field m "startedAt" PNone).
    split; [simpl; auto | split; [reflexivity | exact Hno]].
  - exists "endedAt", (field m "endedAt" PNone).
    split; [simpl; auto | split; [reflexivity | exact Hno]].
  - exists "endedReason", (field m "endedReason" PNone).
    split; [simpl; auto 6 | split; [reflexivity | exact Hno]].
Qed.

(** The records that a run returns have the fields that [save_to_csv]
    reads, and their [callID] has a text: the values of the seven
    columns are there, and [save_to_csv] raises no [KeyError] and no
    [TypeError] on them.  It ends well, or with [UnicodeEncodeError] on
    a text with a lone surrogate, or with the exception of [str] on one
    of the five values that are passed through: [ValueError] for an
    integer of more than 4300 digits, what [repr] raises for a sequence
    or a mapping. *)
Theorem save_to_csv_of_run (webhooks data : list pyval) :
  process_webhooks webhooks = Ok data ->
  Forall (fun r => exists cells, report_row r = Ok cells) data
  /\ (snd (save_to_csv data) = Ok tt
      \/ snd (save_to_csv data) = Raise UnicodeEncodeError
      \/ exists r k v e,
           In r data
           /\ In k ["vapiCallDuration"; "lastMessageTimeStamp"; "startedAt";
                    "endedAt"; "endedReason"]
           /\ getitem r k = Ok v
           /\ no_text v e
           /\ snd (save_to_csv data) = Raise e).
Proof.
  intros H. split.
  - apply Forall_forall. intros r Hr.
    destruct (run_records _ _ _ H Hr)
      as (m & id & text & ts & diff & -> & _ & Htext & _).
    rewrite (report_row_record _ _ _ _ _ Htext). eauto.
  - destruct (save_to_csv_ended data) as [Hs | [Hs | (r & e & Hr & He & Hs)]];
      [now left | now right; left |].
    right; right.
    destruct (run_records _ _ _ H Hr)
      as (m & id & text & ts & diff & -> & _ & Htext & Hdiff).
    destruct (report_line_record_raises _ _ _ _ _ _ Htext Hdiff He)
      as (k & v & Hk & Hv & Hno).
    exists (PDict (record_of_parts m id (url_of text) ts diff)), k, v, e.
    auto.
Qed.

(** *** The hyperlink *)

(** A row of two fields or more is the fields joined. *)
Lemma writerow_fields (a b : str) (rest : list str) :
  Csv.writerow (a :: b :: rest)
  = (Csv.join_fields (a :: b :: rest)
     ++ String Csv.CR (String Csv.LF EmptyString))%string.
Proof. unfold Csv.writerow. now destruct a. Qed.

Lemma needs_quotes_formula (text : str) :
  Csv.needs_quotes (formula_of text) = true.
Proof. reflexivity. Qed.

(** The line of an extracted record whose other six values have texts.
    The first field is the formula, always in quotes, with the quotes
    inside it doubled: the formula links to the dashboard page of the
    call, the base URL and the query template followed by [&c=] and
    [str] of the [callID], and shows that text.  Then come the other
    six fields, each the text of the value of the record (nothing for
    [None]), and the end of the line. *)
Theorem report_line_hyperlink (doc : pyval) (rec : list (str * pyval))
        (cells : list str) :
  extract_call_data doc = Ok (PDict rec) ->
  Forall2 cell_text (map (fun k => field rec k PNone) PLAIN_FIELDS) cells ->
  exists call_id id_text,
    lookup "callID" rec = Some call_id
    /\ str_text call_id id_text
    /\ report_line (PDict rec)
       = Ok (Csv.quoted
               (dq "=HYPERLINK('" ++ DASHBOARD_BASE_URL ++ "?"
                ++ DASHBOARD_PARAMS ++ "&c=" ++ id_text
                ++ dq "', '" ++ id_text ++ dq "')")
             ++ String Csv.COMMA (Csv.join_fields cells)
             ++ String Csv.CR (String Csv.LF EmptyString))%string.
Proof.
  intros H Hcells. apply extract_call_data_record in H
    as (d & m & c & a & ts & diff & url
        & _ & _ & _ & _ & _ & _ & _ & Hu & ->).
  apply dashboard_url_ok in Hu as (text & Htext & ->).
  exists (field c "id" PNone), text.
  split; [reflexivity|]. split; [now apply format_str_text|].
  unfold report_line. fold (url_of text).
  rewrite (report_row_record _ _ _ _ _ Htext). cbn [bind].
  change (map _ PLAIN_FIELDS)
    with [field m "durationSeconds" PNone; ts; diff;
          field m "startedAt" PNone; field m "endedAt" PNone;
          field m "endedReason" PNone] in Hcells.
  destruct cells as [|cell cells]; [inversion Hcells|].
  apply field_texts_cells in Hcells.
  rewrite field_texts_str, Hcells. cbn [bind].
  rewrite writerow_fields. cbn [Csv.join_fields]. unfold Csv.write_field at 1.
  rewrite needs_quotes_formula. unfold formula_of, url_of.
  rewrite !append_assoc. cbn [append]. reflexivity.
Qed.

End ReportProperties.

(* ================================================================== *)
(** ** Properties of [main] *)
(* ================================================================== *)

Section SummaryProperties.

Context {L : Library}.

(** *** [float] of a count *)

Lemma digits2_pos_shift (n k : positive) :
  digits2_pos (Pos.iter xO n k) = (digits2_pos n + k)%positive.
Proof.
  apply (Pos.iter_ind _ xO n
           (fun k a => digits2_pos a = (digits2_pos n + k)%positive)).
  - simpl. lia.
  - intros p a H. simpl. rewrite H. lia.
Qed.

Lemma digits2_pos_bound (p : positive) :
  Z.pos p < 2 ^ 53 -> Z.pos (digits2_pos p) <= 53.
Proof.
  intros H.
  assert (Hsize : digits2_pos p = Pos.size p)
    by (clear H; induction p; simpl; congruence).
  rewrite Hsize. pose proof (Pos.size_le p) as Hle.
  destruct (Z.le_gt_cases (Z.pos (Pos.size p)) 53) as [|Hgt]; [assumption|].
  exfalso.
  assert (H54 : 2 ^ 54 <= 2 ^ Z.pos (Pos.size p))
    by (apply Z.pow_le_mono_r; lia).
  assert (Hp : Z.pos (2 ^ Pos.size p) = 2 ^ Z.pos (Pos.size p))
    by (rewrite Pos2Z.inj_pow; reflexivity).
  assert (Z.pos (2 ^ Pos.size p) <= Z.pos p~0) by exact Hle.
  change (2 ^ 54) with (2 * 2 ^ 53) in H54. lia.
Qed.

(** A mantissa of 53 bits is not rounded. *)
Lemma binary_round_aux_exact (m : positive) (e : Z) :
  Z.pos (digits2_pos m) = 53 -> -52 <= e <= 0 ->
  binary_round_aux prec emax false (Z.pos m) e loc_Exact
  = S754_finite false m e.
Proof.
  intros Hm He.
  assert (Hshr : shr_fexp prec emax (Z.pos m) e loc_Exact
                 = ({| shr_m := Z.pos m; shr_r := false; shr_s := false |}, e)).
  { unfold shr_fexp. cbv [Zdigits2]. rewrite Hm.
    replace (fexp prec emax (53 + e) - e) with 0
      by (unfold fexp, emin, prec, emax; lia).
    reflexivity. }
  unfold binary_round_aux. rewrite Hshr.
  cbn [shr_m loc_of_shr_record shr_r shr_s round_nearest_even].
  rewrite Hshr. cbn [shr_m].
  replace (e <=? emax - prec) with true; [reflexivity|].
  symmetry. apply Z.leb_le. unfold emax, prec. lia.
Qed.

(** An [int] from 0 to [2^53] converts to a [float]. *)
Lemma float_of_int_small (z : Z) :
  0 <= z < 2 ^ 53 -> exists f, float_of_int z = Ok f.
Proof.
  intros [H0 H]. unfold float_of_int, binary_normalize.
  destruct z as [|p|p]; [eauto | | lia].
  pose proof (digits2_pos_bound p H) as Hd.
  unfold binary_round, shl_align.
  assert (Hfexp : fexp prec emax (Z.pos (digits2_pos p) + 0)
                  = Z.pos (digits2_pos p) - 53)
    by (unfold fexp, emin, prec, emax; lia).
  rewrite Hfexp.
  destruct (Z.pos (digits2_pos p) - 53 - 0) as [|q|q] eqn:E; try lia.
  - rewrite binary_round_aux_exact by lia. eauto.
  - replace (Z.pos (digits2_pos p) - 53) with (Z.neg q) by lia.
    rewrite binary_round_aux_exact; [eauto | | lia].
    rewrite digits2_pos_shift. lia.
Qed.

(** *** The numbers of the summary *)

Lemma max_from_in (rest : list pyval) :
  forall first, In (max_from first rest) (first :: rest).
Proof.
  induction rest as [|x rest IH]; intros first; [now left|].
  cbn [max_from].
  destruct (IH (if less first x then x else first)) as [H | H].
  - rewrite <- H. destruct (less first x); simpl; auto.
  - right. now right.
Qed.

Lemma min_from_in (rest : list pyval) :
  forall first, In (min_from first rest) (first :: rest).
Proof.
  induction rest as [|x rest IH]; intros first; [now left|].
  cbn [min_from].
  destruct (IH (if less x first then x else first)) as [H | H].
  - rewrite <- H. destruct (less x first); simpl; auto.
  - right. now right.
Qed.

Lemma sum_from_floats (valid : list pyval) :
  Forall (fun v => is_float v = true) valid ->
  forall f, exists s, sum_from (TFloat f) valid = Ok (TFloat s).
Proof.
  induction 1 as [|v rest Hv _ IH]; intros f; [simpl; eauto|].
  destruct v; try discriminate. cbn [sum_from add_to bind]. apply IH.
Qed.

Lemma format_2f_float (v : pyval) : is_float v = true -> format_2f v = Ok tt.
Proof. destruct v; try discriminate. reflexivity. Qed.

(** The summary of differences that are floats: nothing raises, the
    numbers are there when there is a difference, and the greatest and
    the least are among the differences. *)
Lemma summary_statistics_floats (valid : list pyval) :
  Forall (fun v => is_float v = true) valid ->
  Z.of_nat (List.length valid) < 2 ^ 53 ->
  exists numbers,
    summary_statistics valid = Ok numbers
    /\ (numbers = None <-> valid = [])
    /\ (forall s, numbers = Some s ->
                  In (max_diff s) valid /\ In (min_diff s) valid).
Proof.
  intros Hfloat Hlen. destruct valid as [|first rest].
  - exists None. repeat split; discriminate.
  - unfold summary_statistics.
    assert (Hsum : exists s, sum_from (TInt 0) (first :: rest) = Ok (TFloat s)).
    { pose proof Hfloat as Hall.
      apply Forall_cons_iff in Hall as [Hf Hrest].
      destruct first; try discriminate. cbn [sum_from add_to].
      change (float_of_int 0) with (@Ok float (S754_zero false)).
      cbn [bind]. now apply sum_from_floats. }
    destruct Hsum as [s ->]. cbn [bind divide].
    destruct (float_of_int_small (Z.pos (Pos.of_succ_nat (List.length rest))))
      as [g ->].
    { rewrite Zpos_P_of_succ_nat. cbn [List.length] in Hlen. lia. }
    cbn [bind].
    pose proof (max_from_in rest first) as Hmax.
    pose proof (min_from_in rest first) as Hmin.
    rewrite Forall_forall in Hfloat.
    rewrite !format_2f_float by auto. cbn [bind].
    eexists. split; [reflexivity|]. split.
    + split; discriminate.
    + intros s' [= <-]. simpl. auto.
Qed.

Lemma valid_differences_records (data : list pyval) :
  Forall (fun r => exists m call_id url ts diff,
              r = PDict (record_of_parts m call_id url ts diff)
              /\ (diff = PNone \/ exists f, diff = PFloat f)) data ->
  valid_differences data
  = Ok (filter (fun v => negb (is_none v)) (map difference_of data))
  /\ Forall (fun v => is_float v = true)
            (filter (fun v => negb (is_none v)) (map difference_of data)).
Proof.
  induction 1 as [|r rest Hr _ [IH1 IH2]]; [split; [reflexivity | constructor]|].
  destruct Hr as (m & id & url & ts & diff & -> & Hdiff).
  cbn [valid_differences map filter].
  change (getitem (PDict (record_of_parts m id url ts diff)) "difference")
    with (@Ok pyval diff).
  change (difference_of (PDict (record_of_parts m id url ts diff))) with diff.
  cbn [bind]. rewrite IH1.
  destruct Hdiff as [-> | [f ->]]; cbn [is_none negb bind].
  - split; [reflexivity | exact IH2].
  - split; [reflexivity | now constructor].
Qed.

End SummaryProperties.

Section MainProperties.

Context {L : Library} {DB : Supabase}.

(** The summary of a run.  For the records that [process_webhooks]
    returns, of fewer than [2^53] rows, the part of [main] that follows
    raises nothing but what [save_to_csv] raises.  After a file that is
    written to its end the summary is printed: every difference that is
    not [None] is a float, so the sum, the average, the greatest and
    the least exist, and the greatest and the least are differences of
    records.  The summary has no numbers exactly when no record has a
    difference. *)
Theorem report_of_run (webhooks data : list pyval) :
  process_webhooks webhooks = Ok data ->
  data <> [] ->
  Z.of_nat (List.length webhooks) < 2 ^ 53 ->
  (exists e, snd (save_to_csv data) = Raise e
             /\ ended (report data) = Raise e)
  \/ (snd (save_to_csv data) = Ok tt
      /\ exists valid numbers,
           ended (report data) = Ok (Summary (List.length data) valid numbers)
           /\ valid = filter (fun v => negb (is_none v)) (map difference_of data)
           /\ Forall (fun v => is_float v = true) valid
           /\ (numbers = None <-> valid = [])
           /\ (forall s, numbers = Some s ->
                         In (max_diff s) valid /\ In (min_diff s) valid)).
Proof.
  intros H Hdata Hlen.
  assert (Hrec : Forall (fun r => exists m call_id url ts diff,
                           r = PDict (record_of_parts m call_id url ts diff)
                           /\ (diff = PNone \/ exists f, diff = PFloat f)) data).
  { apply Forall_forall. intros r Hr.
    destruct (run_records _ _ _ H Hr)
      as (m & id & text & ts & diff & -> & _ & _ & Hdiff).
    eauto 7. }
  assert (Hsize : (List.length data <= List.length webhooks)%nat).
  { assert (Hacc : Forall (fun w => accepted w = true) webhooks)
      by (apply process_loop_accepted with (results := []) (seen := []); eauto).
    rewrite (process_webhooks_accepted _ Hacc) in H. injection H as <-.
    etransitivity; [apply first_occurrences_length | apply extracted_length]. }
  destruct (valid_differences_records data Hrec) as [Hvalid Hfloat].
  destruct (summary_statistics_floats _ Hfloat) as (numbers & Hnum & Hnone & Hin).
  { pose proof (filter_length_le (fun v => negb (is_none v))
                                 (map difference_of data)) as Hle.
    rewrite length_map in Hle. lia. }
  unfold report. destruct data as [|r rest]; [contradiction|].
  destruct (save_to_csv (r :: rest)) as [f [[]|e]]; cbn [snd ended bind].
  - right. split; [reflexivity|]. eexists _, numbers.
    split; [| split; [reflexivity | split; [exact Hfloat | split; assumption]]].
    rewrite Hvalid. cbn [bind]. now rewrite Hnum.
  - left. exists e. now split.
Qed.

(** Without a URL or without a key, [main] reports the error and
    returns as after a run that went well: it raises nothing, sends no
    request and writes no file, whatever the store holds. *)
Theorem main_missing_credentials (env : environ) (requests : nat) :
  first_set env ["SUPABASE_PROD_URL"; "SUPABASE_URL"] = None
  \/ first_set env ["SUPABASE_PROD_KEY"; "SUPABASE_KEY"] = None ->
  main requests env
  = Some {| csv_file := None; ended := Ok MissingCredentials |}.
Proof.
  intros H. unfold main. rewrite get_supabase_client_first_set.
  destruct H as [-> | ->]; [reflexivity|].
  now destruct (first_set env ["SUPABASE_PROD_URL"; "SUPABASE_URL"]).
Qed.

(** A whole run.  With a client for a store that holds a table and
    answers each request with the rows of the range asked for, with
    rows that the loop accepts and enough requests for the table,
    [main] reports on the first record of each call of the whole
    table, in the order of the table; when the table is empty it
    writes no file. *)
Theorem main_reports_table (env : environ) (client : Client)
        (table : list pyval) (requests : nat) :
  get_supabase_client env = Ok client ->
  (forall first last,
      select_range client 30 first last
      = Ok (Some (rows_in_range table first last))) ->
  Forall (fun w => accepted w = true) table ->
  (List.length table / 1000 < requests)%nat ->
  main requests env
  = Some (match table with
          | [] => {| csv_file := None; ended := Ok NoWebhooks |}
          | _ :: _ => report (first_occurrences [] (extracted table))
          end).
Proof.
  intros Hclient Hstore Hacc Hreq. unfold main. rewrite Hclient.
  rewrite (fetch_webhooks_table client 30 table requests Hstore).
  apply Nat.ltb_lt in Hreq. rewrite Hreq.
  destruct table as [|w ws]; [reflexivity|].
  now rewrite (process_webhooks_accepted _ Hacc).
Qed.

End MainProperties.

(* ================================================================== *)
(** ** The further properties on concrete rows, stores and records *)
(* ================================================================== *)

Section MoreExamples.

#[local] Existing Instance CPython.library.

(** The rows of A and B, then those of A and C. *)
Lemma process_webhooks_prefix_witness :
  exists out_a out,
    process_webhooks (firstn 2 rows_ABAC) = Ok out_a
    /\ process_webhooks (firstn 2 rows_ABAC ++ skipn 2 rows_ABAC) = Ok out
    /\ map call_id_of out_a = [PStr "A"; PStr "B"]
    /\ map call_id_of out = [PStr "A"; PStr "B"; PStr "C"].
Proof.
  evaluated (process_webhooks (firstn 2 rows_ABAC ++ skipn 2 rows_ABAC)) E.
  destruct (@process_webhooks_prefix CPython.library _ _ _ E)
    as (out_a & Ha & Hout).
  exists out_a. exists_result E.
  split; [exact Ha|]. split; [exact E|]. split; [| reflexivity].
  evaluated (process_webhooks (firstn 2 rows_ABAC)) E'.
  rewrite Ha in E'. injection E' as ->. reflexivity.
Defined.

(** A row whose payload no strategy decodes, between the rows of A, B
    and those of A, C. *)
Lemma process_webhooks_skips_witness :
  process_webhooks (firstn 2 rows_ABAC
                    ++ row (PStr "not valid base64 or json @@@")
                    :: skipn 2 rows_ABAC)
  = process_webhooks (firstn 2 rows_ABAC ++ skipn 2 rows_ABAC).
Proof.
  apply (@process_webhooks_skips CPython.library); vm_compute; reflexivity.
Defined.

(** The four rows, and then the same rows backwards. *)
Lemma process_webhooks_replay_witness :
  exists out,
    process_webhooks rows_ABAC = Ok out
    /\ process_webhooks (rows_ABAC ++ rev rows_ABAC) = Ok out.
Proof.
  evaluated (process_webhooks rows_ABAC) E. exists_result E.
  split; [exact E|].
  apply (@process_webhooks_replay CPython.library _ _ _ E).
  intros w Hw. apply (proj2 (in_rev rows_ABAC w)). exact Hw.
Defined.

Lemma process_webhooks_covers_witness :
  exists out,
    process_webhooks rows_ABAC = Ok out
    /\ (List.length out <= 4)%nat
    /\ forall r, In r (extracted rows_ABAC) ->
                 exists o, In o out /\ same_call_id r o = true.
Proof.
  evaluated (process_webhooks rows_ABAC) E. exists_result E.
  split; [exact E|].
  destruct (@process_webhooks_covers CPython.library _ _ E) as (Hc & _ & Hl).
  split; [exact Hl | exact Hc].
Defined.

(** The difference of the durations 62.5 and 60.0. *)
Lemma extract_call_data_difference_witness :
  exists rec,
    extract_call_data (call_report "call-A" "hangup") = Ok (PDict rec)
    /\ lookup "difference" rec = Some (PFloat (float_lit 5 (-1))).
Proof.
  evaluated (extract_call_data (call_report "call-A" "hangup")) E.
  exists_result E. split; [exact E|].
  destruct (@extract_call_data_difference CPython.library _ _ E)
    as (duration & ts & Hd & Ht & Hdiff).
  injection Hd as <-. injection Ht as <-. rewrite Hdiff.
  vm_compute. reflexivity.
Defined.

(** A production URL with an empty production key, beside a general
    pair: the client is for the production URL, with the general key. *)
Lemma get_supabase_client_mixed_pair_witness :
  @get_supabase_client recording_store half_production
  = Ok ("https://prod.supabase.co", "dev-key").
Proof.
  apply (@get_supabase_client_mixed_pair recording_store half_production
           "https://prod.supabase.co" "dev-key");
    try reflexivity; discriminate.
Defined.

(** 2500 rows: two full pages and a page of 500, with three requests
    and not with two. *)
Lemma fetch_webhooks_pages_witness :
  @fetch_webhooks (table_store (numbered_rows 2500)) 3 tt 30
  = Some (Ok (numbered_rows 2500))
  /\ @fetch_webhooks (table_store (numbered_rows 2500)) 2 tt 30 = None.
Proof.
  split.
  - rewrite (@fetch_webhooks_pages (table_store (numbered_rows 2500))
               tt 30 2 3).
    + vm_compute. reflexivity.
    + intros [|[|j]] Hj; [vm_compute; reflexivity | vm_compute; reflexivity | lia].
    + vm_compute. reflexivity.
  - rewrite (@fetch_webhooks_pages (table_store (numbered_rows 2500))
               tt 30 2 2).
    + reflexivity.
    + intros [|[|j]] Hj; [vm_compute; reflexivity | vm_compute; reflexivity | lia].
    + vm_compute. reflexivity.
Defined.

Lemma fetch_webhooks_endless_witness :
  @fetch_webhooks (endless_store PNone) 5 tt 30 = None.
Proof.
  apply (@fetch_webhooks_endless (endless_store PNone) tt 30).
  intros k. unfold full_page, page. cbn [select_range endless_store bind].
  rewrite repeat_length. apply Z.leb_le. unfold page_size. lia.
Defined.

(** The store fails at the second page. *)
Lemma fetch_webhooks_failure_witness :
  @fetch_webhooks (failing_store (numbered_rows 2500) 1000) 5 tt 30
  = Some (Raise OSError).
Proof.
  apply (@fetch_webhooks_failure (failing_store (numbered_rows 2500) 1000)
           tt 30 1 5 OSError).
  - intros [|j] Hj; [vm_compute; reflexivity | lia].
  - vm_compute. reflexivity.
  - lia.
Defined.

(** 3000 rows take four requests: the fourth page is empty. *)
Lemma fetch_webhooks_complete_witness :
  @fetch_webhooks (table_store (numbered_rows 3000)) 4 tt 30
  = Some (Ok (numbered_rows 3000)).
Proof.
  apply (proj1 (@fetch_webhooks_complete (table_store (numbered_rows 3000))
                  tt 30 (numbered_rows 3000) (fun _ _ => eq_refl) 4)).
  apply Nat.ltb_lt. vm_compute. reflexivity.
Defined.

(** A store that gives 500 rows at most: of 2500 rows, 500 are
    fetched. *)
Lemma fetch_webhooks_capped_witness :
  @fetch_webhooks (capped_store (numbered_rows 2500) 500) 1 tt 30
  = Some (Ok (numbered_rows 500)).
Proof.
  rewrite (@fetch_webhooks_capped (capped_store (numbered_rows 2500) 500)
             tt 30 (numbered_rows 2500) 500 0).
  - vm_compute. reflexivity.
  - lia.
  - reflexivity.
Defined.

(** The file of two records. *)
Lemma save_to_csv_file_witness :
  save_to_csv [record_of_report "A" "hangup"; record_of_report "B" "timeout"]
  = (Some (header_line ++ line_of_report "A" "hangup"
           ++ line_of_report "B" "timeout")%string,
     Ok tt).
Proof.
  rewrite (@save_to_csv_file CPython.library).
  - vm_compute. reflexivity.
  - repeat constructor; vm_compute; reflexivity.
Defined.

(** A record without its fields, and a record with a lone surrogate in
    a text, between two records: the file ends after the first. *)
Lemma save_to_csv_partial_file_witness :
  save_to_csv ([record_of_report "A" "hangup"]
               ++ PDict [("callID", PStr "B")]
               :: [record_of_report "C" "hangup"])
  = (Some (header_line ++ line_of_report "A" "hangup")%string, Raise KeyError)
  /\ save_to_csv ([record_of_report "A" "hangup"]
                  ++ record_of_report "B" lone_surrogate
                  :: [record_of_report "C" "hangup"])
     = (Some (header_line ++ line_of_report "A" "hangup")%string,
        Raise UnicodeEncodeError).
Proof.
  split.
  - rewrite (@save_to_csv_partial_file CPython.library).
    + vm_compute. reflexivity.
    + repeat constructor; vm_compute; reflexivity.
    + vm_compute. reflexivity.
  - rewrite (@save_to_csv_partial_file CPython.library).
    + vm_compute. reflexivity.
    + repeat constructor; vm_compute; reflexivity.
    + vm_compute. reflexivity.
Defined.

(** The records of the calls A, B and C are written; of the records of
    A and of a call whose duration is the integer 10^4300, the first is
    written and the second ends [save_to_csv] with [ValueError]. *)
Lemma save_to_csv_of_run_witness :
  (exists data,
     process_webhooks rows_ABAC = Ok data
     /\ Forall (fun r => exists cells, report_row r = Ok cells) data
     /\ snd (save_to_csv data) = Ok tt)
  /\ (exists data,
        process_webhooks rows_huge_field = Ok data
        /\ Forall (fun r => exists cells, report_row r = Ok cells) data
        /\ save_to_csv data
           = (Some (header_line ++ line_of_report "A" "hangup")%string,
              Raise ValueError)).
Proof.
  split.
  - evaluated (process_webhooks rows_ABAC) E. exists_result E.
    split; [exact E|].
    destruct (@save_to_csv_of_run CPython.library _ _ E) as [Hrows _].
    split; [exact Hrows | vm_compute; reflexivity].
  - evaluated (process_webhooks rows_huge_field) E. exists_result E.
    split; [exact E|].
    destruct (@save_to_csv_of_run CPython.library _ _ E) as [Hrows _].
    split; [exact Hrows | vm_compute; reflexivity].
Defined.

(** The line of call [call-A]. *)
Lemma report_line_hyperlink_witness :
  exists rec,
    extract_call_data (call_report "call-A" "hangup") = Ok (PDict rec)
    /\ report_line (PDict rec) = Ok (line_of_report "call-A" "hangup").
Proof.
  evaluated (extract_call_data (call_report "call-A" "hangup")) E.
  exists_result E. split; [exact E|].
  destruct (@report_line_hyperlink CPython.library _ _
              ["62.5"; "60.0"; "2.5"; "2025-01-01T10:00:00Z";
               "2025-01-01T10:01:02Z"; "hangup"] E)
    as (call_id & id_text & Hid & Htext & Hline).
  { repeat (apply Forall2_cons; [vm_compute; reflexivity|]).
    apply Forall2_nil. }
  injection Hid as <-. cbn [str_text] in Htext. subst id_text.
  rewrite Hline. vm_compute. reflexivity.
Defined.

(** The summary of the degraded rows: two calls, one with a difference,
    2.5 seconds. *)
Lemma report_of_run_witness :
  exists data valid numbers,
    process_webhooks rows_degraded = Ok data
    /\ ended (report data) = Ok (Summary 2 valid numbers)
    /\ valid = [PFloat (float_lit 5 (-1))].
Proof.
  evaluated (process_webhooks rows_degraded) E. exists_result E.
  destruct (@report_of_run CPython.library _ _ E ltac:(discriminate)
              ltac:(vm_compute; reflexivity))
    as [(e & Hbad & _) | (_ & valid & numbers & Hend & Hvalid & _)].
  - exfalso. revert Hbad. vm_compute. discriminate.
  - exists valid, numbers. split; [exact E|]. split; [exact Hend|].
    rewrite Hvalid. vm_compute. reflexivity.
Defined.

(** A URL and no key: nothing is fetched from the store. *)
Lemma main_missing_credentials_witness :
  @main CPython.library store_ABAC 1 no_key
  = Some {| csv_file := None; ended := Ok MissingCredentials |}.
Proof.
  apply (@main_missing_credentials CPython.library store_ABAC no_key 1).
  right. reflexivity.
Defined.

(** A run on the store of the calls A, B, A, C: the file has the lines
    of A, B and C. *)
Lemma main_reports_table_witness :
  @main CPython.library store_ABAC 1 production
  = Some (report (first_occurrences [] (extracted rows_ABAC)))
  /\ csv_file (report (first_occurrences [] (extracted rows_ABAC)))
     = Some (header_line ++ line_of_report "A" "hangup"
             ++ line_of_report "B" "hangup"
             ++ line_of_report "C" "hangup")%string.
Proof.
  split.
  - apply (@main_reports_table CPython.library store_ABAC production tt
             rows_ABAC 1).
    + reflexivity.
    + intros first last. reflexivity.
    + repeat constructor; vm_compute; reflexivity.
    + apply Nat.ltb_lt. vm_compute. reflexivity.
  - vm_compute. reflexivity.
Defined.

End MoreExamples.
